(** * app-gastos: expense ledger over SQLite, as written in [app_gastos.py]

    The script keeps one table, [gastos], in an SQLite file and drives it
    from a Streamlit page.  This development embeds the data functions of
    the script ([init_db], [guardar_gasto], [cargar_datos],
    [actualizar_nombre_categoria], [eliminar_gasto]), the handler of the
    "Guardar Gasto" button and the pandas expressions of the report
    section, and proves or refutes the properties the specification states
    about them.

    Conventions of the embedding.
    - Python [str] values are sequences of Unicode code points ([list N]).
    - SQLite [REAL] and Python [float] amounts are rationals ([Q]); sums and
      quotients are exact.
    - A date is its proleptic Gregorian ordinal ([datetime.date.toordinal]),
      so consecutive integers are consecutive calendar days.
    - Every function of the script that opens a connection runs in the
      monad [M] over [Mundo]: the content of the database file, the
      condition in which the storage will be found at each coming
      [sqlite3.connect], and the chronological trace of the messages shown
      on the page and of the statements handed to the engine. *)

From Stdlib Require Import ZArith QArith List String Ascii Permutation Sorted Lia Lqa Bool.
From stdpp Require Import base list gmap.



(** ** Python text *)

Module PyStr.

Definition str := list N.

(** A literal made of ASCII characters. *)
Definition py (s : string) : str :=
  List.map N_of_ascii (list_ascii_of_string s).

(** [str.isspace] on one code point: the table CPython consults for
    [str.strip()] without arguments. *)
Definition isspace (c : N) : bool :=
  ((9 <=? c) && (c <=? 13) || (28 <=? c) && (c <=? 32)
   || (c =? 133) || (c =? 160) || (c =? 5760)
   || (8192 <=? c) && (c <=? 8202)
   || (c =? 8232) || (c =? 8233) || (c =? 8239) || (c =? 8287)
   || (c =? 12288))%N.

Fixpoint lstrip (s : str) : str :=
  match s with
  | [] => []
  | c :: s' => if isspace c then lstrip s' else s
  end.

Definition rstrip (s : str) : str := rev (lstrip (rev s)).

Definition strip (s : str) : str := rstrip (lstrip s).

Definition eqb (s t : str) : bool := bool_decide (s = t).

(** Truth value of a string: [not s] holds of the empty string only. *)
Definition falsy (s : str) : bool :=
  match s with [] => true | _ :: _ => false end.

(** Python compares strings code point by code point. *)
Fixpoint compare (s t : str) : comparison :=
  match s, t with
  | [], [] => Eq
  | [], _ :: _ => Lt
  | _ :: _, [] => Gt
  | a :: s', b :: t' =>
      match (a ?= b)%N with
      | Eq => compare s' t'
      | o => o
      end
  end.

End PyStr.

Abbreviation str := PyStr.str.
Abbreviation py := PyStr.py.

(** ** The database file *)

(** One row of [gastos].  The record holds the six attributes the script
    reads and writes; [fecha] is the day the text ['%Y-%m-%d'] denotes. *)
Record Gasto := mkGasto {
  id : Z;
  categoria : str;
  concepto : str;
  banco : str;
  monto_usd : Q;
  fecha : Z
}.

(** The table: the names of its columns (SQLite matches identifiers without
    regard to case; the names are kept in lower case), its rows in rowid
    order and the [sqlite_sequence] counter behind [AUTOINCREMENT].  The
    amount of a row lives in [monto_usd] whatever name the column has at the
    moment (a legacy file calls it [monto]); the [categoria] attribute of a
    row is only readable once the column exists. *)
Record Tabla := mkTabla {
  columnas : list string;
  filas : list Gasto;
  secuencia : Z
}.

(** [None]: the file holds no table named [gastos]. *)
Definition Base := option Tabla.

Definition columnas_nuevas : list string :=
  ["id"; "categoria"; "concepto"; "banco"; "monto_usd"; "fecha"]%string.

Definition tiene_columna (c : string) (t : Tabla) : bool :=
  existsb (String.eqb c) (columnas t).

Definition tiene_columnas (cs : list string) (t : Tabla) : bool :=
  forallb (fun c => tiene_columna c t) cs.

(** ** Exceptions *)

(** [OperationalError] is [sqlite3.OperationalError]; [DatabaseError] stands
    for the other subclasses of [sqlite3.Error]. *)
Inductive ClaseSqlite := OperationalError | DatabaseError.

Inductive Motivo :=
| UnableToOpen
| NoSuchTable
| NoSuchColumn (c : string)
| DuplicateColumn (c : string)
| StorageFault.

Inductive Excepcion :=
| SqliteError (c : ClaseSqlite) (m : Motivo)
| UnboundLocalError
| TypeError
| RerunException.

Definition es_sqlite3_Error (e : Excepcion) : bool :=
  match e with SqliteError _ _ => true | _ => false end.

Definition es_OperationalError (e : Excepcion) : bool :=
  match e with SqliteError OperationalError _ => true | _ => false end.

(** [except Exception]: [RerunException] is raised by [st.rerun()] and is
    never raised inside a [try] of the script. *)
Definition es_Exception (e : Excepcion) : bool :=
  match e with RerunException => false | _ => true end.

(** ** SQL statements of the script *)

Inductive Sentencia :=
| CreateTableIfNotExists
| AlterRenameMonto
| AlterAddCategoria
| InsertGasto (cat con ban : str) (monto : Q) (dia : Z)
| SelectGastos
| UpdateCategoria (nuevo viejo : str)
| DeleteGasto (gid : Z).

(** What a statement hands back: the rows of a [SELECT] and the number of
    rows changed, which the connection adds to [total_changes]. *)
Record Respuesta := mkRespuesta {
  resultado : list Gasto;
  cambios : nat
}.

Definition sin_filas : Respuesta := mkRespuesta [] 0.

(** *** Stable descending sort

    The engine scans [gastos] in rowid order and sorts the rows by the
    [ORDER BY] key alone; rows with equal keys leave the sorter in the order
    they entered it.  pandas' [nlargest] (keep='first') and [sort_values]
    on the ten values it keeps behave alike. *)
Section OrdenEstable.
Context {A : Type} (menor : A -> A -> bool).

Fixpoint insertar (x : A) (l : list A) : list A :=
  match l with
  | [] => [x]
  | y :: l' => if menor x y then y :: insertar x l' else x :: l
  end.

Definition ordenar_desc (l : list A) : list A := fold_right insertar [] l.
End OrdenEstable.

Definition fecha_menor (a b : Gasto) : bool := (fecha a <? fecha b)%Z.

Definition max_id (l : list Gasto) : Z :=
  fold_right (fun r m => Z.max (id r) m) 0%Z l.

Definition otros : str := py "Otros".

Definition renombrar_columna (viejo nuevo : string) (cs : list string) : list string :=
  List.map (fun c => if String.eqb c viejo then nuevo else c) cs.

Definition poner_categoria (c : str) (r : Gasto) : Gasto :=
  mkGasto (id r) c (concepto r) (banco r) (monto_usd r) (fecha r).

Definition no_such_column (c : string) : Excepcion :=
  SqliteError OperationalError (NoSuchColumn c).

(** The engine on a healthy file. *)
Definition motor (s : Sentencia) (b : Base) : Excepcion + (Base * Respuesta) :=
  match s, b with
  | CreateTableIfNotExists, None =>
      inr (Some (mkTabla columnas_nuevas [] 0), sin_filas)
  | CreateTableIfNotExists, Some _ => inr (b, sin_filas)
  | _, None => inl (SqliteError OperationalError NoSuchTable)
  | AlterRenameMonto, Some t =>
      if negb (tiene_columna "monto" t) then inl (no_such_column "monto")
      else if tiene_columna "monto_usd" t
      then inl (SqliteError OperationalError (DuplicateColumn "monto_usd"))
      else inr (Some (mkTabla (renombrar_columna "monto" "monto_usd" (columnas t))
                              (filas t) (secuencia t)), sin_filas)
  | AlterAddCategoria, Some t =>
      if tiene_columna "categoria" t
      then inl (SqliteError OperationalError (DuplicateColumn "categoria"))
      else inr (Some (mkTabla (columnas t ++ ["categoria"%string])
                              (List.map (poner_categoria otros) (filas t))
                              (secuencia t)), sin_filas)
  | InsertGasto cat con ban monto dia, Some t =>
      match List.find (fun c => negb (tiene_columna c t))
                      ["categoria"; "concepto"; "banco"; "monto_usd"; "fecha"]%string with
      | Some c => inl (no_such_column c)
      | None =>
          let nuevo := (Z.max (secuencia t) (max_id (filas t)) + 1)%Z in
          inr (Some (mkTabla (columnas t)
                             (filas t ++ [mkGasto nuevo cat con ban monto dia])
                             nuevo),
               mkRespuesta [] 1)
      end
  | SelectGastos, Some t =>
      match List.find (fun c => negb (tiene_columna c t)) columnas_nuevas with
      | Some c => inl (no_such_column c)
      | None => inr (b, mkRespuesta (ordenar_desc fecha_menor (filas t)) 0)
      end
  | UpdateCategoria nuevo viejo, Some t =>
      if negb (tiene_columna "categoria" t) then inl (no_such_column "categoria")
      else
        let toca r := PyStr.eqb (categoria r) viejo in
        inr (Some (mkTabla (columnas t)
                           (List.map (fun r => if toca r then poner_categoria nuevo r else r)
                                     (filas t))
                           (secuencia t)),
             mkRespuesta [] (List.length (List.filter toca (filas t))))
  | DeleteGasto gid, Some t =>
      if negb (tiene_columna "id" t) then inl (no_such_column "id")
      else
        let queda r := negb (id r =? gid)%Z in
        inr (Some (mkTabla (columnas t) (List.filter queda (filas t)) (secuencia t)),
             mkRespuesta [] (List.length (filas t) - List.length (List.filter queda (filas t))))
  end.

(** ** The world and its monad *)

(** Condition of the storage at one [sqlite3.connect].  A fault is one of
    the whole connection: it strikes from the first statement on.  A fault
    that strikes a later statement only (a write refused after
    [CREATE TABLE IF NOT EXISTS] found the table) is not among these
    conditions. *)
Inductive Medio :=
| Sano                        (* the file opens and statements run *)
| NoAbre                      (* connect raises OperationalError: unable to open database file *)
| Averiado (c : ClaseSqlite). (* connect succeeds, every statement and commit raises *)

Inductive Lugar := Pagina | Sidebar.
Inductive Nivel := NivelError | NivelWarning | NivelSuccess.

(** The texts of the script, by what they say. *)
Inductive Texto :=
| ErrorAlInicializar (e : Excepcion)
| GastoGuardado (monto : Q) (con cat : str)
| ErrorAlGuardar (e : Excepcion)
| ErrorAlCargar (e : Excepcion)
| NombreVacio
| CategoriaRenombrada (viejo nuevo : str)
| ErrorAlActualizar (e : Excepcion)
| GastoNoEncontrado (gid : Z)
| GastoEliminado (gid : Z)
| ErrorAlEliminar (e : Excepcion)
| CompletaLosCampos
| TasaInvalida
| NombreIgual.

Inductive Evento :=
| Mostrar (l : Lugar) (n : Nivel) (t : Texto)
| Ejecutar (s : Sentencia)
| CacheClear.

Record Mundo := mkMundo {
  base : Base;
  medios : list Medio;     (* storage condition at each coming connect; [Sano] past the end *)
  traza : list Evento      (* oldest first *)
}.

Inductive Salida (A : Type) :=
| Ret (a : A)
| Raise (e : Excepcion).
Arguments Ret {A} a.
Arguments Raise {A} e.

Definition M (A : Type) : Type := Mundo -> Salida A * Mundo.

Definition ret {A} (a : A) : M A := fun w => (Ret a, w).

Definition raise {A} (e : Excepcion) : M A := fun w => (Raise e, w).

Definition bind {A B} (m : M A) (k : A -> M B) : M B :=
  fun w =>
    match m w with
    | (Ret a, w') => k a w'
    | (Raise e, w') => (Raise e, w')
    end.

#[global] Instance M_ret : MRet M := @ret.
#[global] Instance M_bind : MBind M := fun A B k m => bind m k.

Definition anotar (e : Evento) : M unit :=
  fun w => (Ret tt, mkMundo (base w) (medios w) (traza w ++ [e])).

Definition st_error (t : Texto) : M unit := anotar (Mostrar Pagina NivelError t).
Definition st_warning (t : Texto) : M unit := anotar (Mostrar Pagina NivelWarning t).
Definition st_success (t : Texto) : M unit := anotar (Mostrar Pagina NivelSuccess t).
Definition st_sidebar_error (t : Texto) : M unit := anotar (Mostrar Sidebar NivelError t).
Definition st_sidebar_warning (t : Texto) : M unit := anotar (Mostrar Sidebar NivelWarning t).
Definition st_sidebar_success (t : Texto) : M unit := anotar (Mostrar Sidebar NivelSuccess t).
Definition st_cache_data_clear : M unit := anotar CacheClear.
Definition st_rerun {A} : M A := raise RerunException.

(** [try: ... except <clase>: ...] *)
Definition try_except {A} (cuerpo : M A) (clase : Excepcion -> bool)
    (manejador : Excepcion -> M A) : M A :=
  fun w =>
    match cuerpo w with
    | (Raise e, w') => if clase e then manejador e w' else (Raise e, w')
    | r => r
    end.

(** An open connection: the storage condition it found at [connect]. *)
Definition Conexion := Medio.

(** The condition the next [connect] will find. *)
Definition medio_actual (w : Mundo) : Medio :=
  match medios w with [] => Sano | m :: _ => m end.

Definition avanzar (w : Mundo) : Mundo :=
  mkMundo (base w) (List.tail (medios w)) (traza w).

Definition sqlite3_connect : M Conexion :=
  fun w =>
    match medio_actual w with
    | NoAbre => (Raise (SqliteError OperationalError UnableToOpen), avanzar w)
    | m => (Ret m, avanzar w)
    end.

(** The engine runs a statement on the file. *)
Definition correr (s : Sentencia) : M Respuesta :=
  fun w =>
    match motor s (base w) with
    | inl e => (Raise e, w)
    | inr (b, r) => (Ret r, mkMundo b (medios w) (traza w))
    end.

(** [c.execute(...)]: the statement is handed to the engine, which runs it
    unless the storage is out of order. *)
Definition execute (conn : Conexion) (s : Sentencia) : M Respuesta :=
  anotar (Ejecutar s) ;;
  match conn with
  | Averiado c => raise (SqliteError c StorageFault)
  | _ => correr s
  end.

(** Each statement of the script is the only write of its connection and
    is followed at once by [conn.commit()], so the write is applied by
    [execute] and [commit] only has to succeed. *)
Definition commit (conn : Conexion) : M unit :=
  match conn with
  | Averiado c => raise (SqliteError c StorageFault)
  | _ => ret tt
  end.

(** The shape shared by the five data functions:
<<
    try:
        conn = sqlite3.connect(DB_NAME)
        <cuerpo>
    except <clase> as e:
        <manejador>
    finally:
        if conn:
            conn.close()
>>
    When [connect] raises, the local [conn] was never assigned: after the
    [except] clause has run, [if conn] in the [finally] clause raises
    [UnboundLocalError], which replaces whatever the function was about to
    return or raise. *)
Definition con_conexion {A} (cuerpo : Conexion -> M A) (clase : Excepcion -> bool)
    (manejador : Excepcion -> M A) : M A :=
  fun w =>
    match sqlite3_connect w with
    | (Raise e, w1) =>
        let w2 := if clase e then snd (manejador e w1) else w1 in
        (Raise UnboundLocalError, w2)
    | (Ret conn, w1) => try_except (cuerpo conn) clase manejador w1
    end.

(** ** Data functions of the script *)

(** [init_db()], lines 10-42. *)
Definition init_db : M unit :=
  con_conexion
    (fun conn =>
       execute conn CreateTableIfNotExists ;;
       try_except (execute conn AlterRenameMonto ;; mret tt)
                  es_OperationalError (fun _ => mret tt) ;;
       try_except (execute conn AlterAddCategoria ;; mret tt)
                  es_OperationalError (fun _ => mret tt) ;;
       commit conn)
    es_sqlite3_Error
    (fun e => st_error (ErrorAlInicializar e)).

(** [guardar_gasto(categoria, concepto, banco, monto_usd, fecha)], lines 44-58.
    [fecha.strftime('%Y-%m-%d')] writes the day as text; the row keeps the
    day. *)
Definition guardar_gasto (cat con ban : str) (monto : Q) (dia : Z) : M unit :=
  con_conexion
    (fun conn =>
       execute conn (InsertGasto cat con ban monto dia) ;;
       commit conn ;;
       st_success (GastoGuardado monto con cat))
    es_sqlite3_Error
    (fun e => st_error (ErrorAlGuardar e)).

(** A pandas frame: its column labels and its rows. *)
Record DataFrame := mkDataFrame {
  df_columns : list string;
  df_filas : list Gasto
}.

(** [cargar_datos()], lines 61-74: the body of the function, which is what
    a call runs on a cleared cache.  [pd.to_datetime] turns the stored
    text of [fecha] into the day it denotes, which is what [fecha] already
    is here.  The [st.cache_data] decorator of line 60, which may hand
    over the frame of an earlier call instead, is [cargar_datos_cache]. *)
Definition cargar_datos : M DataFrame :=
  con_conexion
    (fun conn =>
       r ← execute conn SelectGastos;
       mret (mkDataFrame columnas_nuevas (resultado r)))
    es_Exception
    (fun e =>
       st_error (ErrorAlCargar e) ;;
       mret (mkDataFrame ["id"; "categoria"; "concepto"; "banco"; "monto_usd"; "fecha"]%string [])).

(** [actualizar_nombre_categoria(old_name, new_name)], lines 78-95. *)
Definition actualizar_nombre_categoria (old_name new_name : str) : M unit :=
  if PyStr.falsy (PyStr.strip new_name) then
    st_sidebar_error NombreVacio
  else
    con_conexion
      (fun conn =>
         execute conn (UpdateCategoria (PyStr.strip new_name) old_name) ;;
         commit conn ;;
         st_sidebar_success (CategoriaRenombrada old_name new_name))
      es_sqlite3_Error
      (fun e => st_sidebar_error (ErrorAlActualizar e)) ;;
    st_cache_data_clear ;;
    st_rerun.

(** [eliminar_gasto(gasto_id)], lines 97-115.  The connection is fresh, so
    [conn.total_changes] is the number of rows the [DELETE] removed. *)
Definition eliminar_gasto (gasto_id : Z) : M unit :=
  con_conexion
    (fun conn =>
       r ← execute conn (DeleteGasto gasto_id);
       commit conn ;;
       let total_changes := cambios r in
       if Nat.eqb total_changes 0
       then st_sidebar_warning (GastoNoEncontrado gasto_id)
       else st_sidebar_success (GastoEliminado gasto_id))
    es_sqlite3_Error
    (fun e => st_sidebar_error (ErrorAlEliminar e)) ;;
  st_cache_data_clear ;;
  st_rerun.

(** ** The page script *)

(** Lines 120-124: [init_db()] and then [df_gastos = cargar_datos()]. *)
Definition arranque : M DataFrame :=
  init_db ;;
  cargar_datos.

(** Lines 135-139, the "Actualizar Categoría" button. *)
Definition boton_actualizar (categoria_a_editar nuevo_nombre : str) : M unit :=
  if negb (PyStr.eqb categoria_a_editar nuevo_nombre)
  then actualizar_nombre_categoria categoria_a_editar nuevo_nombre
  else st_sidebar_warning NombreIgual.

Definition usd : str := py "USD $".
Definition bolivares : str := py "Bol" ++ [237%N] ++ py "vares Bs.".

(** The options of the "Moneda" select box, line 188. *)
Definition monedas : list str := [usd; bolivares].

(** What the widgets of the entry form hold when the button is pressed. *)
Record Formulario := mkFormulario {
  categoria_final : str;
  f_concepto : str;
  f_banco : str;
  monto_ingresado : Q;
  moneda : str;
  tasa_widget : Q;     (* the "Tasa de Cambio" input, shown for Bolívares only *)
  f_fecha : Z
}.

(** Lines 191-196. *)
Definition tasa_cambio (f : Formulario) : Q :=
  if PyStr.eqb (moneda f) bolivares then tasa_widget f else 0%Q.

(** Lines 203-218: the conversion; yields [(valid_input, monto_final_usd)]. *)
Definition conversion (f : Formulario) : M (bool * Q) :=
  let monto_final_usd := 0%Q in
  let valid_input := true in
  if PyStr.falsy (categoria_final f) || PyStr.falsy (f_concepto f)
     || PyStr.falsy (f_banco f) || Qle_bool (monto_ingresado f) 0%Q
  then
    st_warning CompletaLosCampos ;;
    mret (false, monto_final_usd)
  else if PyStr.eqb (moneda f) bolivares then
    if Qle_bool (tasa_cambio f) 0%Q then
      st_warning TasaInvalida ;;
      mret (false, monto_final_usd)
    else
      mret (valid_input, (monto_ingresado f / tasa_cambio f)%Q)
  else if PyStr.eqb (moneda f) usd then
    mret (valid_input, monto_ingresado f)
  else
    mret (valid_input, monto_final_usd).

(** Lines 200-226, the "Guardar Gasto" button. *)
Definition boton_guardar (f : Formulario) : M unit :=
  '(valid_input, monto_final_usd) ← conversion f;
  if valid_input : bool then
    guardar_gasto (PyStr.strip (categoria_final f)) (f_concepto f) (f_banco f)
                  monto_final_usd (f_fecha f) ;;
    st_cache_data_clear ;;
    st_rerun
  else mret tt.

(** ** Reports *)

Definition suma (l : list Q) : Q := fold_right Qplus 0%Q l.

(** [df_gastos['monto_usd'].sum()], line 239. *)
Definition total_gastado (df : list Gasto) : Q :=
  fold_left (fun s r => (s + monto_usd r)%Q) df 0%Q.

(** *** [groupby(clave)['monto_usd'].sum()]

    The groups come out in ascending order of their key (pandas sorts
    them); each holds the sum of the amounts of its rows. *)
Fixpoint acumular (k : str) (v : Q) (g : list (str * Q)) : list (str * Q) :=
  match g with
  | [] => [(k, v)]
  | (k', s) :: g' =>
      match PyStr.compare k k' with
      | Eq => (k', (s + v)%Q) :: g'
      | Lt => (k, v) :: g
      | Gt => (k', s) :: acumular k v g'
      end
  end.

Definition groupby_sum (clave : Gasto -> str) (df : list Gasto) : list (str * Q) :=
  fold_left (fun g r => acumular (clave r) (monto_usd r) g) df [].

Definition suma_menor (a b : str * Q) : bool :=
  match (a.2 ?= b.2)%Q with Lt => true | _ => false end.

(** [Series.nlargest(n)]: the [n] largest values in descending order,
    equal values in order of appearance. *)
Definition nlargest (n : nat) (s : list (str * Q)) : list (str * Q) :=
  firstn n (ordenar_desc suma_menor s).

(** What [Series.sort_values(ascending=False)] promises of its result
    [s'] on the series [s]: the same entries, in descending order of
    value.  pandas sorts with numpy's quicksort, which promises no order
    among equal values. *)
Definition orden_descendente (s s' : list (str * Q)) : Prop :=
  Permutation s' s /\ StronglySorted (fun a b => (b.2 <= a.2)%Q) s'.

(** [Series.sort_values(ascending=False)]: equal values are left in the
    order they had, which is one of the orders the sort may give them (and
    the one it gives on a series as short as the ten values of line 255). *)
Definition sort_values_desc (s : list (str * Q)) : list (str * Q) :=
  ordenar_desc suma_menor s.

Definition by_category (top_n : nat) (df : list Gasto) : list (str * Q) :=
  sort_values_desc (nlargest top_n (groupby_sum categoria df)).

(** Line 255. *)
Definition gastos_categoria (df : list Gasto) : list (str * Q) :=
  by_category 10 df.

(** Line 270. *)
Definition gastos_banco (df : list Gasto) : list (str * Q) :=
  sort_values_desc (groupby_sum banco df).

(** *** [set_index('fecha').resample('D')['monto_usd'].sum()]

    Every row falls in the bin of its day; the result has one bin for each
    day from the earliest to the latest, an empty bin summing to 0. *)
Definition al_dia (bins : gmap Z Q) (r : Gasto) : gmap Z Q :=
  <[fecha r := (default 0%Q (bins !! fecha r) + monto_usd r)%Q]> bins.

Definition cubetas (df : list Gasto) : gmap Z Q := foldl al_dia ∅ df.

Definition primer_dia (r : Gasto) (rs : list Gasto) : Z :=
  fold_right (fun x m => Z.min (fecha x) m) (fecha r) rs.

Definition ultimo_dia (r : Gasto) (rs : list Gasto) : Z :=
  fold_right (fun x m => Z.max (fecha x) m) (fecha r) rs.

(** Line 284.  On an empty frame [fecha] was never converted to dates and
    [resample] raises [TypeError]; the script only gets here when the frame
    has rows (line 231). *)
Definition gastos_tiempo (df : list Gasto) : Excepcion + list (Z * Q) :=
  match df with
  | [] => inl TypeError
  | r :: rs =>
      let lo := primer_dia r rs in
      let hi := ultimo_dia r rs in
      inr (List.map (fun d => (d, default 0%Q (cubetas df !! d)))
                    (seqZ lo (hi - lo + 1)))
  end.

(** *** Calendar dates

    [datetime.date(y, m, d).toordinal()], as CPython's [_ymd2ord]. *)
Definition is_leap (y : Z) : bool :=
  ((y mod 4 =? 0) && (negb (y mod 100 =? 0) || (y mod 400 =? 0)))%Z.

Definition days_before_year (y : Z) : Z :=
  let y' := (y - 1)%Z in
  (y' * 365 + y' / 4 - y' / 100 + y' / 400)%Z.

Definition days_before_month (y m : Z) : Z :=
  (nth (Z.to_nat m) [-1; 0; 31; 59; 90; 120; 151; 181; 212; 243; 273; 304; 334] 0
   + (if (2 <? m) && is_leap y then 1 else 0))%Z.

Definition ymd (y m d : Z) : Z :=
  (days_before_year y + days_before_month y m + d)%Z.

(** ** Vocabulary of the statements *)

(** The schema of the file: whether [gastos] exists and, if so, its columns. *)
Definition esquema (b : Base) : option (list string) := columnas <$> b.

(** The rows a database file holds. *)
Definition filas_de (b : Base) : list Gasto :=
  match b with
  | Some t => filas t
  | None => []
  end.

(** The statements handed to the engine, in order. *)
Definition sentencias (tr : list Evento) : list Sentencia :=
  omap (fun e => match e with Ejecutar s => Some s | _ => None end) tr.

(** The messages shown, in order. *)
Definition mensajes (tr : list Evento) : list (Lugar * Nivel * Texto) :=
  omap (fun e => match e with Mostrar l n t => Some (l, n, t) | _ => None end) tr.

(** Among rows of one date, the one inserted later (greater id) comes first. *)
Definition empates_recientes_primero (l : list Gasto) : Prop :=
  forall (i j : nat) (a b : Gasto),
    l !! i = Some a -> l !! j = Some b ->
    fecha a = fecha b -> (id b < id a)%Z -> (i < j)%nat.

Definition en_fecha (d : Z) (r : Gasto) : bool := (fecha r =? d)%Z.

(** The sum of the amounts of the rows of a frame dated [d]. *)
Definition suma_del_dia (d : Z) (df : list Gasto) : Q :=
  suma (List.map monto_usd (List.filter (en_fecha d) df)).

(** The sum of the amounts of the rows of a frame whose key is [c]. *)
Definition suma_de_clave (clave : Gasto -> str) (c : str) (df : list Gasto) : Q :=
  suma (List.map monto_usd (List.filter (fun r => PyStr.eqb (clave r) c) df)).

(** The value a list of groups holds for the key [c]. *)
Definition valor (c : str) (g : list (str * Q)) : Q :=
  suma (List.map snd (List.filter (fun x => PyStr.eqb x.1 c) g)).

Definition con_suma (v : Q) (x : str * Q) : bool := Qeq_bool x.2 v.

(** What the entry form rejects: an empty text, a non-positive amount or,
    for Bolívares, a non-positive rate. *)
Definition formulario_rechazado (f : Formulario) : Prop :=
  categoria_final f = [] \/ f_concepto f = [] \/ f_banco f = []
  \/ (monto_ingresado f <= 0)%Q
  \/ (moneda f = bolivares /\ (tasa_widget f <= 0)%Q).

(** The file after a statement whose [OperationalError] is swallowed. *)
Definition tras (s : Sentencia) (b : Base) : Base :=
  match motor s b with
  | inr (b', _) => b'
  | inl _ => b
  end.

(** The file after the three statements of [init_db] on a healthy storage. *)
Definition migrar (b : Base) : Base :=
  tras AlterAddCategoria (tras AlterRenameMonto (tras CreateTableIfNotExists b)).

(** Both migrations are already applied. *)
Definition migrada (b : Base) : Prop :=
  exists t : Tabla,
    b = Some t
    /\ tiene_columna "categoria" t = true
    /\ (tiene_columna "monto" t = false \/ tiene_columna "monto_usd" t = true).

(** ** Examples *)

(** The scenario of the specification: three expenses dated 2024-01-01,
    2024-01-01 and 2024-01-03 with amounts 10, 20 and 5. *)
Definition gasto_1 : Gasto :=
  mkGasto 1 (py "Hogar") (py "Luz") (py "Banco A") 10 (ymd 2024 1 1).
Definition gasto_2 : Gasto :=
  mkGasto 2 (py "Hogar") (py "Agua") (py "Efectivo") 20 (ymd 2024 1 1).
Definition gasto_3 : Gasto :=
  mkGasto 3 (py "Salud") (py "Farmacia") (py "Banco A") 5 (ymd 2024 1 3).

Definition tabla_ejemplo : Tabla :=
  mkTabla columnas_nuevas [gasto_1; gasto_2; gasto_3] 3.

Definition mundo_ejemplo : Mundo := mkMundo (Some tabla_ejemplo) [] [].

(** The frame [cargar_datos] returns for the example ledger. *)
Definition df_ejemplo : list Gasto := [gasto_3; gasto_1; gasto_2].

(** The example ledger, found locked at the next connection. *)
Definition mundo_bloqueado : Mundo :=
  mkMundo (Some tabla_ejemplo) [Averiado OperationalError] [].

(** The frame [cargar_datos] falls back to. *)
Definition df_vacio : DataFrame :=
  mkDataFrame ["id"; "categoria"; "concepto"; "banco"; "monto_usd"; "fecha"]%string [].

(** 1000 Bolívares at 50 Bs. per dollar. *)
Definition formulario_ejemplo : Formulario :=
  mkFormulario (py "Hogar") (py "Gas") (py "Banco A") 1000 bolivares 50 (ymd 2024 1 4).

(** A form whose description and payment method are one blank each, paid
    in dollars. *)
Definition formulario_blancos : Formulario :=
  mkFormulario (py "Hogar") (py " ") (py " ") 1 usd 0 (ymd 2024 1 4).

(** A file written by an older version of the script: the amount column is
    still called [monto] and there is no [categoria]. *)
Definition tabla_legada : Tabla :=
  mkTabla ["id"; "concepto"; "banco"; "monto"; "fecha"]%string
          [gasto_1; gasto_2; gasto_3] 3.

(** The legacy file on a healthy storage, and what [init_db] leaves of it. *)
Definition mundo_legado : Mundo := mkMundo (Some tabla_legada) [] [].

Definition mundo_migrado : Mundo := (init_db mundo_legado).2.

(** The legacy file, found locked at the first connection. *)
Definition mundo_legado_bloqueado : Mundo :=
  mkMundo (Some tabla_legada) [Averiado OperationalError] [].

(** ** The rest of the page script *)

Definition df_empty (df : DataFrame) : bool :=
  match df_filas df with [] => true | _ :: _ => false end.

(** [Series.unique()]: the values in order of first appearance. *)
Fixpoint unique (l : list str) : list str :=
  match l with
  | [] => []
  | x :: l' => x :: List.filter (fun y => negb (PyStr.eqb y x)) (unique l')
  end.

Definition str_mayor (x y : str) : bool :=
  match PyStr.compare x y with Gt => true | _ => false end.

(** [sorted(...)] on a list of strings: the stable sort, ascending. *)
Definition sorted (l : list str) : list str := ordenar_desc str_mayor l.

(** Line 131: the options of the "Categoría a renombrar" select box. *)
Definition categorias_unicas (df : DataFrame) : list str :=
  sorted (unique (List.map categoria (df_filas df))).

(** Line 157. *)
Definition default_categorias : list str :=
  [py "Alimentaci" ++ [243%N] ++ py "n"; py "Hogar"; py "Transporte";
   py "Entretenimiento"; py "Salud"; py "Educaci" ++ [243%N] ++ py "n"; py "Otros"].

(** Lines 158-161. *)
Definition categorias_existentes (df : DataFrame) : list str :=
  if negb (df_empty df) then unique (List.map categoria (df_filas df)) else [].

(** Line 163: [sorted(list(set(default_categorias + categorias_existentes)))].
    The order in which the set hands out its elements does not show after
    the sort. *)
Definition opciones_categoria (df : DataFrame) : list str :=
  sorted (elements (list_to_set (default_categorias ++ categorias_existentes df) : gset str)).

Definition otra_crear_nueva : str := py "Otra (Crear Nueva)".

(** Line 164: the options of the "Categoría" select box of the entry form. *)
Definition opciones_finales (df : DataFrame) : list str :=
  opciones_categoria df ++ [otra_crear_nueva].

(** What the widgets hold in one run of the script, and which buttons were
    pressed. *)
Record Pantalla := mkPantalla {
  pulsa_actualizar : bool;
  categoria_a_editar : str;
  nuevo_nombre : str;
  pulsa_eliminar : bool;
  id_a_eliminar : Z;
  categoria_seleccionada : str;
  categoria_nueva_input : str;
  w_concepto : str;
  w_banco : str;
  w_monto : Q;
  w_moneda : str;
  w_tasa : Q;
  w_fecha : Z;
  pulsa_guardar : bool
}.

(** Lines 176-179 and the other widgets of the form. *)
Definition formulario_de (p : Pantalla) : Formulario :=
  mkFormulario
    (if PyStr.eqb (categoria_seleccionada p) otra_crear_nueva
     then categoria_nueva_input p else categoria_seleccionada p)
    (w_concepto p) (w_banco p) (w_monto p) (w_moneda p) (w_tasa p) (w_fecha p).

(** What the widgets allow: the select boxes hold one of their options and
    the number inputs respect their [min_value] (lines 132, 144, 171, 185,
    188, 193). *)
Definition pantalla_valida (df : DataFrame) (p : Pantalla) : Prop :=
  (df_empty df = false -> In (categoria_a_editar p) (categorias_unicas df))
  /\ (1 <= id_a_eliminar p)%Z
  /\ In (categoria_seleccionada p) (opciones_finales df)
  /\ (1 # 100 <= w_monto p)%Q
  /\ In (w_moneda p) monedas
  /\ (1 # 100 <= w_tasa p)%Q.

(** *** The dashboard *)

(** Line 240: [df_gastos['monto_usd'].mean()]. *)
Definition gasto_promedio (df : list Gasto) : Q :=
  (total_gastado df / inject_Z (Z.of_nat (length df)))%Q.

(** A chart, or the note shown in its place when its series is empty. *)
Inductive Grafico (A : Type) :=
| Figura (serie : A)
| SinDatos.
Arguments Figura {A} serie.
Arguments SinDatos {A}.

Definition graficar {A} (serie : list A) : Grafico (list A) :=
  match serie with
  | [] => SinDatos
  | _ :: _ => Figura serie
  end.

(** What lines 231-318 put on the page. *)
Inductive Vista :=
| AunSinGastos
| Tablero (total_gastado gasto_promedio : Q) (num_gastos : nat)
          (fig_categoria fig_banco : Grafico (list (str * Q)))
          (fig_tiempo : Grafico (list (Z * Q)))
          (historial : list Gasto).

Definition reportes (df : DataFrame) : Excepcion + Vista :=
  if df_empty df then inr AunSinGastos
  else
    let filas := df_filas df in
    match gastos_tiempo filas with
    | inl e => inl e
    | inr serie =>
        inr (Tablero (total_gastado filas) (gasto_promedio filas) (length filas)
                     (graficar (gastos_categoria filas))
                     (graficar (gastos_banco filas))
                     (graficar serie)
                     filas)
    end.

(** One run of the script, top to bottom (lines 117-318).  Titles, layout
    and informational notes leave no trace; what the dashboard shows is the
    result.  The load of line 124 runs the body of [cargar_datos]: the run
    starts on a cleared cache, as every run that follows a write does. *)
Definition script (p : Pantalla) : M Vista :=
  init_db ;;
  df_gastos ← cargar_datos;
  (if negb (df_empty df_gastos) then
     if pulsa_actualizar p
     then boton_actualizar (categoria_a_editar p) (nuevo_nombre p)
     else mret tt
   else mret tt) ;;
  (if pulsa_eliminar p then eliminar_gasto (id_a_eliminar p) else mret tt) ;;
  (if pulsa_guardar p then boton_guardar (formulario_de p) else mret tt) ;;
  match reportes df_gastos with
  | inl e => raise e
  | inr v => mret v
  end.

(** ** Invariants of the file *)

(** The rows are in ascending order of [id] (so no two share one), and
    every [id] lies between 1 and the [AUTOINCREMENT] counter. *)
Definition bien_formada (b : Base) : Prop :=
  match b with
  | None => True
  | Some t =>
      StronglySorted (fun a b => (id a < id b)%Z) (filas t)
      /\ List.Forall (fun r => (1 <= id r <= secuencia t)%Z) (filas t)
  end.

(** The table exists and exposes the six columns the script names. *)
Definition esquema_listo (b : Base) : Prop :=
  exists t : Tabla, b = Some t /\ tiene_columnas columnas_nuevas t = true.

(** A computation keeps an invariant of the file, however it ends. *)
Definition preserva (Inv : Base -> Prop) {A} (m : M A) : Prop :=
  forall w : Mundo, Inv (base w) -> Inv (base (m w).2).

(** A screen on which the three buttons are pressed at once. *)
Definition pantalla_ejemplo : Pantalla :=
  mkPantalla true (py "Hogar") (py "Casa") true 2
             (py "Salud") [] (py "Dentista") (py "Efectivo") 40 usd (1 # 100)
             (ymd 2024 1 5) true.

(** ** Vocabulary of the round trips *)

(** The id the engine gives to the next row of a table. *)
Definition proximo_id (t : Tabla) : Z :=
  (Z.max (secuencia t) (max_id (filas t)) + 1)%Z.

Definition con_id (k : Z) (r : Gasto) : bool := (id r =? k)%Z.

(** The example ledger in a file that cannot be opened. *)
Definition mundo_cerrado : Mundo := mkMundo (Some tabla_ejemplo) [NoAbre] [].

(** ** Vocabulary of the migration *)

(** The columns every version of the script has had, under either name of
    the amount column. *)
Definition columnas_de_siempre (t : Tabla) : Prop :=
  tiene_columnas ["id"; "concepto"; "banco"; "fecha"]%string t = true
  /\ (tiene_columna "monto" t = true \/ tiene_columna "monto_usd" t = true).

(** The row as the migration leaves it. *)
Definition fila_migrada (t : Tabla) (r : Gasto) : Gasto :=
  if tiene_columna "categoria" t then r else poner_categoria otros r.

(** ** Vocabulary of the buttons *)

(** A computation that only shows messages: it returns, and hands nothing
    to the engine. *)
Definition solo_avisa {A} (m : M A) : Prop :=
  forall w : Mundo,
    exists (a : A) (w' : Mundo),
      m w = (Ret a, w') /\ sentencias (traza w') = sentencias (traza w).

(** A screen on which only "Guardar Gasto" is pressed, and one on which
    nothing is. *)
Definition pantalla_guardar : Pantalla :=
  mkPantalla false [] [] false 1
             (py "Salud") [] (py "Dentista") (py "Efectivo") 40 usd (1 # 100)
             (ymd 2024 1 5) true.

Definition pantalla_quieta : Pantalla :=
  mkPantalla false [] [] false 1
             (py "Salud") [] [] [] (1 # 100) usd (1 # 100)
             (ymd 2024 1 5) false.

(** ** The cache of [cargar_datos]

    [@st.cache_data(ttl=60)], line 60.  A call of the decorated function
    finds the frame an earlier call returned and hands it over without
    running the body, unless [st.cache_data.clear()] ran since that call
    or the entry is older than 60 seconds; then the body runs.  An entry
    holds the frame and the length the trace had when it was stored; an
    entry that has expired is an absent one. *)
Definition Entrada : Type := DataFrame * nat.

Definition es_CacheClear (e : Evento) : bool :=
  match e with CacheClear => true | _ => false end.

(** No [st.cache_data.clear()] since the entry was stored. *)
Definition entrada_vigente (n : nat) (tr : list Evento) : bool :=
  negb (existsb es_CacheClear (skipn n tr)).

Definition cargar_datos_cache (entrada : option Entrada) : M DataFrame :=
  fun w =>
    match entrada with
    | Some (df, n) =>
        if entrada_vigente n (traza w) then (Ret df, w) else cargar_datos w
    | None => cargar_datos w
    end.

(** * Proofs *)

(** ** The stable sort *)

Section HechosOrden.
Context {A : Type} (menor : A -> A -> bool).
Hypothesis menor_asim : forall x y, menor x y = true -> menor y x = false.
Hypothesis no_menor_trans :
  forall x y z, menor x y = false -> menor y z = false -> menor x z = false.

Lemma insertar_perm (x : A) (l : list A) : Permutation (insertar menor x l) (x :: l).
Proof.
  induction l as [|y l IH]; simpl; [reflexivity|].
  destruct (menor x y); [|reflexivity].
  rewrite IH. apply perm_swap.
Qed.

Lemma ordenar_desc_perm (l : list A) : Permutation (ordenar_desc menor l) l.
Proof.
  induction l as [|x l IH]; simpl; [reflexivity|].
  rewrite insertar_perm. by constructor.
Qed.

Lemma insertar_ordenada (x : A) (l : list A) :
  StronglySorted (fun a b => menor a b = false) l ->
  StronglySorted (fun a b => menor a b = false) (insertar menor x l).
Proof.
  induction 1 as [|y l Hl IH Hy]; simpl.
  - repeat constructor.
  - destruct (menor x y) eqn:E.
    + constructor; [exact IH|].
      apply List.Forall_forall. intros z Hz.
      apply (Permutation_in _ (insertar_perm x l)) in Hz.
      destruct Hz as [<-|Hz]; [by apply menor_asim|].
      rewrite List.Forall_forall in Hy. by apply Hy.
    + constructor; [by constructor|].
      constructor; [exact E|].
      eapply List.Forall_impl; [|exact Hy]. intros z Hz. simpl in Hz. by eapply no_menor_trans.
Qed.

Lemma ordenar_desc_ordenada (l : list A) :
  StronglySorted (fun a b => menor a b = false) (ordenar_desc menor l).
Proof.
  induction l as [|x l IH]; simpl; [constructor|]. by apply insertar_ordenada.
Qed.

Lemma insertar_ya_ordenada (x : A) (l : list A) :
  Forall (fun y => menor x y = false) l -> insertar menor x l = x :: l.
Proof. destruct 1 as [|y l Hy _]; simpl; [done|]. by rewrite Hy. Qed.

Lemma ordenar_desc_fijo (l : list A) :
  StronglySorted (fun a b => menor a b = false) l -> ordenar_desc menor l = l.
Proof.
  induction 1 as [|x l Hl IH Hx]; simpl; [done|].
  rewrite IH. by apply insertar_ya_ordenada.
Qed.

(** Stability: a class of mutually tied elements keeps its order. *)
Lemma insertar_filter (P : A -> bool) (x : A) (l : list A) :
  (forall a b, P a = true -> P b = true -> menor a b = false) ->
  List.filter P (insertar menor x l) = List.filter P (x :: l).
Proof.
  intros HP. induction l as [|y l IH]; simpl; [done|].
  destruct (menor x y) eqn:E; simpl; [|done].
  rewrite IH. simpl.
  destruct (P x) eqn:Ex, (P y) eqn:Ey; try done.
  by rewrite (HP x y) in E.
Qed.

Lemma ordenar_desc_filter (P : A -> bool) (l : list A) :
  (forall a b, P a = true -> P b = true -> menor a b = false) ->
  List.filter P (ordenar_desc menor l) = List.filter P l.
Proof.
  intros HP. induction l as [|x l IH]; simpl; [done|].
  rewrite insertar_filter by done. simpl. by rewrite IH.
Qed.

End HechosOrden.

(** ** Running a function on a healthy connection *)

Arguments motor : simpl never.

(** Unfolds one layer of the monad. *)
Ltac monada := unfold try_except, mbind, M_bind, bind.

Lemma find_sin_faltantes (cs : list string) (t : Tabla) :
  tiene_columnas cs t = true ->
  List.find (fun c => negb (tiene_columna c t)) cs = None.
Proof.
  unfold tiene_columnas. induction cs as [|c cs IH]; simpl; [done|].
  intros [Hc Hcs]%andb_prop. rewrite Hc. simpl. by apply IH.
Qed.

Lemma con_conexion_sano {A} (cuerpo : Conexion -> M A) clase manejador (w : Mundo) :
  medio_actual w = Sano ->
  con_conexion cuerpo clase manejador w
  = try_except (cuerpo Sano) clase manejador (avanzar w).
Proof. intros H. unfold con_conexion, sqlite3_connect. by rewrite H. Qed.

Lemma execute_sano (s : Sentencia) (w : Mundo) :
  execute Sano s w =
  match motor s (base w) with
  | inl e => (Raise e, mkMundo (base w) (medios w) (traza w ++ [Ejecutar s]))
  | inr (b, r) => (Ret r, mkMundo b (medios w) (traza w ++ [Ejecutar s]))
  end.
Proof.
  unfold execute, mbind, M_bind, bind, anotar, correr. simpl.
  by destruct (motor s (base w)) as [e|[b r]].
Qed.

Lemma motor_select (t : Tabla) :
  tiene_columnas columnas_nuevas t = true ->
  motor SelectGastos (Some t)
  = inr (Some t, mkRespuesta (ordenar_desc fecha_menor (filas t)) 0).
Proof. intros H. unfold motor. by rewrite (find_sin_faltantes _ _ H). Qed.

Lemma fecha_menor_asim (a b : Gasto) : fecha_menor a b = true -> fecha_menor b a = false.
Proof. unfold fecha_menor. lia. Qed.

Lemma fecha_menor_trans (a b c : Gasto) :
  fecha_menor a b = false -> fecha_menor b c = false -> fecha_menor a c = false.
Proof. unfold fecha_menor. lia. Qed.

Lemma mensajes_app (l1 l2 : list Evento) : mensajes (l1 ++ l2) = mensajes l1 ++ mensajes l2.
Proof. unfold mensajes. apply omap_app. Qed.

Lemma sentencias_app (l1 l2 : list Evento) : sentencias (l1 ++ l2) = sentencias l1 ++ sentencias l2.
Proof. unfold sentencias. apply omap_app. Qed.

Lemma StronglySorted_mono {A} (R S : A -> A -> Prop) (l : list A) :
  (forall a b, R a b -> S a b) -> StronglySorted R l -> StronglySorted S l.
Proof.
  intros HRS. induction 1 as [|x l Hl IH Hx]; constructor; [done|].
  eapply List.Forall_impl; [|exact Hx]. intros b. apply HRS.
Qed.

(** C2, as the script has it: on an initialised file and a healthy storage,
    [cargar_datos] returns, without reporting anything and without touching
    the file, the rows of the ledger (all of them, each once) ordered by
    date descending; rows of one date keep the order they have in the
    table, which is ascending [id], the oldest first; a ledger without rows
    gives a frame without rows. *)
Theorem cargar_datos_orden (w : Mundo) (t : Tabla) :
  medio_actual w = Sano ->
  base w = Some t ->
  tiene_columnas columnas_nuevas t = true ->
  exists (df : DataFrame) (w' : Mundo),
    cargar_datos w = (Ret df, w')
    /\ base w' = base w
    /\ mensajes (traza w') = mensajes (traza w)
    /\ Permutation (df_filas df) (filas t)
    /\ StronglySorted (fun a b => (fecha b <= fecha a)%Z) (df_filas df)
    /\ (forall d : Z, List.filter (en_fecha d) (df_filas df) = List.filter (en_fecha d) (filas t))
    /\ (filas t = [] -> df_filas df = []).
Proof.
  intros Hm Hb Hc.
  unfold cargar_datos. rewrite con_conexion_sano by done.
  monada. rewrite execute_sano. simpl.
  rewrite Hb, motor_select by done.
  eexists _, _. split; [reflexivity|]. simpl.
  split; [done|]. split; [by rewrite mensajes_app, app_nil_r|].
  split; [apply ordenar_desc_perm|].
  split.
  { eapply StronglySorted_mono; [|apply ordenar_desc_ordenada].
    - intros a b. unfold fecha_menor. simpl. lia.
    - apply fecha_menor_asim.
    - apply fecha_menor_trans. }
  split.
  { intros d. apply ordenar_desc_filter. intros a b. unfold en_fecha, fecha_menor. lia. }
  by intros ->.
Qed.

Lemma cargar_datos_orden_witness :
  exists (df : DataFrame) (w' : Mundo),
    cargar_datos mundo_ejemplo = (Ret df, w')
    /\ base w' = base mundo_ejemplo
    /\ mensajes (traza w') = mensajes (traza mundo_ejemplo)
    /\ Permutation (df_filas df) (filas tabla_ejemplo)
    /\ StronglySorted (fun a b => (fecha b <= fecha a)%Z) (df_filas df)
    /\ (forall d : Z, List.filter (en_fecha d) (df_filas df)
                      = List.filter (en_fecha d) (filas tabla_ejemplo))
    /\ (filas tabla_ejemplo = [] -> df_filas df = []).
Proof. apply (cargar_datos_orden mundo_ejemplo tabla_ejemplo); reflexivity. Defined.

Lemma cargar_datos_empates_contraejemplo :
  exists (w' : Mundo),
    cargar_datos mundo_ejemplo
    = (Ret (mkDataFrame columnas_nuevas [gasto_3; gasto_1; gasto_2]), w')
    /\ ~ empates_recientes_primero [gasto_3; gasto_1; gasto_2].
Proof.
  eexists. split; [vm_compute; reflexivity|].
  intros H. specialize (H 2%nat 1%nat gasto_2 gasto_1 eq_refl eq_refl eq_refl).
  simpl in H. lia.
Qed.

(** ** The entry form *)

Lemma Qle_bool_false (x y : Q) : Qle_bool x y = false <-> (y < x)%Q.
Proof.
  rewrite <- not_true_iff_false, Qle_bool_iff. split.
  - apply Qnot_le_lt.
  - apply Qlt_not_le.
Qed.

Lemma pystr_eqb_eq (s t : str) : PyStr.eqb s t = true <-> s = t.
Proof. unfold PyStr.eqb. apply bool_decide_eq_true. Qed.

Lemma pystr_eqb_refl (s : str) : PyStr.eqb s s = true.
Proof. by apply pystr_eqb_eq. Qed.

Lemma falsy_nil (s : str) : PyStr.falsy s = true <-> s = [].
Proof. by destruct s. Qed.

Lemma falsy_false (s : str) : s <> [] -> PyStr.falsy s = false.
Proof. by destruct s. Qed.

(** C1: with the three texts of the form filled in, a positive amount in
    dollars is taken as it is, whatever the rate widget holds; a positive
    amount in Bolívares with a positive rate is divided by the rate; the
    conversion is refused ([valid_input] false) exactly when the amount is
    not positive or the currency is Bolívares and the rate is not positive,
    and then the button shows a warning and leaves the file untouched. *)
Theorem conversion_normaliza (f : Formulario) (w : Mundo) :
  categoria_final f <> [] -> f_concepto f <> [] -> f_banco f <> [] ->
  (moneda f = usd -> (0 < monto_ingresado f)%Q ->
     conversion f w = (Ret (true, monto_ingresado f), w))
  /\ (moneda f = bolivares -> (0 < monto_ingresado f)%Q -> (0 < tasa_widget f)%Q ->
        conversion f w = (Ret (true, (monto_ingresado f / tasa_widget f)%Q), w))
  /\ ((exists q w', conversion f w = (Ret (false, q), w')) <->
        (monto_ingresado f <= 0)%Q \/ (moneda f = bolivares /\ (tasa_widget f <= 0)%Q))
  /\ ((exists q w', conversion f w = (Ret (false, q), w')) ->
        exists t, boton_guardar f w
                  = (Ret tt, mkMundo (base w) (medios w)
                                     (traza w ++ [Mostrar Pagina NivelWarning t]))).
Proof.
  intros Hcat Hcon Hban.
  pose (aviso t := mkMundo (base w) (medios w)
                        (traza w ++ [Mostrar Pagina NivelWarning t])).
  assert (Hconv : conversion f w =
    if Qle_bool (monto_ingresado f) 0 then (Ret (false, 0%Q), aviso CompletaLosCampos)
    else if PyStr.eqb (moneda f) bolivares then
      if Qle_bool (tasa_widget f) 0 then (Ret (false, 0%Q), aviso TasaInvalida)
      else (Ret (true, (monto_ingresado f / tasa_widget f)%Q), w)
    else if PyStr.eqb (moneda f) usd then (Ret (true, monto_ingresado f), w)
    else (Ret (true, 0%Q), w)).
  { unfold conversion, tasa_cambio. rewrite !falsy_false by done. simpl.
    destruct (Qle_bool (monto_ingresado f) 0); [done|].
    destruct (PyStr.eqb (moneda f) bolivares); [|by destruct (PyStr.eqb (moneda f) usd)].
    by destruct (Qle_bool (tasa_widget f) 0). }
  split; [|split; [|split]].
  - intros Hu Hpos. rewrite Hconv, Hu.
    apply Qle_bool_false in Hpos. rewrite Hpos. reflexivity.
  - intros Hb Hpos Htasa. rewrite Hconv, Hb, pystr_eqb_refl.
    apply Qle_bool_false in Hpos, Htasa. by rewrite Hpos, Htasa.
  - rewrite Hconv. split.
    + intros (q & w' & H).
      destruct (Qle_bool (monto_ingresado f) 0) eqn:Em; [left; by apply Qle_bool_iff|].
      destruct (PyStr.eqb (moneda f) bolivares) eqn:Eb.
      * destruct (Qle_bool (tasa_widget f) 0) eqn:Et; [|done].
        right. split; [by apply pystr_eqb_eq|by apply Qle_bool_iff].
      * by destruct (PyStr.eqb (moneda f) usd).
    + intros [Hm|[Hb Ht]].
      * apply Qle_bool_iff in Hm. rewrite Hm. eauto.
      * destruct (Qle_bool (monto_ingresado f) 0); [eauto|].
        apply pystr_eqb_eq in Hb. apply Qle_bool_iff in Ht. rewrite Hb, Ht. eauto.
  - intros (q & w' & H). unfold boton_guardar, mbind, M_bind, bind. rewrite H.
    rewrite Hconv in H.
    destruct (Qle_bool (monto_ingresado f) 0); [inversion H; eauto|].
    destruct (PyStr.eqb (moneda f) bolivares).
    + destruct (Qle_bool (tasa_widget f) 0); [inversion H; eauto|done].
    + by destruct (PyStr.eqb (moneda f) usd).
Qed.

Lemma conversion_normaliza_witness :
  conversion formulario_ejemplo mundo_ejemplo
  = (Ret (true, (1000 / 50)%Q), mundo_ejemplo)
  /\ (1000 / 50 == 20)%Q.
Proof.
  split; [|reflexivity].
  refine (proj1 (proj2 (conversion_normaliza formulario_ejemplo mundo_ejemplo _ _ _)) _ _ _);
    done.
Defined.

(** What [guardar_gasto] can do to the file: nothing, or append one row
    holding exactly its arguments. *)
Lemma guardar_gasto_efecto (cat con ban : str) (monto : Q) (dia : Z) (w : Mundo) :
  let w' := (guardar_gasto cat con ban monto dia w).2 in
  base w' = base w
  \/ exists t nuevo,
       base w = Some t
       /\ base w' = Some (mkTabla (columnas t)
                                  (filas t ++ [mkGasto nuevo cat con ban monto dia]) nuevo).
Proof.
  unfold guardar_gasto, con_conexion, sqlite3_connect.
  destruct (medio_actual w) eqn:Em; simpl.
  - monada. rewrite execute_sano. simpl.
    destruct (base w) as [t|] eqn:Eb; [|by left].
    unfold motor. cbv beta iota.
    destruct (List.find (fun c => negb (tiene_columna c t)) _); simpl; [by left|].
    right. eauto.
  - by left.
  - by left.
Qed.

Lemma Qdiv_pos (a b : Q) : (0 < a)%Q -> (0 < b)%Q -> (0 < a / b)%Q.
Proof.
  intros Ha Hb. apply Qlt_shift_div_l; [exact Hb|]. by rewrite Qmult_0_l.
Qed.

(** The two ways out of the conversion. *)
Lemma conversion_casos (f : Formulario) (w : Mundo) :
  (formulario_rechazado f
   /\ exists t, conversion f w
                = (Ret (false, 0%Q),
                   mkMundo (base w) (medios w) (traza w ++ [Mostrar Pagina NivelWarning t])))
  \/ (~ formulario_rechazado f
      /\ exists q, conversion f w = (Ret (true, q), w)
                   /\ (In (moneda f) monedas -> (0 < q)%Q)).
Proof.
  unfold conversion, tasa_cambio, formulario_rechazado.
  destruct (PyStr.falsy (categoria_final f)) eqn:E1;
    [apply falsy_nil in E1; left; split; eauto|].
  destruct (PyStr.falsy (f_concepto f)) eqn:E2;
    [apply falsy_nil in E2; left; split; eauto|].
  destruct (PyStr.falsy (f_banco f)) eqn:E3;
    [apply falsy_nil in E3; left; split; eauto|].
  destruct (Qle_bool (monto_ingresado f) 0) eqn:E4;
    [apply Qle_bool_iff in E4; left; split; eauto 6|].
  simpl.
  assert (H1 : categoria_final f <> []) by (intros H; apply falsy_nil in H; congruence).
  assert (H2 : f_concepto f <> []) by (intros H; apply falsy_nil in H; congruence).
  assert (H3 : f_banco f <> []) by (intros H; apply falsy_nil in H; congruence).
  apply Qle_bool_false in E4.
  assert (H4 : ~ (monto_ingresado f <= 0)%Q) by by apply Qlt_not_le.
  destruct (PyStr.eqb (moneda f) bolivares) eqn:Eb.
  - apply pystr_eqb_eq in Eb.
    destruct (Qle_bool (tasa_widget f) 0) eqn:E5.
    + apply Qle_bool_iff in E5. left. split; eauto 8.
    + apply Qle_bool_false in E5. right. split.
      * intros [?|[?|[?|[?|[_ H]]]]]; try done. by apply Qlt_not_le in E5.
      * eexists. split; [reflexivity|]. intros _. by apply Qdiv_pos.
  - assert (Hnb : moneda f <> bolivares).
    { intros H. apply pystr_eqb_eq in H. congruence. }
    right. split; [intros [?|[?|[?|[?|[H _]]]]]; done|].
    destruct (PyStr.eqb (moneda f) usd) eqn:Eu.
    + eexists. split; [reflexivity|done].
    + eexists. split; [reflexivity|].
      intros [H|[H|[]]]; [|done].
      symmetry in H. apply pystr_eqb_eq in H. congruence.
Qed.

(** C9, as the script has it: every row the "Guardar Gasto" button adds has
    a positive amount and holds the description and the payment method
    exactly as entered, both non-empty as entered; they are never trimmed.
    A category that is not empty once its surrounding whitespace is
    removed is stored without that whitespace.  A form with an empty text,
    a non-positive amount or (for Bolívares) a non-positive rate leaves
    the file untouched and hands no statement to the engine. *)
Theorem boton_guardar_invariante (f : Formulario) (w : Mundo) :
  In (moneda f) monedas ->
  (forall r : Gasto,
      In r (filas_de (base (boton_guardar f w).2)) ->
      In r (filas_de (base w))
      \/ ((0 < monto_usd r)%Q
          /\ concepto r = f_concepto f /\ concepto r <> []
          /\ banco r = f_banco f /\ banco r <> []
          /\ (PyStr.strip (categoria_final f) <> [] ->
              categoria r = PyStr.strip (categoria_final f) /\ categoria r <> [])))
  /\ (formulario_rechazado f ->
        base (boton_guardar f w).2 = base w
        /\ sentencias (traza (boton_guardar f w).2) = sentencias (traza w)).
Proof.
  intros Hmon. unfold boton_guardar, mbind, M_bind, bind.
  destruct (conversion_casos f w) as [[Hrej [t ->]]|[Hok (q & -> & Hq)]]; simpl.
  - split; [by left|]. intros _. split; [done|].
    by rewrite sentencias_app, app_nil_r.
  - split; [|done]. intros r.
    pose proof (guardar_gasto_efecto (PyStr.strip (categoria_final f)) (f_concepto f)
                  (f_banco f) q (f_fecha f) w) as Hg. simpl in Hg.
    destruct (guardar_gasto _ _ _ _ _ w) as [[[]|e] w1]; simpl in *.
    + unfold st_cache_data_clear, anotar, st_rerun, raise. simpl.
      destruct Hg as [->|(t & nuevo & Hb & ->)]; [by left|]. simpl.
      rewrite Hb. simpl. rewrite in_app_iff. intros [Hr|[<-|[]]]; [by left|].
      right. simpl. unfold formulario_rechazado in Hok.
      repeat split; auto; intros H; apply Hok; auto.
    + destruct Hg as [->|(t & nuevo & Hb & ->)]; [by left|]. simpl.
      rewrite Hb. simpl. rewrite in_app_iff. intros [Hr|[<-|[]]]; [by left|].
      right. simpl. unfold formulario_rechazado in Hok.
      repeat split; auto; intros H; apply Hok; auto.
Qed.

Lemma boton_guardar_invariante_witness :
  (forall r : Gasto,
      In r (filas_de (base (boton_guardar formulario_ejemplo mundo_ejemplo).2)) ->
      In r (filas_de (base mundo_ejemplo))
      \/ ((0 < monto_usd r)%Q
          /\ concepto r = f_concepto formulario_ejemplo /\ concepto r <> []
          /\ banco r = f_banco formulario_ejemplo /\ banco r <> []
          /\ (PyStr.strip (categoria_final formulario_ejemplo) <> [] ->
              categoria r = PyStr.strip (categoria_final formulario_ejemplo)
              /\ categoria r <> [])))
  /\ (formulario_rechazado formulario_ejemplo ->
        base (boton_guardar formulario_ejemplo mundo_ejemplo).2 = base mundo_ejemplo
        /\ sentencias (traza (boton_guardar formulario_ejemplo mundo_ejemplo).2)
           = sentencias (traza mundo_ejemplo)).
Proof.
  apply (boton_guardar_invariante formulario_ejemplo mundo_ejemplo).
  right; left; reflexivity.
Defined.

(** The entry with category "Hogar" whose description and payment method
    are one blank each is saved: both are empty once trimmed. *)
Lemma boton_guardar_blancos_contraejemplo :
  exists w' : Mundo,
    boton_guardar formulario_blancos mundo_ejemplo = (Raise RerunException, w')
    /\ filas_de (base w')
       = [gasto_1; gasto_2; gasto_3;
          mkGasto 4 (py "Hogar") (py " ") (py " ") 1 (ymd 2024 1 4)]
    /\ PyStr.strip (py "Hogar") = py "Hogar"
    /\ PyStr.strip (py " ") = [].
Proof. eexists. split; [vm_compute; reflexivity|]. by vm_compute. Qed.

(** ** Bulk rename and delete *)

Lemma tiene_columnas_en (c : string) (cs : list string) (t : Tabla) :
  tiene_columnas cs t = true -> In c cs -> tiene_columna c t = true.
Proof.
  unfold tiene_columnas. rewrite forallb_forall. auto.
Qed.

Lemma motor_update (nuevo viejo : str) (t : Tabla) :
  tiene_columnas columnas_nuevas t = true ->
  motor (UpdateCategoria nuevo viejo) (Some t)
  = inr (Some (mkTabla (columnas t)
                 (List.map (fun r => if PyStr.eqb (categoria r) viejo
                                     then poner_categoria nuevo r else r) (filas t))
                 (secuencia t)),
         mkRespuesta [] (List.length (List.filter (fun r => PyStr.eqb (categoria r) viejo)
                                                  (filas t)))).
Proof.
  intros H. unfold motor.
  by rewrite (tiene_columnas_en "categoria" _ _ H) by (simpl; tauto).
Qed.

Lemma motor_delete (gid : Z) (t : Tabla) :
  tiene_columnas columnas_nuevas t = true ->
  motor (DeleteGasto gid) (Some t)
  = inr (Some (mkTabla (columnas t)
                 (List.filter (fun r => negb (id r =? gid)%Z) (filas t)) (secuencia t)),
         mkRespuesta []
           (List.length (filas t)
            - List.length (List.filter (fun r => negb (id r =? gid)%Z) (filas t)))).
Proof.
  intros H. unfold motor.
  by rewrite (tiene_columnas_en "id" _ _ H) by (simpl; tauto).
Qed.

Lemma lookup_map {A B} (f : A -> B) (l : list A) (i : nat) :
  List.map f l !! i = f <$> (l !! i).
Proof.
  revert i. induction l as [|x l IH]; intros [|i]; simpl; done.
Qed.

(** C3, as the script has it: when [new_name] is empty once trimmed, the
    function only shows an error in the sidebar and the file is untouched;
    otherwise every row whose category is exactly [old_name] gets the
    trimmed [new_name] as its category and keeps its other fields ([id]
    included), and every other row is unchanged. *)
Theorem actualizar_nombre_categoria_efecto (old_name new_name : str) (w : Mundo) (t : Tabla) :
  medio_actual w = Sano ->
  base w = Some t ->
  tiene_columnas columnas_nuevas t = true ->
  (PyStr.strip new_name = [] ->
     actualizar_nombre_categoria old_name new_name w
     = (Ret tt, mkMundo (base w) (medios w)
                        (traza w ++ [Mostrar Sidebar NivelError NombreVacio])))
  /\ (PyStr.strip new_name <> [] ->
      exists (w' : Mundo) (t' : Tabla),
        actualizar_nombre_categoria old_name new_name w = (Raise RerunException, w')
        /\ base w' = Some t'
        /\ columnas t' = columnas t
        /\ length (filas t') = length (filas t)
        /\ forall (i : nat) (r : Gasto),
             filas t !! i = Some r ->
             exists r' : Gasto,
               filas t' !! i = Some r'
               /\ id r' = id r /\ concepto r' = concepto r /\ banco r' = banco r
               /\ monto_usd r' = monto_usd r /\ fecha r' = fecha r
               /\ (categoria r = old_name -> categoria r' = PyStr.strip new_name)
               /\ (categoria r <> old_name -> r' = r)).
Proof.
  intros Hm Hb Hc. unfold actualizar_nombre_categoria. split.
  - intros ->. reflexivity.
  - intros Hne. rewrite (falsy_false _ Hne).
    unfold mbind, M_bind, bind. rewrite con_conexion_sano by done.
    monada. rewrite execute_sano. simpl.
    rewrite Hb, motor_update by done. simpl.
    eexists _, _. split; [reflexivity|]. simpl.
    split; [reflexivity|]. simpl. split; [done|].
    split; [by rewrite length_map|].
    intros i r Hi. rewrite lookup_map, Hi. simpl.
    eexists. split; [reflexivity|].
    destruct (PyStr.eqb (categoria r) old_name) eqn:E; simpl.
    + repeat split; try done. intros Hn. apply pystr_eqb_eq in E. done.
    + repeat split; try done. intros He. apply pystr_eqb_eq in He. congruence.
Qed.

Lemma actualizar_nombre_categoria_efecto_witness :
  (PyStr.strip (py " Farmacia ") = [] ->
     actualizar_nombre_categoria (py "Salud") (py " Farmacia ") mundo_ejemplo
     = (Ret tt, mkMundo (base mundo_ejemplo) (medios mundo_ejemplo)
                        (traza mundo_ejemplo ++ [Mostrar Sidebar NivelError NombreVacio])))
  /\ (PyStr.strip (py " Farmacia ") <> [] ->
      exists (w' : Mundo) (t' : Tabla),
        actualizar_nombre_categoria (py "Salud") (py " Farmacia ") mundo_ejemplo
        = (Raise RerunException, w')
        /\ base w' = Some t'
        /\ columnas t' = columnas tabla_ejemplo
        /\ length (filas t') = length (filas tabla_ejemplo)
        /\ forall (i : nat) (r : Gasto),
             filas tabla_ejemplo !! i = Some r ->
             exists r' : Gasto,
               filas t' !! i = Some r'
               /\ id r' = id r /\ concepto r' = concepto r /\ banco r' = banco r
               /\ monto_usd r' = monto_usd r /\ fecha r' = fecha r
               /\ (categoria r = py "Salud" -> categoria r' = PyStr.strip (py " Farmacia "))
               /\ (categoria r <> py "Salud" -> r' = r)).
Proof.
  apply (actualizar_nombre_categoria_efecto (py "Salud") (py " Farmacia ")
           mundo_ejemplo tabla_ejemplo); reflexivity.
Defined.

Lemma actualizar_nombre_categoria_contraejemplo :
  exists w' : Mundo,
    actualizar_nombre_categoria (py "Salud") (py " Farmacia ") mundo_ejemplo
    = (Raise RerunException, w')
    /\ filas_de (base w')
       = [gasto_1; gasto_2; poner_categoria (py "Farmacia") gasto_3]
    /\ categoria gasto_3 = py "Salud"
    /\ py "Farmacia" <> py " Farmacia ".
Proof. eexists. split; [vm_compute; reflexivity|]. by vm_compute. Qed.

Lemma filter_todos {A} (p : A -> bool) (l : list A) :
  (forall x, In x l -> p x = true) -> List.filter p l = l.
Proof.
  induction l as [|x l IH]; simpl; [done|]. intros H.
  rewrite (H x) by auto. f_equal. apply IH. auto.
Qed.

Lemma filter_sublist {A} (p : A -> bool) (l : list A) : sublist (List.filter p l) l.
Proof.
  induction l as [|x l IH]; simpl; [constructor|].
  destruct (p x); by constructor.
Qed.

Lemma filter_length_le {A} (p : A -> bool) (l : list A) :
  (length (List.filter p l) <= length l)%nat.
Proof. apply sublist_length, filter_sublist. Qed.

Lemma filter_length_lt {A} (p : A -> bool) (l : list A) (x : A) :
  In x l -> p x = false -> (length (List.filter p l) < length l)%nat.
Proof.
  induction l as [|y l IH]; simpl; [done|]. intros [->|Hx] Hp.
  - rewrite Hp. pose proof (filter_length_le p l). lia.
  - specialize (IH Hx Hp). destruct (p y); simpl; lia.
Qed.

(** With unique ids, deleting one id removes one row. *)
Lemma filter_id_length (gid : Z) (l : list Gasto) :
  NoDup (List.map id l) ->
  (exists r, In r l /\ id r = gid) ->
  S (length (List.filter (fun r => negb (id r =? gid)%Z) l)) = length l.
Proof.
  induction l as [|x l IH]; simpl.
  - by intros _ (r & [] & _).
  - intros [Hx Hl]%NoDup_cons (r & [<-|Hr] & Hid).
    + rewrite Hid, Z.eqb_refl. simpl. f_equal. rewrite filter_todos; [done|].
      intros y Hy. apply negb_true_iff, Z.eqb_neq. intros Hyx.
      apply Hx. rewrite Hid, <- Hyx. apply list_elem_of_In. by apply in_map.
    + destruct (id x =? gid)%Z eqn:E; simpl.
      * apply Z.eqb_eq in E. exfalso. apply Hx. rewrite E, <- Hid.
        apply list_elem_of_In. by apply in_map.
      * f_equal. apply IH; eauto.
Qed.

(** C4: deleting an id no row has leaves the table as it was and shows the
    "not found" warning; deleting an id some row has removes the rows of
    that id and no other (one row, ids being unique), keeps the remaining
    rows in their order and shows the "deleted" message. *)
Theorem eliminar_gasto_efecto (gasto_id : Z) (w : Mundo) (t : Tabla) :
  medio_actual w = Sano ->
  base w = Some t ->
  tiene_columnas columnas_nuevas t = true ->
  exists (w' : Mundo) (t' : Tabla),
    eliminar_gasto gasto_id w = (Raise RerunException, w')
    /\ base w' = Some t'
    /\ columnas t' = columnas t
    /\ ((forall r, In r (filas t) -> id r <> gasto_id) ->
          t' = t
          /\ mensajes (traza w')
             = mensajes (traza w) ++ [(Sidebar, NivelWarning, GastoNoEncontrado gasto_id)])
    /\ ((exists r, In r (filas t) /\ id r = gasto_id) ->
          (forall r, In r (filas t') <-> In r (filas t) /\ id r <> gasto_id)
          /\ sublist (filas t') (filas t)
          /\ (NoDup (List.map id (filas t)) -> S (length (filas t')) = length (filas t))
          /\ mensajes (traza w')
             = mensajes (traza w) ++ [(Sidebar, NivelSuccess, GastoEliminado gasto_id)]).
Proof.
  intros Hm Hb Hc. unfold eliminar_gasto.
  unfold mbind at 1 2. unfold M_bind, bind. rewrite con_conexion_sano by done.
  monada. rewrite execute_sano. simpl.
  rewrite Hb, motor_delete by done. simpl.
  set (queda := fun r : Gasto => negb (id r =? gasto_id)%Z).
  destruct (Nat.eqb (length (filas t) - length (List.filter queda (filas t))) 0) eqn:E; simpl.
  - apply Nat.eqb_eq in E.
    eexists _, _. split; [reflexivity|]. simpl. split; [reflexivity|]. simpl.
    split; [done|]. split.
    + intros Hno. split.
      * rewrite filter_todos; [by destruct t|].
        intros r Hr. apply negb_true_iff, Z.eqb_neq. by apply Hno.
      * rewrite !mensajes_app. simpl. by rewrite !app_nil_r.
    + intros (r & Hr & Hid). exfalso.
      assert (queda r = false) as Hq by (unfold queda; rewrite Hid, Z.eqb_refl; done).
      pose proof (filter_length_lt queda _ r Hr Hq). lia.
  - apply Nat.eqb_neq in E.
    eexists _, _. split; [reflexivity|]. simpl. split; [reflexivity|]. simpl.
    split; [done|]. split.
    + intros Hno. exfalso. apply E. rewrite filter_todos; [lia|].
      intros r Hr. apply negb_true_iff, Z.eqb_neq. by apply Hno.
    + intros Hex. split; [|split; [|split]].
      * intros r. rewrite filter_In. unfold queda.
        rewrite negb_true_iff, Z.eqb_neq. done.
      * apply filter_sublist.
      * intros Hnd. by apply filter_id_length.
      * rewrite !mensajes_app. simpl. by rewrite !app_nil_r.
Qed.

Lemma eliminar_gasto_efecto_witness :
  exists (w' : Mundo) (t' : Tabla),
    eliminar_gasto 2 mundo_ejemplo = (Raise RerunException, w')
    /\ base w' = Some t'
    /\ columnas t' = columnas tabla_ejemplo
    /\ ((forall r, In r (filas tabla_ejemplo) -> id r <> 2%Z) ->
          t' = tabla_ejemplo
          /\ mensajes (traza w')
             = mensajes (traza mundo_ejemplo) ++ [(Sidebar, NivelWarning, GastoNoEncontrado 2)])
    /\ ((exists r, In r (filas tabla_ejemplo) /\ id r = 2%Z) ->
          (forall r, In r (filas t') <-> In r (filas tabla_ejemplo) /\ id r <> 2%Z)
          /\ sublist (filas t') (filas tabla_ejemplo)
          /\ (NoDup (List.map id (filas tabla_ejemplo)) ->
              S (length (filas t')) = length (filas tabla_ejemplo))
          /\ mensajes (traza w')
             = mensajes (traza mundo_ejemplo) ++ [(Sidebar, NivelSuccess, GastoEliminado 2)]).
Proof. apply (eliminar_gasto_efecto 2 mundo_ejemplo tabla_ejemplo); reflexivity. Defined.

(** ** Schema initialisation *)

Lemma mbind_ret {A B} (m : M A) (k : A -> M B) (w w' : Mundo) (a : A) :
  m w = (Ret a, w') -> (m ≫= k) w = k a w'.
Proof. intros H. unfold mbind, M_bind, bind. by rewrite H. Qed.

Lemma mbind_raise {A B} (m : M A) (k : A -> M B) (w w' : Mundo) (e : Excepcion) :
  m w = (Raise e, w') -> (m ≫= k) w = (Raise e, w').
Proof. intros H. unfold mbind, M_bind, bind. by rewrite H. Qed.

Lemma motor_alter_operational (s : Sentencia) (b : Base) (e : Excepcion) :
  s = AlterRenameMonto \/ s = AlterAddCategoria ->
  motor s b = inl e -> es_OperationalError e = true.
Proof.
  intros [-> | ->]; unfold motor; destruct b as [t|]; cbv beta iota.
  - destruct (negb (tiene_columna "monto" t)); [by intros [= <-]|].
    destruct (tiene_columna "monto_usd" t); [by intros [= <-]|done].
  - by intros [= <-].
  - destruct (tiene_columna "categoria" t); [by intros [= <-]|done].
  - by intros [= <-].
Qed.

(** A migration inside its own [try]: whatever it raises is swallowed. *)
Lemma migracion_tragada (s : Sentencia) (w : Mundo) :
  s = AlterRenameMonto \/ s = AlterAddCategoria ->
  try_except (execute Sano s ;; mret tt) es_OperationalError (fun _ => mret tt) w
  = (Ret tt, mkMundo (tras s (base w)) (medios w) (traza w ++ [Ejecutar s])).
Proof.
  intros Hs. unfold try_except, tras, mbind, M_bind, bind. rewrite execute_sano.
  destruct (motor s (base w)) as [e|[b r]] eqn:E; [|done].
  by rewrite (motor_alter_operational _ _ _ Hs E).
Qed.

Lemma motor_create (b : Base) :
  exists r, motor CreateTableIfNotExists b = inr (tras CreateTableIfNotExists b, r).
Proof. unfold tras. destruct b; simpl; eauto. Qed.

Lemma init_db_sano (w : Mundo) :
  medio_actual w = Sano ->
  init_db w
  = (Ret tt,
     mkMundo (migrar (base w)) (List.tail (medios w))
             (traza w ++ [Ejecutar CreateTableIfNotExists; Ejecutar AlterRenameMonto;
                          Ejecutar AlterAddCategoria])).
Proof.
  intros Hm. unfold init_db. rewrite con_conexion_sano by done.
  unfold try_except at 1.
  destruct (motor_create (base w)) as [r Hr].
  erewrite mbind_ret; last first.
  { rewrite execute_sano. simpl. rewrite Hr. reflexivity. }
  erewrite mbind_ret; [|by apply migracion_tragada; left].
  erewrite mbind_ret; [|by apply migracion_tragada; right].
  simpl. unfold migrar. by rewrite <- !app_assoc.
Qed.

Lemma renombrar_sin_monto (cs : list string) :
  existsb (String.eqb "monto") (renombrar_columna "monto" "monto_usd" cs) = false.
Proof.
  unfold renombrar_columna.
  induction cs as [|c cs IH]; [done|].
  cbn [List.map existsb]. rewrite IH, orb_false_r.
  destruct (String.eqb c "monto") eqn:E; [done|].
  by rewrite String.eqb_sym.
Qed.

Lemma tras_create_existe (b : Base) : exists t, tras CreateTableIfNotExists b = Some t.
Proof. destruct b as [t|]; unfold tras; simpl; eauto. Qed.

Lemma tras_rename_migrado (t : Tabla) :
  exists t', tras AlterRenameMonto (Some t) = Some t'
    /\ (tiene_columna "monto" t' = false \/ tiene_columna "monto_usd" t' = true).
Proof.
  unfold tras, motor.
  destruct (tiene_columna "monto" t) eqn:E1; simpl; [|eauto].
  destruct (tiene_columna "monto_usd" t) eqn:E2; simpl; [eauto|].
  eexists. split; [reflexivity|]. left. apply renombrar_sin_monto.
Qed.

Lemma tras_add_migrado (t : Tabla) :
  tiene_columna "monto" t = false \/ tiene_columna "monto_usd" t = true ->
  migrada (tras AlterAddCategoria (Some t)).
Proof.
  intros H. unfold tras, motor, migrada.
  destruct (tiene_columna "categoria" t) eqn:E; simpl; [eauto|].
  eexists. split; [reflexivity|]. unfold tiene_columna in *. cbn [columnas].
  rewrite !existsb_app. split; [apply orb_true_r|].
  destruct H as [-> | ->]; [by left|by right].
Qed.

Lemma migrar_migrada (b : Base) : migrada (migrar b).
Proof.
  unfold migrar. destruct (tras_create_existe b) as [t ->].
  destruct (tras_rename_migrado t) as (t' & -> & H). by apply tras_add_migrado.
Qed.

(** On a migrated file the two [ALTER] statements fail and nothing changes. *)
Lemma migrada_fija (b : Base) :
  migrada b ->
  migrar b = b
  /\ (exists e, motor AlterRenameMonto b = inl e /\ es_OperationalError e = true)
  /\ (exists e, motor AlterAddCategoria b = inl e /\ es_OperationalError e = true).
Proof.
  intros (t & -> & Hc & Hm).
  assert (Hr : exists e, motor AlterRenameMonto (Some t) = inl e
                         /\ es_OperationalError e = true).
  { unfold motor. destruct Hm as [-> | Hm]; simpl; [eauto|].
    destruct (negb (tiene_columna "monto" t)); [eauto|]. rewrite Hm. eauto. }
  assert (Ha : exists e, motor AlterAddCategoria (Some t) = inl e
                         /\ es_OperationalError e = true).
  { unfold motor. rewrite Hc. eauto. }
  split; [|done].
  destruct Hr as (e1 & Hr & _), Ha as (e2 & Ha & _).
  unfold migrar, tras. simpl. by rewrite Hr, Ha.
Qed.

(** C7: on an available storage [init_db] succeeds on every state of the
    store: it returns and reports nothing.  Run a second time in
    succession, on the storage the first run left and still available, it
    again returns without reporting anything and leaves the file as it
    was: same table, same columns under the same names (and same rows); in
    that second run the rename of [monto] and the addition of [categoria]
    each raise an [OperationalError], which is swallowed. *)
Theorem init_db_idempotente (w : Mundo) :
  medio_actual w = Sano ->
  medio_actual (init_db w).2 = Sano ->
  exists w1 w2 : Mundo,
    init_db w = (Ret tt, w1)
    /\ mensajes (traza w1) = mensajes (traza w)
    /\ init_db w1 = (Ret tt, w2)
    /\ mensajes (traza w2) = mensajes (traza w1)
    /\ esquema (base w2) = esquema (base w1)
    /\ base w2 = base w1
    /\ sentencias (traza w2)
       = sentencias (traza w1)
         ++ [CreateTableIfNotExists; AlterRenameMonto; AlterAddCategoria]
    /\ (exists e, motor AlterRenameMonto (base w1) = inl e /\ es_OperationalError e = true)
    /\ (exists e, motor AlterAddCategoria (base w1) = inl e /\ es_OperationalError e = true).
Proof.
  intros Hm. rewrite (init_db_sano w Hm). cbn [snd]. intros Hm1.
  destruct (migrada_fija _ (migrar_migrada (base w))) as (Hfix & Hr & Ha).
  eexists _, _. split; [reflexivity|].
  rewrite (init_db_sano _ Hm1). cbn [base medios traza]. rewrite Hfix.
  split; [by rewrite mensajes_app, app_nil_r|].
  split; [reflexivity|]. cbn [base medios traza].
  split; [by rewrite mensajes_app, app_nil_r|].
  split; [done|]. split; [done|].
  split; [by rewrite sentencias_app|]. done.
Qed.

Lemma init_db_idempotente_witness :
  exists w1 w2 : Mundo,
    init_db mundo_legado = (Ret tt, w1)
    /\ mensajes (traza w1) = mensajes (traza mundo_legado)
    /\ init_db w1 = (Ret tt, w2)
    /\ mensajes (traza w2) = mensajes (traza w1)
    /\ esquema (base w2) = esquema (base w1)
    /\ base w2 = base w1
    /\ sentencias (traza w2)
       = sentencias (traza w1)
         ++ [CreateTableIfNotExists; AlterRenameMonto; AlterAddCategoria]
    /\ (exists e, motor AlterRenameMonto (base w1) = inl e
                  /\ es_OperationalError e = true)
    /\ (exists e, motor AlterAddCategoria (base w1) = inl e
                  /\ es_OperationalError e = true).
Proof. apply (init_db_idempotente mundo_legado); reflexivity. Defined.

(** The first run renames [monto] and adds [categoria] to the legacy file. *)
Example init_db_migra_legado :
  esquema (base mundo_migrado)
  = Some ["id"; "concepto"; "banco"; "monto_usd"; "fecha"; "categoria"]%string
  /\ List.map categoria (filas_de (base mundo_migrado)) = [otros; otros; otros].
Proof. by vm_compute. Qed.

(** ** Start-up *)

Lemma init_db_averiado (w : Mundo) (c : ClaseSqlite) :
  medio_actual w = Averiado c ->
  init_db w
  = (Ret tt,
     mkMundo (base w) (List.tail (medios w))
             (traza w ++ [Ejecutar CreateTableIfNotExists;
                          Mostrar Pagina NivelError
                            (ErrorAlInicializar (SqliteError c StorageFault))])).
Proof.
  intros Hm. unfold init_db, con_conexion, sqlite3_connect. rewrite Hm.
  unfold try_except. erewrite mbind_raise; [|reflexivity].
  unfold st_error, anotar. simpl. by rewrite <- app_assoc.
Qed.

(** The statements [cargar_datos] hands to the engine once its connection
    is open. *)
Lemma cargar_datos_sentencias (w : Mundo) :
  medio_actual w <> NoAbre ->
  sentencias (traza (cargar_datos w).2) = sentencias (traza w) ++ [SelectGastos].
Proof.
  intros Hm. unfold cargar_datos, con_conexion, sqlite3_connect.
  destruct (medio_actual w) eqn:Em; [|done|].
  - monada. rewrite execute_sano. simpl.
    destruct (motor SelectGastos (base w)) as [e|[b r]]; simpl.
    + destruct e; simpl; rewrite !sentencias_app; simpl; by rewrite ?app_nil_r.
    + by rewrite sentencias_app.
  - unfold try_except. erewrite mbind_raise; [|reflexivity]. simpl.
    rewrite !sentencias_app. simpl. by rewrite app_nil_r.
Qed.

(** C8, as the script has it: when, on an opened connection, [CREATE TABLE]
    fails in [init_db] (an error that is no expected no-op and reaches the
    handler of line 38), the error is reported on the page, the file is
    left as it was and [init_db] returns; the start-up does not stop
    there: it goes on to [cargar_datos], whose body (run, as on a cleared
    cache) hands its [SELECT] to the engine as soon as its own connection
    opens. *)
Theorem arranque_tras_fallo (w : Mundo) (c : ClaseSqlite) :
  medio_actual w = Averiado c ->
  exists w1 : Mundo,
    init_db w = (Ret tt, w1)
    /\ base w1 = base w
    /\ mensajes (traza w1)
       = mensajes (traza w)
         ++ [(Pagina, NivelError, ErrorAlInicializar (SqliteError c StorageFault))]
    /\ arranque w = cargar_datos w1
    /\ (medio_actual w1 <> NoAbre ->
        sentencias (traza (arranque w).2)
        = sentencias (traza w) ++ [CreateTableIfNotExists; SelectGastos]).
Proof.
  intros Hm. eexists. split; [by apply init_db_averiado|]. simpl.
  split; [done|]. split; [by rewrite mensajes_app|].
  assert (Ha : arranque w = cargar_datos
    (mkMundo (base w) (List.tail (medios w))
       (traza w ++ [Ejecutar CreateTableIfNotExists;
                    Mostrar Pagina NivelError
                      (ErrorAlInicializar (SqliteError c StorageFault))]))).
  { unfold arranque. erewrite mbind_ret; [reflexivity|by apply init_db_averiado]. }
  split; [exact Ha|].
  intros Hn. rewrite Ha, cargar_datos_sentencias by done. simpl.
  rewrite sentencias_app. simpl. by rewrite <- app_assoc.
Qed.

Lemma arranque_tras_fallo_witness :
  exists w1 : Mundo,
    init_db mundo_legado_bloqueado = (Ret tt, w1)
    /\ base w1 = base mundo_legado_bloqueado
    /\ mensajes (traza w1)
       = mensajes (traza mundo_legado_bloqueado)
         ++ [(Pagina, NivelError,
              ErrorAlInicializar (SqliteError OperationalError StorageFault))]
    /\ arranque mundo_legado_bloqueado = cargar_datos w1
    /\ (medio_actual w1 <> NoAbre ->
        sentencias (traza (arranque mundo_legado_bloqueado).2)
        = sentencias (traza mundo_legado_bloqueado)
          ++ [CreateTableIfNotExists; SelectGastos]).
Proof.
  apply (arranque_tras_fallo mundo_legado_bloqueado OperationalError). reflexivity.
Defined.

Lemma arranque_lee_tras_fallo_contraejemplo :
  exists w' : Mundo,
    arranque mundo_legado_bloqueado = (Ret df_vacio, w')
    /\ base w' = Some tabla_legada
    /\ traza w'
       = [Ejecutar CreateTableIfNotExists;
          Mostrar Pagina NivelError
            (ErrorAlInicializar (SqliteError OperationalError StorageFault));
          Ejecutar SelectGastos;
          Mostrar Pagina NivelError
            (ErrorAlCargar (SqliteError OperationalError (NoSuchColumn "categoria")))].
Proof. eexists. split; [vm_compute; reflexivity|]. by vm_compute. Qed.

(** C10, at the input where the script departs from it: when the database
    file cannot be opened, [cargar_datos] reports the error and then, instead
    of returning the empty frame, raises [UnboundLocalError] from its
    [finally] clause. *)
Theorem cargar_datos_no_abre (b : Base) (ms : list Medio) (tr : list Evento) :
  cargar_datos (mkMundo b (NoAbre :: ms) tr)
  = (Raise UnboundLocalError,
     mkMundo b ms
       (tr ++ [Mostrar Pagina NivelError
                 (ErrorAlCargar (SqliteError OperationalError UnableToOpen))])).
Proof. reflexivity. Qed.

(** X3: when the connection opens and the query fails, the error is
    reported and the empty frame with the six column labels is returned. *)
Lemma cargar_datos_averiado (w : Mundo) (c : ClaseSqlite) :
  medio_actual w = Averiado c ->
  cargar_datos w
  = (Ret df_vacio,
     mkMundo (base w) (List.tail (medios w))
       (traza w ++ [Ejecutar SelectGastos;
                    Mostrar Pagina NivelError
                      (ErrorAlCargar (SqliteError c StorageFault))])).
Proof.
  intros Hm. unfold cargar_datos, con_conexion, sqlite3_connect. rewrite Hm.
  unfold try_except. erewrite mbind_raise; [|reflexivity].
  unfold mbind, M_bind, bind, st_error, anotar. simpl. by rewrite <- app_assoc.
Qed.

(** ** Daily series *)

Lemma al_dia_lookup (bins : gmap Z Q) (r : Gasto) (d : Z) :
  default 0%Q (al_dia bins r !! d)
  = if (fecha r =? d)%Z then (default 0%Q (bins !! d) + monto_usd r)%Q
    else default 0%Q (bins !! d).
Proof.
  unfold al_dia. destruct (fecha r =? d)%Z eqn:E.
  - apply Z.eqb_eq in E. subst. by rewrite lookup_insert_eq.
  - apply Z.eqb_neq in E. by rewrite lookup_insert_ne.
Qed.

Lemma foldl_al_dia (df : list Gasto) (bins : gmap Z Q) (d : Z) :
  (default 0%Q (foldl al_dia bins df !! d)
   == default 0%Q (bins !! d) + suma_del_dia d df)%Q.
Proof.
  revert bins. unfold suma_del_dia.
  induction df as [|r df IH]; intros bins; simpl.
  - ring.
  - rewrite IH, al_dia_lookup. unfold en_fecha.
    destruct (fecha r =? d)%Z; simpl; ring.
Qed.

Lemma cubetas_suma (df : list Gasto) (d : Z) :
  (default 0%Q (cubetas df !! d) == suma_del_dia d df)%Q.
Proof. unfold cubetas. rewrite foldl_al_dia, lookup_empty. simpl. ring. Qed.

Lemma foldl_al_dia_None (df : list Gasto) (bins : gmap Z Q) (d : Z) :
  bins !! d = None ->
  (forall a, In a df -> fecha a <> d) ->
  foldl al_dia bins df !! d = None.
Proof.
  revert bins. induction df as [|r df IH]; intros bins Hb Hd; simpl; [done|].
  apply IH; [|intros a Ha; apply Hd; by right].
  unfold al_dia. rewrite lookup_insert_ne; [done|]. apply Hd. by left.
Qed.

Lemma primer_dia_min (r : Gasto) (rs : list Gasto) :
  (exists a, In a (r :: rs) /\ fecha a = primer_dia r rs)
  /\ (forall a, In a (r :: rs) -> (primer_dia r rs <= fecha a)%Z).
Proof.
  unfold primer_dia. induction rs as [|x rs [(a & Ha & Ea) IH]]; simpl.
  - split; [eauto|]. intros a [<-|[]]. lia.
  - split.
    + destruct (Z.min_spec (fecha x) (fold_right (fun x m => Z.min (fecha x) m) (fecha r) rs))
        as [[_ ->]|[_ ->]]; [eauto|].
      exists a. split; [|done]. simpl in Ha. tauto.
    + intros b [<-|[<-|Hb]].
      * specialize (IH r (or_introl eq_refl)). lia.
      * lia.
      * specialize (IH b (or_intror Hb)). lia.
Qed.

Lemma ultimo_dia_max (r : Gasto) (rs : list Gasto) :
  (exists a, In a (r :: rs) /\ fecha a = ultimo_dia r rs)
  /\ (forall a, In a (r :: rs) -> (fecha a <= ultimo_dia r rs)%Z).
Proof.
  unfold ultimo_dia. induction rs as [|x rs [(a & Ha & Ea) IH]]; simpl.
  - split; [eauto|]. intros a [<-|[]]. lia.
  - split.
    + destruct (Z.max_spec (fecha x) (fold_right (fun x m => Z.max (fecha x) m) (fecha r) rs))
        as [[_ ->]|[_ ->]]; [|eauto].
      exists a. split; [|done]. simpl in Ha. tauto.
    + intros b [<-|[<-|Hb]].
      * specialize (IH r (or_introl eq_refl)). lia.
      * lia.
      * specialize (IH b (or_intror Hb)). lia.
Qed.

Lemma seqZ_ordenada (n : nat) (m : Z) : StronglySorted Z.lt (seqZ m (Z.of_nat n)).
Proof.
  revert m. induction n as [|n IH]; intros m.
  - rewrite seqZ_nil by lia. constructor.
  - rewrite seqZ_cons by lia. replace (Z.pred (Z.of_nat (S n))) with (Z.of_nat n) by lia.
    constructor; [apply IH|].
    apply Forall_seqZ. intros. lia.
Qed.

Lemma map_fst_serie {B} (f : Z -> B) (l : list Z) :
  List.map fst (List.map (fun d => (d, f d)) l) = l.
Proof. rewrite List.map_map. simpl. apply List.map_id. Qed.

(** C5: on a frame with rows, [gastos_tiempo] has exactly one entry for each
    day from the earliest to the latest date of the frame, in ascending
    order; the value of a day is the sum of the amounts of the rows dated
    that day, and 0 when no row is; on the example (rows dated 2024-01-01,
    2024-01-01 and 2024-01-03 with amounts 10, 20 and 5) the series is
    [(2024-01-01, 30); (2024-01-02, 0); (2024-01-03, 5)]. *)
Theorem gastos_tiempo_serie (df : list Gasto) :
  df <> [] ->
  (exists (serie : list (Z * Q)) (lo hi : Z),
     gastos_tiempo df = inr serie
     /\ (exists a, In a df /\ fecha a = lo) /\ (forall a, In a df -> (lo <= fecha a)%Z)
     /\ (exists a, In a df /\ fecha a = hi) /\ (forall a, In a df -> (fecha a <= hi)%Z)
     /\ (forall d : Z, In d (List.map fst serie) <-> (lo <= d <= hi)%Z)
     /\ NoDup (List.map fst serie)
     /\ StronglySorted Z.lt (List.map fst serie)
     /\ (forall d v, In (d, v) serie -> (v == suma_del_dia d df)%Q)
     /\ (forall d v, In (d, v) serie -> (forall a, In a df -> fecha a <> d) -> v = 0%Q))
  /\ gastos_tiempo df_ejemplo
     = inr [(ymd 2024 1 1, 30%Q); (ymd 2024 1 2, 0%Q); (ymd 2024 1 3, 5%Q)].
Proof.
  intros Hne. split; [|reflexivity].
  destruct df as [|r rs]; [done|]. clear Hne.
  destruct (primer_dia_min r rs) as [Hlo1 Hlo2].
  destruct (ultimo_dia_max r rs) as [Hhi1 Hhi2].
  set (df := r :: rs) in *.
  exists (List.map (fun d => (d, default 0%Q (cubetas df !! d)))
            (seqZ (primer_dia r rs) (ultimo_dia r rs - primer_dia r rs + 1))),
         (primer_dia r rs), (ultimo_dia r rs).
  split; [reflexivity|].
  rewrite map_fst_serie.
  repeat (split; [done|]).
  split.
  { intros d. rewrite <- list_elem_of_In, elem_of_seqZ. lia. }
  split; [apply NoDup_seqZ|].
  split.
  { destruct Hlo1 as (a & Ha & Ea). specialize (Hhi2 a Ha).
    replace (ultimo_dia r rs - primer_dia r rs + 1)%Z
      with (Z.of_nat (Z.to_nat (ultimo_dia r rs - primer_dia r rs + 1))) by lia.
    apply seqZ_ordenada. }
  split.
  - intros d v (d' & [= <- <-] & _)%in_map_iff. apply cubetas_suma.
  - intros d v (d' & [= <- <-] & _)%in_map_iff Hno.
    unfold cubetas. by rewrite foldl_al_dia_None.
Qed.

Lemma gastos_tiempo_serie_witness :
  (exists (serie : list (Z * Q)) (lo hi : Z),
     gastos_tiempo df_ejemplo = inr serie
     /\ (exists a, In a df_ejemplo /\ fecha a = lo)
     /\ (forall a, In a df_ejemplo -> (lo <= fecha a)%Z)
     /\ (exists a, In a df_ejemplo /\ fecha a = hi)
     /\ (forall a, In a df_ejemplo -> (fecha a <= hi)%Z)
     /\ (forall d : Z, In d (List.map fst serie) <-> (lo <= d <= hi)%Z)
     /\ NoDup (List.map fst serie)
     /\ StronglySorted Z.lt (List.map fst serie)
     /\ (forall d v, In (d, v) serie -> (v == suma_del_dia d df_ejemplo)%Q)
     /\ (forall d v, In (d, v) serie ->
           (forall a, In a df_ejemplo -> fecha a <> d) -> v = 0%Q))
  /\ gastos_tiempo df_ejemplo
     = inr [(ymd 2024 1 1, 30%Q); (ymd 2024 1 2, 0%Q); (ymd 2024 1 3, 5%Q)].
Proof. apply (gastos_tiempo_serie df_ejemplo). discriminate. Defined.

(** ** Grouping by category *)

Lemma compare_eq (s t : str) : PyStr.compare s t = Eq <-> s = t.
Proof.
  revert t. induction s as [|a s IH]; intros [|b t]; simpl; try done.
  destruct (a ?= b)%N eqn:E.
  - apply N.compare_eq in E. subst. rewrite IH. split; congruence.
  - split; [done|]. intros [= -> _]. by rewrite N.compare_refl in E.
  - split; [done|]. intros [= -> _]. by rewrite N.compare_refl in E.
Qed.

Lemma compare_antisym (s t : str) : PyStr.compare t s = CompOpp (PyStr.compare s t).
Proof.
  revert t. induction s as [|a s IH]; intros [|b t]; simpl; try done.
  rewrite (N.compare_antisym a b). destruct (a ?= b)%N; simpl; [apply IH|done|done].
Qed.

Lemma compare_lt_trans (s t u : str) :
  PyStr.compare s t = Lt -> PyStr.compare t u = Lt -> PyStr.compare s u = Lt.
Proof.
  revert t u. induction s as [|a s IH]; intros [|b t] [|c u]; simpl; try done.
  destruct (a ?= b)%N eqn:E1, (b ?= c)%N eqn:E2; try done.
  - apply N.compare_eq in E1, E2. subst. rewrite N.compare_refl. apply IH.
  - apply N.compare_eq in E1. subst. by rewrite E2.
  - apply N.compare_eq in E2. subst. by rewrite E1.
  - intros _ _. rewrite N.compare_lt_iff in *.
    assert (a < c)%N as H by lia. apply N.compare_lt_iff in H. by rewrite H.
Qed.

Lemma acumular_claves (k : str) (v : Q) (g : list (str * Q)) (c : str) :
  In c (List.map fst (acumular k v g)) <-> c = k \/ In c (List.map fst g).
Proof.
  induction g as [|[k' s] g IH]; simpl; [intuition congruence|].
  destruct (PyStr.compare k k') eqn:E; simpl.
  - apply compare_eq in E. subst. intuition congruence.
  - intuition congruence.
  - rewrite IH. intuition congruence.
Qed.

Lemma acumular_ordenada (k : str) (v : Q) (g : list (str * Q)) :
  StronglySorted (fun a b => PyStr.compare a.1 b.1 = Lt) g ->
  StronglySorted (fun a b => PyStr.compare a.1 b.1 = Lt) (acumular k v g).
Proof.
  induction 1 as [|[k' s] g Hg IH Hk]; simpl; [repeat constructor|].
  destruct (PyStr.compare k k') eqn:E.
  - constructor; [done|]. exact Hk.
  - constructor; [by constructor|]. constructor; [done|].
    eapply List.Forall_impl; [|exact Hk]. intros [c x] Hc. simpl in *.
    by eapply compare_lt_trans.
  - constructor; [done|]. apply List.Forall_forall. intros [c x] Hc. simpl.
    assert (Hin : In c (List.map fst (acumular k v g))) by (by apply (in_map fst) in Hc).
    apply acumular_claves in Hin. destruct Hin as [->|Hin].
    + rewrite compare_antisym, E. done.
    + apply in_map_iff in Hin. destruct Hin as ([c' x'] & [= ->] & Hin).
      rewrite List.Forall_forall in Hk. by apply (Hk (c, x')).
Qed.

Lemma acumular_valor (k : str) (v : Q) (g : list (str * Q)) (c : str) :
  (valor c (acumular k v g) == valor c g + (if PyStr.eqb k c then v else 0))%Q.
Proof.
  unfold valor. induction g as [|[k' s] g IH]; simpl.
  - destruct (PyStr.eqb k c); simpl; ring.
  - destruct (PyStr.compare k k') eqn:E; simpl.
    + apply compare_eq in E. subst. destruct (PyStr.eqb k' c); simpl; ring.
    + destruct (PyStr.eqb k c), (PyStr.eqb k' c); simpl; ring.
    + destruct (PyStr.eqb k' c); simpl; rewrite IH; ring.
Qed.

Lemma groupby_sum_fold (clave : Gasto -> str) (df : list Gasto) (g : list (str * Q)) :
  let g' := fold_left (fun g r => acumular (clave r) (monto_usd r) g) df g in
  StronglySorted (fun a b => PyStr.compare a.1 b.1 = Lt) g ->
  StronglySorted (fun a b => PyStr.compare a.1 b.1 = Lt) g'
  /\ (forall c, In c (List.map fst g')
                <-> In c (List.map fst g) \/ exists r, In r df /\ clave r = c)
  /\ (forall c, valor c g' == valor c g + suma_de_clave clave c df)%Q.
Proof.
  revert g. induction df as [|r df IH]; intros g; simpl; intros Hg.
  - split; [done|]. split.
    + intros c. split; [tauto|]. by intros [?|(r & [] & _)].
    + intros c. unfold suma_de_clave. simpl. ring.
  - destruct (IH (acumular (clave r) (monto_usd r) g)) as (H1 & H2 & H3);
      [by apply acumular_ordenada|].
    split; [done|]. split.
    + intros c. rewrite H2, acumular_claves. split.
      * intros [[->|?]|(x & ? & ?)]; eauto.
      * intros [?|(x & [<-|?] & ?)]; eauto.
    + intros c. rewrite H3, acumular_valor. unfold suma_de_clave. simpl.
      destruct (PyStr.eqb (clave r) c); simpl; ring.
Qed.

Lemma ordenada_NoDup (g : list (str * Q)) :
  StronglySorted (fun a b => PyStr.compare a.1 b.1 = Lt) g -> NoDup (List.map fst g).
Proof.
  induction 1 as [|[k s] g Hg IH Hk]; simpl; constructor; [|done].
  rewrite list_elem_of_In. intros ([k' s'] & Hkk & Hin)%in_map_iff. simpl in Hkk. subst.
  rewrite List.Forall_forall in Hk. specialize (Hk _ Hin). simpl in Hk.
  assert (PyStr.compare k k = Eq) by (by apply compare_eq). congruence.
Qed.

Lemma filter_nada {A} (p : A -> bool) (l : list A) :
  (forall x, In x l -> p x = false) -> List.filter p l = [].
Proof.
  induction l as [|x l IH]; simpl; [done|]. intros H.
  rewrite (H x) by auto. apply IH. auto.
Qed.

Lemma valor_unico (g : list (str * Q)) (c : str) (s : Q) :
  NoDup (List.map fst g) -> In (c, s) g -> (valor c g == s)%Q.
Proof.
  unfold valor. induction g as [|[k x] g IH]; simpl; [done|].
  intros [Hk Hg]%NoDup_cons [[= -> ->]|Hin].
  - rewrite pystr_eqb_refl. simpl. rewrite filter_nada; [simpl; ring|].
    intros [k x] Hx. simpl. apply not_true_iff_false. intros ->%pystr_eqb_eq.
    apply Hk, list_elem_of_In. by apply (in_map fst) in Hx.
  - destruct (PyStr.eqb k c) eqn:E; [|by apply IH].
    apply pystr_eqb_eq in E. subst. exfalso.
    apply Hk, list_elem_of_In. by apply (in_map fst) in Hin.
Qed.

Lemma suma_menor_lt (a b : str * Q) : suma_menor a b = true <-> (a.2 < b.2)%Q.
Proof.
  unfold suma_menor. rewrite Qlt_alt. by destruct (a.2 ?= b.2)%Q.
Qed.

Lemma suma_menor_ge (a b : str * Q) : suma_menor a b = false <-> (b.2 <= a.2)%Q.
Proof.
  rewrite <- not_true_iff_false, suma_menor_lt. split.
  - apply Qnot_lt_le.
  - apply Qle_not_lt.
Qed.

Lemma suma_menor_asim (a b : str * Q) : suma_menor a b = true -> suma_menor b a = false.
Proof. rewrite suma_menor_lt, suma_menor_ge. apply Qlt_le_weak. Qed.

Lemma suma_menor_trans (a b c : str * Q) :
  suma_menor a b = false -> suma_menor b c = false -> suma_menor a c = false.
Proof. rewrite !suma_menor_ge. intros H1 H2. by apply Qle_trans with b.2. Qed.

Lemma con_suma_empate (v : Q) (a b : str * Q) :
  con_suma v a = true -> con_suma v b = true -> suma_menor a b = false.
Proof.
  unfold con_suma. rewrite !Qeq_bool_iff, suma_menor_ge. intros -> ->. apply Qle_refl.
Qed.

Lemma StronglySorted_firstn {A} (R : A -> A -> Prop) (n : nat) (l : list A) :
  StronglySorted R l -> StronglySorted R (firstn n l).
Proof.
  intros H. revert n. induction H as [|x l Hl IH Hx]; intros [|n]; simpl; try constructor.
  - apply IH.
  - apply List.Forall_forall. intros y Hy. rewrite List.Forall_forall in Hx.
    apply Hx. rewrite <- (firstn_skipn n l). apply in_or_app. by left.
Qed.

(** What [groupby(clave)['monto_usd'].sum()] holds. *)
Lemma groupby_sum_grupos (clave : Gasto -> str) (df : list Gasto) :
  StronglySorted (fun a b => PyStr.compare a.1 b.1 = Lt) (groupby_sum clave df)
  /\ NoDup (List.map fst (groupby_sum clave df))
  /\ (forall c, In c (List.map fst (groupby_sum clave df))
                <-> exists r, In r df /\ clave r = c)
  /\ (forall c s, In (c, s) (groupby_sum clave df) -> (s == suma_de_clave clave c df)%Q).
Proof.
  destruct (groupby_sum_fold clave df []) as (H1 & H2 & H3); [constructor|].
  fold (groupby_sum clave df) in H1, H2, H3.
  pose proof (ordenada_NoDup _ H1) as Hnd.
  split; [done|]. split; [done|]. split.
  - intros c. rewrite H2. simpl. tauto.
  - intros c s Hin. rewrite <- (valor_unico _ _ _ Hnd Hin), H3. unfold valor. simpl. ring.
Qed.

(** The descending sort of a list of groups. *)
Lemma ordenar_grupos (g : list (str * Q)) :
  Permutation (ordenar_desc suma_menor g) g
  /\ StronglySorted (fun a b => (b.2 <= a.2)%Q) (ordenar_desc suma_menor g)
  /\ (forall v, List.filter (con_suma v) (ordenar_desc suma_menor g)
                = List.filter (con_suma v) g).
Proof.
  split; [apply ordenar_desc_perm|]. split.
  - eapply StronglySorted_mono; [intros a b; apply suma_menor_ge|].
    apply ordenar_desc_ordenada; [apply suma_menor_asim|apply suma_menor_trans].
  - intros v. apply ordenar_desc_filter. apply con_suma_empate.
Qed.


(** On the example: Hogar 30, Salud 5. *)
Example gastos_categoria_ejemplo :
  gastos_categoria df_ejemplo = [(py "Hogar", 30%Q); (py "Salud", 5%Q)].
Proof. reflexivity. Qed.

(** *** What the order of equal sums cannot change *)

Lemma suma_menor_sumas (a a' b b' : str * Q) :
  (a.2 == a'.2)%Q -> (b.2 == b'.2)%Q -> suma_menor a b = suma_menor a' b'.
Proof. intros Ha Hb. unfold suma_menor. by rewrite Ha, Hb. Qed.

Lemma mismas_sumas_refl (l : list (str * Q)) :
  Forall2 (fun a b => (a.2 == b.2)%Q) l l.
Proof. induction l; constructor; [reflexivity|done]. Qed.

Lemma mismas_sumas_trans (l1 l2 l3 : list (str * Q)) :
  Forall2 (fun a b => (a.2 == b.2)%Q) l1 l2 ->
  Forall2 (fun a b => (a.2 == b.2)%Q) l2 l3 ->
  Forall2 (fun a b => (a.2 == b.2)%Q) l1 l3.
Proof.
  intros H. revert l3. induction H as [|a b l1 l2 Hab _ IH]; intros l3 H23.
  - inversion H23. constructor.
  - inversion H23 as [|b' c l2' l3' Hbc H23']; subst. constructor.
    + by rewrite Hab.
    + by apply IH.
Qed.

Lemma insertar_mismas_sumas (x : str * Q) (l1 l2 : list (str * Q)) :
  Forall2 (fun a b => (a.2 == b.2)%Q) l1 l2 ->
  Forall2 (fun a b => (a.2 == b.2)%Q) (insertar suma_menor x l1) (insertar suma_menor x l2).
Proof.
  induction 1 as [|y1 y2 l1 l2 Hy Hl IH]; simpl.
  - constructor; [reflexivity|constructor].
  - rewrite (suma_menor_sumas x x y1 y2) by (done || reflexivity).
    destruct (suma_menor x y2).
    + by constructor.
    + constructor; [reflexivity|]. by constructor.
Qed.

Lemma insertar_dos_cabezas (x y : str * Q) (t : list (str * Q)) :
  insertar suma_menor x t = x :: t ->
  insertar suma_menor y t = y :: t ->
  Forall2 (fun a b => (a.2 == b.2)%Q)
          (insertar suma_menor x (y :: t)) (insertar suma_menor y (x :: t)).
Proof.
  intros Hx Hy. simpl.
  destruct (suma_menor x y) eqn:E1, (suma_menor y x) eqn:E2; rewrite ?Hx, ?Hy.
  - apply suma_menor_asim in E1. congruence.
  - apply mismas_sumas_refl.
  - apply mismas_sumas_refl.
  - apply suma_menor_ge in E1, E2.
    constructor; [by apply Qle_antisym|].
    constructor; [by apply Qle_antisym|]. apply mismas_sumas_refl.
Qed.

Lemma insertar_conmuta (x y : str * Q) (l : list (str * Q)) :
  Forall2 (fun a b => (a.2 == b.2)%Q)
          (insertar suma_menor x (insertar suma_menor y l))
          (insertar suma_menor y (insertar suma_menor x l)).
Proof.
  induction l as [|z l IH].
  - by apply insertar_dos_cabezas.
  - cbn [insertar]. destruct (suma_menor y z) eqn:Ey, (suma_menor x z) eqn:Ex.
    + cbn [insertar]. rewrite Ex, Ey. by constructor; [reflexivity|].
    + cbn [insertar]. rewrite Ex, Ey.
      assert (suma_menor y x = true) as ->; [|apply mismas_sumas_refl].
      apply suma_menor_lt. apply suma_menor_lt in Ey. apply suma_menor_ge in Ex.
      by eapply Qlt_le_trans.
    + cbn [insertar]. rewrite Ex, Ey.
      assert (suma_menor x y = true) as ->; [|apply mismas_sumas_refl].
      apply suma_menor_lt. apply suma_menor_lt in Ex. apply suma_menor_ge in Ey.
      by eapply Qlt_le_trans.
    + apply insertar_dos_cabezas; cbn [insertar]; by rewrite ?Ex, ?Ey.
Qed.

Lemma ordenar_desc_mismas_sumas (l l' : list (str * Q)) :
  Permutation l l' ->
  Forall2 (fun a b => (a.2 == b.2)%Q)
          (ordenar_desc suma_menor l) (ordenar_desc suma_menor l').
Proof.
  induction 1 as [|x l l' _ IH|x y l|l l' l'' _ IH1 _ IH2]; simpl.
  - constructor.
  - by apply insertar_mismas_sumas.
  - apply insertar_conmuta.
  - by eapply mismas_sumas_trans.
Qed.

(** X5: [gastos_banco] has one entry for each payment method present, with
    the sum of the amounts of its rows, in descending order of sum, every
    entry kept: it is one of the results [sort_values] may give on the
    grouping.  Any other result it may give has the same entries and,
    place by place, the same sums: the two can differ only in the order of
    payment methods of equal sum. *)
Theorem gastos_banco_todos (df : list Gasto) :
  orden_descendente (groupby_sum banco df) (gastos_banco df)
  /\ NoDup (List.map fst (gastos_banco df))
  /\ (forall c, In c (List.map fst (gastos_banco df)) <-> exists r, In r df /\ banco r = c)
  /\ (forall c s, In (c, s) (gastos_banco df) -> (s == suma_de_clave banco c df)%Q)
  /\ (forall s' : list (str * Q),
        orden_descendente (groupby_sum banco df) s' ->
        Permutation s' (gastos_banco df)
        /\ Forall2 (fun a b => (a.2 == b.2)%Q) s' (gastos_banco df)).
Proof.
  destruct (groupby_sum_grupos banco df) as (_ & H2 & H3 & H4).
  destruct (ordenar_grupos (groupby_sum banco df)) as (Hp & Hs & _).
  unfold gastos_banco, sort_values_desc.
  split; [by split|]. split; [|split; [|split]].
  - by rewrite (Permutation_map fst Hp).
  - intros c. rewrite <- H3. split; apply Permutation_in, Permutation_map; [done|by symmetry].
  - intros c s Hin. apply H4. by apply (Permutation_in _ Hp).
  - intros s' [Hp' Hs']. split; [by rewrite Hp, Hp'|].
    rewrite <- (ordenar_desc_fijo suma_menor s') at 1.
    + by apply ordenar_desc_mismas_sumas.
    + eapply StronglySorted_mono; [|exact Hs']. intros a b. apply suma_menor_ge.
Qed.

(** ** Totals *)

Lemma fold_left_suma (df : list Gasto) (a : Q) :
  (fold_left (fun s r => (s + monto_usd r)%Q) df a == a + suma (List.map monto_usd df))%Q.
Proof.
  revert a. induction df as [|r df IH]; intros a; simpl; [ring|].
  rewrite IH. ring.
Qed.

(** ** Creating a record *)

Lemma max_id_cota (l : list Gasto) (r : Gasto) : In r l -> (id r <= max_id l)%Z.
Proof.
  unfold max_id. induction l as [|x l IH]; simpl; [done|].
  intros [<-|Hr]; [lia|]. specialize (IH Hr). lia.
Qed.

Lemma motor_insert (cat con ban : str) (monto : Q) (dia : Z) (t : Tabla) :
  tiene_columnas columnas_nuevas t = true ->
  motor (InsertGasto cat con ban monto dia) (Some t)
  = inr (Some (mkTabla (columnas t)
                 (filas t ++ [mkGasto (Z.max (secuencia t) (max_id (filas t)) + 1)
                                      cat con ban monto dia])
                 (Z.max (secuencia t) (max_id (filas t)) + 1)),
         mkRespuesta [] 1).
Proof.
  intros H. unfold motor.
  rewrite find_sin_faltantes; [done|].
  unfold tiene_columnas in *. simpl in *.
  by destruct (tiene_columna "id" t).
Qed.

(** X2: on an initialised file and a healthy storage [guardar_gasto]
    appends one row holding its arguments under an id no row of the table
    has, and shows the success message. *)
Theorem guardar_gasto_nuevo (cat con ban : str) (monto : Q) (dia : Z)
    (w : Mundo) (t : Tabla) :
  medio_actual w = Sano ->
  base w = Some t ->
  tiene_columnas columnas_nuevas t = true ->
  exists (w' : Mundo) (t' : Tabla) (k : Z),
    guardar_gasto cat con ban monto dia w = (Ret tt, w')
    /\ base w' = Some t'
    /\ columnas t' = columnas t
    /\ filas t' = filas t ++ [mkGasto k cat con ban monto dia]
    /\ (forall r, In r (filas t) -> (id r < k)%Z)
    /\ (secuencia t < k)%Z
    /\ mensajes (traza w')
       = mensajes (traza w) ++ [(Pagina, NivelSuccess, GastoGuardado monto con cat)].
Proof.
  intros Hm Hb Hc. unfold guardar_gasto. rewrite con_conexion_sano by done.
  monada. rewrite execute_sano. simpl.
  rewrite Hb, motor_insert by done. simpl.
  eexists _, _, _. split; [reflexivity|]. simpl.
  repeat (split; [reflexivity|]).
  split; [|split; [lia|]].
  - intros r Hr. apply max_id_cota in Hr. lia.
  - rewrite !mensajes_app. simpl. by rewrite app_nil_r.
Qed.

Lemma guardar_gasto_nuevo_witness :
  exists (w' : Mundo) (t' : Tabla) (k : Z),
    guardar_gasto (py "Salud") (py "Dentista") (py "Efectivo") 40 (ymd 2024 1 5)
                  mundo_ejemplo = (Ret tt, w')
    /\ base w' = Some t'
    /\ columnas t' = columnas tabla_ejemplo
    /\ filas t' = filas tabla_ejemplo
                  ++ [mkGasto k (py "Salud") (py "Dentista") (py "Efectivo") 40 (ymd 2024 1 5)]
    /\ (forall r, In r (filas tabla_ejemplo) -> (id r < k)%Z)
    /\ (secuencia tabla_ejemplo < k)%Z
    /\ mensajes (traza w')
       = mensajes (traza mundo_ejemplo)
         ++ [(Pagina, NivelSuccess,
              GastoGuardado 40 (py "Dentista") (py "Salud"))].
Proof.
  apply (guardar_gasto_nuevo _ _ _ _ _ mundo_ejemplo tabla_ejemplo); reflexivity.
Defined.

Lemma cargar_datos_averiado_witness :
  cargar_datos mundo_bloqueado
  = (Ret df_vacio,
     mkMundo (base mundo_bloqueado) (List.tail (medios mundo_bloqueado))
       (traza mundo_bloqueado
        ++ [Ejecutar SelectGastos;
            Mostrar Pagina NivelError
              (ErrorAlCargar (SqliteError OperationalError StorageFault))])).
Proof. apply (cargar_datos_averiado mundo_bloqueado OperationalError). reflexivity. Defined.

(** ** Renaming twice *)

Lemma poner_categoria_fijo (nuevo viejo : str) (r : Gasto) :
  let f r := if PyStr.eqb (categoria r) viejo then poner_categoria nuevo r else r in
  f (f r) = f r.
Proof.
  simpl. destruct (PyStr.eqb (categoria r) viejo) eqn:E; [|by rewrite E].
  simpl. by destruct (PyStr.eqb nuevo viejo).
Qed.

(** X4: renaming a category a second time with the same arguments changes
    nothing more. *)
Theorem actualizar_nombre_categoria_dos_veces (old_name new_name : str)
    (w : Mundo) (t : Tabla) :
  medio_actual w = Sano ->
  base w = Some t ->
  tiene_columnas columnas_nuevas t = true ->
  PyStr.strip new_name <> [] ->
  medio_actual (actualizar_nombre_categoria old_name new_name w).2 = Sano ->
  base (actualizar_nombre_categoria old_name new_name
          (actualizar_nombre_categoria old_name new_name w).2).2
  = base (actualizar_nombre_categoria old_name new_name w).2.
Proof.
  intros Hm Hb Hc Hne.
  assert (Hrun : forall (w0 : Mundo) (t0 : Tabla),
    medio_actual w0 = Sano -> base w0 = Some t0 ->
    tiene_columnas columnas_nuevas t0 = true ->
    base (actualizar_nombre_categoria old_name new_name w0).2
    = Some (mkTabla (columnas t0)
              (List.map (fun r => if PyStr.eqb (categoria r) old_name
                                  then poner_categoria (PyStr.strip new_name) r else r)
                        (filas t0))
              (secuencia t0))).
  { intros w0 t0 Hm0 Hb0 Hc0. unfold actualizar_nombre_categoria.
    rewrite (falsy_false _ Hne).
    unfold mbind, M_bind, bind. rewrite con_conexion_sano by done.
    monada. rewrite execute_sano. simpl.
    by rewrite Hb0, motor_update. }
  intros Hm1. rewrite (Hrun w t) by done.
  erewrite Hrun; [| exact Hm1 | by apply Hrun | exact Hc].
  simpl. f_equal. f_equal. rewrite List.map_map. apply List.map_ext.
  intros r. apply (poner_categoria_fijo (PyStr.strip new_name) old_name r).
Qed.

Lemma actualizar_nombre_categoria_dos_veces_witness :
  base (actualizar_nombre_categoria (py "Salud") (py " Farmacia ")
          (actualizar_nombre_categoria (py "Salud") (py " Farmacia ") mundo_ejemplo).2).2
  = base (actualizar_nombre_categoria (py "Salud") (py " Farmacia ") mundo_ejemplo).2.
Proof.
  apply (actualizar_nombre_categoria_dos_veces _ _ mundo_ejemplo tabla_ejemplo);
    by vm_compute.
Defined.

(** * More of the script *)

(** ** Invariants kept by every operation *)

Create HintDb preserva.

Section Preservacion.
Context (Inv : Base -> Prop).
Hypothesis motor_inv :
  forall s b b' r, Inv b -> motor s b = inr (b', r) -> Inv b'.

Lemma preserva_mret {A} (a : A) : preserva Inv (mret a).
Proof. by intros w. Qed.

Lemma preserva_raise {A} (e : Excepcion) : preserva Inv (@raise A e).
Proof. by intros w. Qed.

Lemma preserva_anotar (e : Evento) : preserva Inv (anotar e).
Proof. by intros w. Qed.

Lemma preserva_bind {A B} (m : M A) (k : A -> M B) :
  preserva Inv m -> (forall a, preserva Inv (k a)) -> preserva Inv (m ≫= k).
Proof.
  intros Hm Hk w Hw. specialize (Hm w Hw). unfold mbind, M_bind, bind.
  destruct (m w) as [[a|e] w1]; simpl in *; [by apply Hk|done].
Qed.

Lemma preserva_try_except {A} (m : M A) clase (h : Excepcion -> M A) :
  preserva Inv m -> (forall e, preserva Inv (h e)) -> preserva Inv (try_except m clase h).
Proof.
  intros Hm Hh w Hw. specialize (Hm w Hw). unfold try_except.
  destruct (m w) as [[a|e] w1]; simpl in *; [done|].
  destruct (clase e); [by apply Hh|done].
Qed.

Lemma preserva_correr (s : Sentencia) : preserva Inv (correr s).
Proof.
  intros w Hw. unfold correr.
  destruct (motor s (base w)) as [e|[b r]] eqn:E; simpl; [done|]. by eapply motor_inv.
Qed.

Lemma preserva_execute (conn : Conexion) (s : Sentencia) : preserva Inv (execute conn s).
Proof.
  unfold execute. apply preserva_bind; [apply preserva_anotar|]. intros _.
  destruct conn; [apply preserva_correr|apply preserva_correr|apply preserva_raise].
Qed.

Lemma preserva_commit (conn : Conexion) : preserva Inv (commit conn).
Proof. destruct conn; try apply preserva_raise; apply (preserva_mret tt). Qed.

Lemma preserva_con_conexion {A} (cuerpo : Conexion -> M A) clase (h : Excepcion -> M A) :
  (forall conn, preserva Inv (cuerpo conn)) -> (forall e, preserva Inv (h e)) ->
  preserva Inv (con_conexion cuerpo clase h).
Proof.
  intros Hc Hh w Hw. unfold con_conexion, sqlite3_connect.
  assert (Ha : Inv (base (avanzar w))) by done.
  destruct (medio_actual w); simpl.
  - by apply preserva_try_except.
  - destruct (clase _); [by apply Hh|done].
  - by apply preserva_try_except.
Qed.

End Preservacion.

#[local] Hint Resolve preserva_mret preserva_raise preserva_anotar preserva_bind
  preserva_try_except preserva_execute preserva_commit preserva_con_conexion : preserva.

Ltac preservar :=
  repeat first
    [ progress (intros)
    | match goal with
      | |- preserva _ (if ?c then _ else _) => destruct c
      | |- preserva _ (match ?x with inl _ => _ | inr _ => _ end) => destruct x
      | |- preserva _ (let '(_, _) := ?x in _) => destruct x
      end
    | solve [eauto with preserva]
    | apply preserva_bind
    | apply preserva_con_conexion
    | apply preserva_try_except ].

Section PreservacionFunciones.
Context (Inv : Base -> Prop).
Hypothesis motor_inv :
  forall s b b' r, Inv b -> motor s b = inr (b', r) -> Inv b'.

Lemma preserva_init_db : preserva Inv init_db.
Proof. unfold init_db. preservar. Qed.

Lemma preserva_guardar_gasto cat con ban monto dia :
  preserva Inv (guardar_gasto cat con ban monto dia).
Proof. unfold guardar_gasto. preservar. Qed.

Lemma preserva_cargar_datos : preserva Inv cargar_datos.
Proof. unfold cargar_datos. preservar. Qed.

Lemma preserva_actualizar old_name new_name :
  preserva Inv (actualizar_nombre_categoria old_name new_name).
Proof. unfold actualizar_nombre_categoria, st_rerun. preservar. Qed.

Lemma preserva_eliminar_gasto gasto_id : preserva Inv (eliminar_gasto gasto_id).
Proof. unfold eliminar_gasto, st_rerun. preservar. Qed.

Lemma preserva_boton_guardar f : preserva Inv (boton_guardar f).
Proof.
  unfold boton_guardar. apply preserva_bind.
  { unfold conversion. preservar. }
  intros [[] q]; [|apply (preserva_mret Inv tt)].
  apply preserva_bind; [apply preserva_guardar_gasto|intros _].
  unfold st_rerun. preservar.
Qed.

Lemma preserva_boton_actualizar a b : preserva Inv (boton_actualizar a b).
Proof.
  unfold boton_actualizar. destruct (negb _); [apply preserva_actualizar|].
  apply preserva_anotar.
Qed.

Lemma preserva_script p : preserva Inv (script p).
Proof.
  unfold script.
  apply preserva_bind; [apply preserva_init_db|intros _].
  apply preserva_bind; [apply preserva_cargar_datos|intros df].
  apply preserva_bind.
  { destruct (negb (df_empty df)), (pulsa_actualizar p);
      first [apply preserva_boton_actualizar | apply (preserva_mret Inv tt)]. }
  intros _. apply preserva_bind.
  { destruct (pulsa_eliminar p);
      [apply preserva_eliminar_gasto | apply (preserva_mret Inv tt)]. }
  intros _. apply preserva_bind.
  { destruct (pulsa_guardar p);
      [apply preserva_boton_guardar | apply (preserva_mret Inv tt)]. }
  intros _. destruct (reportes df); [apply preserva_raise|apply preserva_mret].
Qed.

End PreservacionFunciones.

(** *** Ascending, bounded ids *)

Lemma max_id_no_negativo (l : list Gasto) : (0 <= max_id l)%Z.
Proof. unfold max_id. induction l as [|x l IH]; simpl; lia. Qed.

Lemma ordenada_snoc {A} (R : A -> A -> Prop) (l : list A) (x : A) :
  StronglySorted R l -> List.Forall (fun a => R a x) l -> StronglySorted R (l ++ [x]).
Proof.
  induction 1 as [|y l Hl IH Hy]; simpl; intros Hx; [repeat constructor|].
  apply List.Forall_cons_iff in Hx as [Hyx Hx].
  constructor; [by apply IH|].
  apply List.Forall_app. split; [done|]. by constructor.
Qed.

Lemma ordenada_map_id (f : Gasto -> Gasto) (l : list Gasto) :
  (forall r, id (f r) = id r) ->
  StronglySorted (fun a b => (id a < id b)%Z) l ->
  StronglySorted (fun a b => (id a < id b)%Z) (List.map f l).
Proof.
  intros Hf. induction 1 as [|y l Hl IH Hy]; simpl; constructor; [done|].
  apply List.Forall_map. eapply List.Forall_impl; [|exact Hy].
  intros a. simpl. by rewrite !Hf.
Qed.

Lemma ordenada_filter {A} (R : A -> A -> Prop) (p : A -> bool) (l : list A) :
  StronglySorted R l -> StronglySorted R (List.filter p l).
Proof.
  induction 1 as [|y l Hl IH Hy]; simpl; [constructor|].
  destruct (p y); [|done]. constructor; [done|].
  apply List.Forall_forall. intros a [Ha _]%filter_In.
  rewrite List.Forall_forall in Hy. by apply Hy.
Qed.

Lemma Forall_filter_bool {A} (P : A -> Prop) (p : A -> bool) (l : list A) :
  List.Forall P l -> List.Forall P (List.filter p l).
Proof.
  rewrite !List.Forall_forall. intros H a [Ha _]%filter_In. by apply H.
Qed.

Lemma motor_bien_formada (s : Sentencia) (b b' : Base) (r : Respuesta) :
  bien_formada b -> motor s b = inr (b', r) -> bien_formada b'.
Proof.
  unfold motor. destruct b as [t|]; last first.
  { destruct s; cbv beta iota; intros _ H; try discriminate H.
    injection H as <- _. simpl. split; constructor. }
  destruct s; cbv beta iota.
  - by intros H [= <- _].
  - intros H. destruct (negb _); [done|]. destruct (tiene_columna _ t); [done|].
    by intros [= <- _].
  - intros [H1 H2]. destruct (tiene_columna _ t); [done|]. intros [= <- _]. simpl.
    split; [by apply ordenada_map_id|].
    apply List.Forall_map. eapply List.Forall_impl; [|exact H2]. by intros a.
  - intros [H1 H2]. destruct (List.find _ _); [done|]. intros [= <- _]. simpl.
    pose proof (max_id_no_negativo (filas t)).
    split.
    + apply ordenada_snoc; [done|]. apply List.Forall_forall. intros a Ha. simpl.
      apply max_id_cota in Ha. lia.
    + apply List.Forall_app. split.
      * eapply List.Forall_impl; [|exact H2]. intros a. simpl. lia.
      * constructor; [simpl; lia|constructor].
  - intros H. destruct (List.find _ _); [done|]. by intros [= <- _].
  - intros [H1 H2]. destruct (negb _); [done|]. intros [= <- _]. simpl. split.
    + apply ordenada_map_id; [|done]. intros a. by destruct (PyStr.eqb _ _).
    + apply List.Forall_map. eapply List.Forall_impl; [|exact H2].
      intros a. by destruct (PyStr.eqb _ _).
  - intros [H1 H2]. destruct (negb _); [done|]. intros [= <- _]. simpl. split.
    + by apply ordenada_filter.
    + by apply Forall_filter_bool.
Qed.

Lemma ordenada_NoDup_id (l : list Gasto) :
  StronglySorted (fun a b => (id a < id b)%Z) l -> NoDup (List.map id l).
Proof.
  induction 1 as [|y l Hl IH Hy]; simpl; constructor; [|done].
  rewrite list_elem_of_In. intros (a & Ha & Hin)%in_map_iff.
  rewrite List.Forall_forall in Hy. specialize (Hy a Hin). lia.
Qed.

(** *** A complete schema *)

Lemma motor_esquema_listo (s : Sentencia) (b b' : Base) (r : Respuesta) :
  esquema_listo b -> motor s b = inr (b', r) -> esquema_listo b'.
Proof.
  intros (t & -> & Hc). unfold motor.
  pose proof (tiene_columnas_en "monto_usd" _ _ Hc) as Hu.
  pose proof (tiene_columnas_en "categoria" _ _ Hc) as Hk.
  destruct s; cbv beta iota.
  - intros [= <- _]. by exists t.
  - rewrite Hu by (simpl; tauto). by destruct (negb _).
  - by rewrite Hk by (simpl; tauto).
  - destruct (List.find _ _); [done|]. intros [= <- _]. by eexists.
  - destruct (List.find _ _); [done|]. intros [= <- _]. by eexists.
  - destruct (negb _); [done|]. intros [= <- _]. by eexists.
  - destruct (negb _); [done|]. intros [= <- _]. by eexists.
Qed.

(** X6: whatever the storage does, every data function and every run of the
    page leaves the rows of the file in ascending order of [id], with every
    [id] between 1 and the [AUTOINCREMENT] counter, if they were so before;
    in particular no two rows ever share an [id]. *)
Theorem operaciones_bien_formada (w : Mundo) :
  bien_formada (base w) ->
  (forall p, bien_formada (base (script p w).2)
             /\ NoDup (List.map id (filas_de (base (script p w).2))))
  /\ bien_formada (base (init_db w).2)
  /\ bien_formada (base (cargar_datos w).2)
  /\ (forall cat con ban monto dia,
        bien_formada (base (guardar_gasto cat con ban monto dia w).2))
  /\ (forall old_name new_name,
        bien_formada (base (actualizar_nombre_categoria old_name new_name w).2))
  /\ (forall gasto_id, bien_formada (base (eliminar_gasto gasto_id w).2)).
Proof.
  intros Hw. split; [|repeat split; intros].
  - intros p. pose proof (preserva_script _ motor_bien_formada p w Hw) as H.
    split; [done|]. destruct (base (script p w).2) as [t|]; simpl; [|constructor].
    apply ordenada_NoDup_id, H.
  - by apply (preserva_init_db _ motor_bien_formada).
  - by apply (preserva_cargar_datos _ motor_bien_formada).
  - by apply (preserva_guardar_gasto _ motor_bien_formada).
  - by apply (preserva_actualizar _ motor_bien_formada).
  - by apply (preserva_eliminar_gasto _ motor_bien_formada).
Qed.

Lemma mundo_ejemplo_bien_formada : bien_formada (base mundo_ejemplo).
Proof. simpl. split; repeat constructor; simpl; lia. Qed.

Lemma operaciones_bien_formada_witness :
  (forall p, bien_formada (base (script p mundo_ejemplo).2)
             /\ NoDup (List.map id (filas_de (base (script p mundo_ejemplo).2))))
  /\ bien_formada (base (init_db mundo_ejemplo).2)
  /\ bien_formada (base (cargar_datos mundo_ejemplo).2)
  /\ (forall cat con ban monto dia,
        bien_formada (base (guardar_gasto cat con ban monto dia mundo_ejemplo).2))
  /\ (forall old_name new_name,
        bien_formada (base (actualizar_nombre_categoria old_name new_name mundo_ejemplo).2))
  /\ (forall gasto_id, bien_formada (base (eliminar_gasto gasto_id mundo_ejemplo).2)).
Proof. apply (operaciones_bien_formada mundo_ejemplo), mundo_ejemplo_bien_formada. Defined.

(** X7: once the table has its six columns, no data function and no run of
    the page ever leaves it without one of them, whatever the storage does
    and whichever buttons are pressed. *)
Theorem operaciones_esquema_listo (w : Mundo) :
  esquema_listo (base w) ->
  (forall p, esquema_listo (base (script p w).2))
  /\ esquema_listo (base (init_db w).2)
  /\ esquema_listo (base (cargar_datos w).2)
  /\ (forall cat con ban monto dia,
        esquema_listo (base (guardar_gasto cat con ban monto dia w).2))
  /\ (forall old_name new_name,
        esquema_listo (base (actualizar_nombre_categoria old_name new_name w).2))
  /\ (forall gasto_id, esquema_listo (base (eliminar_gasto gasto_id w).2)).
Proof.
  intros Hw. repeat split; intros.
  - by apply (preserva_script _ motor_esquema_listo).
  - by apply (preserva_init_db _ motor_esquema_listo).
  - by apply (preserva_cargar_datos _ motor_esquema_listo).
  - by apply (preserva_guardar_gasto _ motor_esquema_listo).
  - by apply (preserva_actualizar _ motor_esquema_listo).
  - by apply (preserva_eliminar_gasto _ motor_esquema_listo).
Qed.

Lemma operaciones_esquema_listo_witness :
  (forall p, esquema_listo (base (script p mundo_ejemplo).2))
  /\ esquema_listo (base (init_db mundo_ejemplo).2)
  /\ esquema_listo (base (cargar_datos mundo_ejemplo).2)
  /\ (forall cat con ban monto dia,
        esquema_listo (base (guardar_gasto cat con ban monto dia mundo_ejemplo).2))
  /\ (forall old_name new_name,
        esquema_listo (base (actualizar_nombre_categoria old_name new_name mundo_ejemplo).2))
  /\ (forall gasto_id, esquema_listo (base (eliminar_gasto gasto_id mundo_ejemplo).2)).
Proof.
  apply (operaciones_esquema_listo mundo_ejemplo). by exists tabla_ejemplo.
Defined.

(** ** What the data functions do on a healthy storage *)

Lemma guardar_gasto_sano (cat con ban : str) (monto : Q) (dia : Z) (w : Mundo) (t : Tabla) :
  medio_actual w = Sano -> base w = Some t -> tiene_columnas columnas_nuevas t = true ->
  guardar_gasto cat con ban monto dia w
  = (Ret tt,
     mkMundo (Some (mkTabla (columnas t)
                      (filas t ++ [mkGasto (proximo_id t) cat con ban monto dia])
                      (proximo_id t)))
             (List.tail (medios w))
             (traza w ++ [Ejecutar (InsertGasto cat con ban monto dia);
                          Mostrar Pagina NivelSuccess (GastoGuardado monto con cat)])).
Proof.
  intros Hm Hb Hc. unfold guardar_gasto. rewrite con_conexion_sano by done.
  monada. rewrite execute_sano. simpl. rewrite Hb, motor_insert by done. simpl.
  unfold st_success, anotar. simpl. by rewrite <- app_assoc.
Qed.

Lemma eliminar_gasto_sano (gid : Z) (w : Mundo) (t : Tabla) :
  medio_actual w = Sano -> base w = Some t -> tiene_columnas columnas_nuevas t = true ->
  exists texto,
    eliminar_gasto gid w
    = (Raise RerunException,
       mkMundo (Some (mkTabla (columnas t)
                        (List.filter (fun r => negb (id r =? gid)%Z) (filas t))
                        (secuencia t)))
               (List.tail (medios w))
               (traza w ++ [Ejecutar (DeleteGasto gid); texto; CacheClear]))
    /\ texto = (if Nat.eqb (length (filas t)
                            - length (List.filter (fun r => negb (id r =? gid)%Z) (filas t))) 0
                then Mostrar Sidebar NivelWarning (GastoNoEncontrado gid)
                else Mostrar Sidebar NivelSuccess (GastoEliminado gid)).
Proof.
  intros Hm Hb Hc. unfold eliminar_gasto.
  unfold mbind at 1 2. unfold M_bind, bind. rewrite con_conexion_sano by done.
  monada. rewrite execute_sano. simpl. rewrite Hb, motor_delete by done. simpl.
  eexists. split; [|reflexivity].
  destruct (Nat.eqb _ 0); simpl; by rewrite <- !app_assoc.
Qed.

Lemma cargar_datos_sano (w : Mundo) (t : Tabla) :
  medio_actual w = Sano -> base w = Some t -> tiene_columnas columnas_nuevas t = true ->
  cargar_datos w
  = (Ret (mkDataFrame columnas_nuevas (ordenar_desc fecha_menor (filas t))),
     mkMundo (Some t) (List.tail (medios w)) (traza w ++ [Ejecutar SelectGastos])).
Proof.
  intros Hm Hb Hc. unfold cargar_datos. rewrite con_conexion_sano by done.
  monada. rewrite execute_sano. simpl. by rewrite Hb, motor_select.
Qed.

Lemma actualizar_sano (old_name new_name : str) (w : Mundo) (t : Tabla) :
  medio_actual w = Sano -> base w = Some t -> tiene_columnas columnas_nuevas t = true ->
  PyStr.strip new_name <> [] ->
  actualizar_nombre_categoria old_name new_name w
  = (Raise RerunException,
     mkMundo (Some (mkTabla (columnas t)
                      (List.map (fun r => if PyStr.eqb (categoria r) old_name
                                          then poner_categoria (PyStr.strip new_name) r
                                          else r) (filas t))
                      (secuencia t)))
             (List.tail (medios w))
             (traza w ++ [Ejecutar (UpdateCategoria (PyStr.strip new_name) old_name);
                          Mostrar Sidebar NivelSuccess (CategoriaRenombrada old_name new_name);
                          CacheClear])).
Proof.
  intros Hm Hb Hc Hne. unfold actualizar_nombre_categoria. rewrite (falsy_false _ Hne).
  unfold mbind, M_bind, bind. rewrite con_conexion_sano by done.
  monada. rewrite execute_sano. simpl. rewrite Hb, motor_update by done. simpl.
  by rewrite <- !app_assoc.
Qed.

Lemma Permutation_filter_bool {A} (p : A -> bool) (l l' : list A) :
  Permutation l l' -> Permutation (List.filter p l) (List.filter p l').
Proof.
  induction 1 as [|x l l' H IH|x y l|l l' l'' H1 IH1 H2 IH2]; simpl.
  - constructor.
  - destruct (p x); [by constructor|done].
  - destruct (p x), (p y); try done. apply perm_swap.
  - by etrans.
Qed.

Lemma filter_con_id_viejas (t : Tabla) :
  List.filter (con_id (proximo_id t)) (filas t) = [].
Proof.
  apply filter_nada. intros r Hr. unfold con_id, proximo_id.
  apply max_id_cota in Hr. lia.
Qed.

Lemma filter_sin_id_nuevo (t : Tabla) :
  List.filter (fun r => negb (id r =? proximo_id t)%Z) (filas t) = filas t.
Proof.
  apply filter_todos. intros r Hr. unfold proximo_id.
  apply max_id_cota in Hr. apply negb_true_iff, Z.eqb_neq. lia.
Qed.

Lemma entrada_vigente_app (n : nat) (tr l : list Evento) :
  (n <= length tr)%nat ->
  entrada_vigente n (tr ++ l)
  = entrada_vigente n tr && negb (existsb es_CacheClear l).
Proof.
  intros Hn. unfold entrada_vigente.
  rewrite skipn_app, existsb_app, negb_orb.
  replace (n - length tr)%nat with 0%nat by lia. done.
Qed.

(** X8: a record created on an initialised file is there when the ledger
    is loaded next, provided the cache was cleared in between, as the
    handler of "Guardar Gasto" does (line 224): the frame then holds
    exactly one row with the new id, with the fields that were supplied,
    besides every row the table had.  [guardar_gasto] alone does not clear
    the cache: a load that follows it and finds the entry stored before
    the save gets that frame again, without the new row. *)
Theorem guardar_y_cargar (cat con ban : str) (monto : Q) (dia : Z) (w : Mundo) (t : Tabla)
    (df0 : DataFrame) (n : nat) :
  medio_actual w = Sano ->
  base w = Some t ->
  tiene_columnas columnas_nuevas t = true ->
  medio_actual (guardar_gasto cat con ban monto dia w).2 = Sano ->
  Permutation (df_filas df0) (filas t) ->
  (n <= length (traza w))%nat ->
  entrada_vigente n (traza w) = true ->
  (exists (k : Z) (df : DataFrame) (w' : Mundo),
      cargar_datos_cache (Some (df0, n))
        ((guardar_gasto cat con ban monto dia ;; st_cache_data_clear) w).2 = (Ret df, w')
      /\ List.filter (con_id k) (df_filas df) = [mkGasto k cat con ban monto dia]
      /\ List.filter (con_id k) (df_filas df0) = []
      /\ (forall r, In r (filas t) -> In r (df_filas df))
      /\ length (df_filas df) = S (length (filas t))
      /\ mensajes (traza w')
         = mensajes (traza w) ++ [(Pagina, NivelSuccess, GastoGuardado monto con cat)])
  /\ cargar_datos_cache (Some (df0, n)) (guardar_gasto cat con ban monto dia w).2
     = (Ret df0, (guardar_gasto cat con ban monto dia w).2).
Proof.
  intros Hm Hb Hc.
  assert (Hg := guardar_gasto_sano cat con ban monto dia w t Hm Hb Hc).
  rewrite Hg. cbn [snd]. intros Hm1 Hp0 Hn Hv. split.
  - erewrite mbind_ret; [|exact Hg].
    unfold st_cache_data_clear, anotar, cargar_datos_cache. cbn [snd base medios traza].
    rewrite !entrada_vigente_app, Hv by (rewrite ?length_app; lia).
    cbn [existsb es_CacheClear negb andb orb].
    exists (proximo_id t). eexists _, _.
    split; [by apply cargar_datos_sano|]. cbn [df_filas traza filas].
    set (l := filas t ++ [mkGasto (proximo_id t) cat con ban monto dia]).
    pose proof (ordenar_desc_perm fecha_menor l) as Hp.
    split; [|split; [|split; [|split]]].
    + apply Permutation_length_1_inv. symmetry.
      etrans; [apply (Permutation_filter_bool _ _ _ Hp)|].
      unfold l. rewrite List.filter_app, filter_con_id_viejas. simpl.
      unfold con_id. simpl. by rewrite Z.eqb_refl.
    + apply Permutation_nil. symmetry.
      etrans; [apply (Permutation_filter_bool _ _ _ Hp0)|].
      by rewrite filter_con_id_viejas.
    + intros r Hr. apply (Permutation_in _ (Permutation_sym Hp)).
      unfold l. apply in_or_app. by left.
    + rewrite (Permutation_length Hp). unfold l. rewrite length_app. simpl. lia.
    + rewrite !mensajes_app. simpl. by rewrite !app_nil_r.
  - unfold cargar_datos_cache. cbn [traza].
    rewrite entrada_vigente_app, Hv by done. done.
Qed.

Lemma guardar_y_cargar_witness :
  (exists (k : Z) (df : DataFrame) (w' : Mundo),
      cargar_datos_cache (Some (mkDataFrame columnas_nuevas df_ejemplo, 0%nat))
        ((guardar_gasto (py "Salud") (py "Dentista") (py "Efectivo") 40 (ymd 2024 1 5) ;;
          st_cache_data_clear) mundo_ejemplo).2 = (Ret df, w')
      /\ List.filter (con_id k) (df_filas df)
         = [mkGasto k (py "Salud") (py "Dentista") (py "Efectivo") 40 (ymd 2024 1 5)]
      /\ List.filter (con_id k) df_ejemplo = []
      /\ (forall r, In r (filas tabla_ejemplo) -> In r (df_filas df))
      /\ length (df_filas df) = S (length (filas tabla_ejemplo))
      /\ mensajes (traza w')
         = mensajes (traza mundo_ejemplo)
           ++ [(Pagina, NivelSuccess, GastoGuardado 40 (py "Dentista") (py "Salud"))])
  /\ cargar_datos_cache (Some (mkDataFrame columnas_nuevas df_ejemplo, 0%nat))
       (guardar_gasto (py "Salud") (py "Dentista") (py "Efectivo") 40 (ymd 2024 1 5)
                      mundo_ejemplo).2
     = (Ret (mkDataFrame columnas_nuevas df_ejemplo),
        (guardar_gasto (py "Salud") (py "Dentista") (py "Efectivo") 40 (ymd 2024 1 5)
                       mundo_ejemplo).2).
Proof.
  apply (guardar_y_cargar _ _ _ _ _ mundo_ejemplo tabla_ejemplo
           (mkDataFrame columnas_nuevas df_ejemplo) 0%nat);
    try reflexivity.
  apply Permutation_cons_append.
Defined.

(** X9: deleting the record that was just created gives back the rows the
    table had, in their order; only the [AUTOINCREMENT] counter remembers
    the id that was used. *)
Theorem guardar_y_eliminar (cat con ban : str) (monto : Q) (dia : Z) (w : Mundo) (t : Tabla) :
  medio_actual w = Sano ->
  base w = Some t ->
  tiene_columnas columnas_nuevas t = true ->
  medio_actual (guardar_gasto cat con ban monto dia w).2 = Sano ->
  exists (k : Z) (w' : Mundo),
    In (mkGasto k cat con ban monto dia)
       (filas_de (base (guardar_gasto cat con ban monto dia w).2))
    /\ eliminar_gasto k (guardar_gasto cat con ban monto dia w).2 = (Raise RerunException, w')
    /\ base w' = Some (mkTabla (columnas t) (filas t) k)
    /\ (secuencia t < k)%Z
    /\ mensajes (traza w')
       = mensajes (traza w) ++ [(Pagina, NivelSuccess, GastoGuardado monto con cat);
                                (Sidebar, NivelSuccess, GastoEliminado k)].
Proof.
  intros Hm Hb Hc. rewrite (guardar_gasto_sano _ _ _ _ _ w t) by done. simpl. intros Hm1.
  exists (proximo_id t).
  edestruct (eliminar_gasto_sano (proximo_id t)) as (texto & -> & Ht);
    [exact Hm1|reflexivity|exact Hc|].
  simpl in *. eexists. split; [apply in_or_app; right; by left|].
  split; [reflexivity|]. simpl.
  rewrite List.filter_app, filter_sin_id_nuevo in *. simpl in *.
  rewrite Z.eqb_refl in *. simpl in *. rewrite app_nil_r in *.
  split; [done|]. split; [unfold proximo_id; lia|].
  rewrite length_app in Ht. simpl in Ht.
  replace (length (filas t) + 1 - length (filas t))%nat with 1%nat in Ht by lia.
  simpl in Ht. subst texto.
  rewrite !mensajes_app. simpl. by rewrite <- app_assoc.
Qed.

Lemma guardar_y_eliminar_witness :
  exists (k : Z) (w' : Mundo),
    In (mkGasto k (py "Salud") (py "Dentista") (py "Efectivo") 40 (ymd 2024 1 5))
       (filas_de (base (guardar_gasto (py "Salud") (py "Dentista") (py "Efectivo") 40
                          (ymd 2024 1 5) mundo_ejemplo).2))
    /\ eliminar_gasto k (guardar_gasto (py "Salud") (py "Dentista") (py "Efectivo") 40
                           (ymd 2024 1 5) mundo_ejemplo).2 = (Raise RerunException, w')
    /\ base w' = Some (mkTabla (columnas tabla_ejemplo) (filas tabla_ejemplo) k)
    /\ (secuencia tabla_ejemplo < k)%Z
    /\ mensajes (traza w')
       = mensajes (traza mundo_ejemplo)
         ++ [(Pagina, NivelSuccess, GastoGuardado 40 (py "Dentista") (py "Salud"));
             (Sidebar, NivelSuccess, GastoEliminado k)].
Proof.
  apply (guardar_y_eliminar _ _ _ _ _ mundo_ejemplo tabla_ejemplo); reflexivity.
Defined.

(** X10: an id is never given twice.  On a well-formed table, whatever
    record is deleted first, the record created next gets an id greater
    than the id of every row the table had before the deletion, the deleted
    one included. *)
Theorem eliminar_y_guardar (gasto_id : Z) (cat con ban : str) (monto : Q) (dia : Z)
    (w : Mundo) (t : Tabla) :
  medio_actual w = Sano ->
  base w = Some t ->
  tiene_columnas columnas_nuevas t = true ->
  bien_formada (base w) ->
  medio_actual (eliminar_gasto gasto_id w).2 = Sano ->
  exists (k : Z) (w' : Mundo),
    guardar_gasto cat con ban monto dia (eliminar_gasto gasto_id w).2 = (Ret tt, w')
    /\ filas_de (base w')
       = List.filter (fun r => negb (id r =? gasto_id)%Z) (filas t)
         ++ [mkGasto k cat con ban monto dia]
    /\ (forall r, In r (filas t) -> (id r < k)%Z).
Proof.
  intros Hm Hb Hc Hbf.
  destruct (eliminar_gasto_sano gasto_id w t Hm Hb Hc) as (texto & -> & _). simpl.
  intros Hm1. eexists _, _.
  split; [by apply guardar_gasto_sano|]. simpl. split; [done|].
  rewrite Hb in Hbf. destruct Hbf as [_ Hbf]. rewrite List.Forall_forall in Hbf.
  intros r Hr. specialize (Hbf r Hr). unfold proximo_id. simpl. lia.
Qed.

Lemma eliminar_y_guardar_witness :
  exists (k : Z) (w' : Mundo),
    guardar_gasto (py "Salud") (py "Dentista") (py "Efectivo") 40 (ymd 2024 1 5)
                  (eliminar_gasto 3 mundo_ejemplo).2 = (Ret tt, w')
    /\ filas_de (base w')
       = List.filter (fun r => negb (id r =? 3)%Z) (filas tabla_ejemplo)
         ++ [mkGasto k (py "Salud") (py "Dentista") (py "Efectivo") 40 (ymd 2024 1 5)]
    /\ (forall r, In r (filas tabla_ejemplo) -> (id r < k)%Z).
Proof.
  apply (eliminar_y_guardar 3 _ _ _ _ _ mundo_ejemplo tabla_ejemplo);
    try reflexivity.
  apply mundo_ejemplo_bien_formada.
Defined.

Lemma filter_filter_id (gid : Z) (l : list Gasto) :
  List.filter (fun r => negb (id r =? gid)%Z)
              (List.filter (fun r => negb (id r =? gid)%Z) l)
  = List.filter (fun r => negb (id r =? gid)%Z) l.
Proof. apply filter_todos. by intros r [_ Hr]%filter_In. Qed.

(** X11: deleting the same id a second time finds nothing: the table stays
    as the first deletion left it and the "not found" warning is shown. *)
Theorem eliminar_dos_veces (gasto_id : Z) (w : Mundo) (t : Tabla) :
  medio_actual w = Sano ->
  base w = Some t ->
  tiene_columnas columnas_nuevas t = true ->
  medio_actual (eliminar_gasto gasto_id w).2 = Sano ->
  exists w' : Mundo,
    eliminar_gasto gasto_id (eliminar_gasto gasto_id w).2 = (Raise RerunException, w')
    /\ base w' = base (eliminar_gasto gasto_id w).2
    /\ mensajes (traza w')
       = mensajes (traza (eliminar_gasto gasto_id w).2)
         ++ [(Sidebar, NivelWarning, GastoNoEncontrado gasto_id)].
Proof.
  intros Hm Hb Hc.
  destruct (eliminar_gasto_sano gasto_id w t Hm Hb Hc) as (texto & -> & _). simpl.
  intros Hm1.
  edestruct (eliminar_gasto_sano gasto_id) as (texto2 & -> & Ht2);
    [exact Hm1|reflexivity|exact Hc|].
  simpl in *. rewrite filter_filter_id in *. rewrite Nat.sub_diag in Ht2. simpl in Ht2.
  subst texto2. eexists. split; [reflexivity|]. simpl. split; [done|].
  rewrite !mensajes_app. simpl. by rewrite ?app_nil_r, <- ?app_assoc.
Qed.

Lemma eliminar_dos_veces_witness :
  exists w' : Mundo,
    eliminar_gasto 2 (eliminar_gasto 2 mundo_ejemplo).2 = (Raise RerunException, w')
    /\ base w' = base (eliminar_gasto 2 mundo_ejemplo).2
    /\ mensajes (traza w')
       = mensajes (traza (eliminar_gasto 2 mundo_ejemplo).2)
         ++ [(Sidebar, NivelWarning, GastoNoEncontrado 2)].
Proof. apply (eliminar_dos_veces 2 mundo_ejemplo tabla_ejemplo); reflexivity. Defined.

(** ** Writes are all or nothing *)

(** The engine only ever raises [OperationalError]. *)
Lemma motor_error (s : Sentencia) (b : Base) (e : Excepcion) :
  motor s b = inl e -> exists m, e = SqliteError OperationalError m.
Proof.
  unfold motor. destruct s, b as [t|]; cbv beta iota;
    repeat match goal with
           | |- context [if ?c then _ else _] => destruct c
           | |- context [match ?c with Some _ => _ | None => _ end] => destruct c
           end;
    intros [= <-]; eauto.
Qed.

Lemma motor_insert_casos (cat con ban : str) (monto : Q) (dia : Z) (b : Base) :
  (exists e, motor (InsertGasto cat con ban monto dia) b = inl e)
  \/ (exists t, b = Some t
        /\ motor (InsertGasto cat con ban monto dia) b
           = inr (Some (mkTabla (columnas t)
                          (filas t ++ [mkGasto (proximo_id t) cat con ban monto dia])
                          (proximo_id t)),
                  mkRespuesta [] 1)).
Proof.
  unfold motor. destruct b as [t|]; [|eauto]. cbv beta iota.
  destruct (List.find _ _); eauto.
Qed.

(** X12: [guardar_gasto] is all or nothing, on any file and whatever the
    storage does: either it returns after showing the success message and
    the file holds one more row, made of the arguments, or it shows one
    error message and the file is exactly as it was. *)
Theorem guardar_gasto_todo_o_nada (cat con ban : str) (monto : Q) (dia : Z) (w : Mundo) :
  (exists k : Z,
      guardar_gasto cat con ban monto dia w
      = (Ret tt, (guardar_gasto cat con ban monto dia w).2)
      /\ filas_de (base (guardar_gasto cat con ban monto dia w).2)
         = filas_de (base w) ++ [mkGasto k cat con ban monto dia]
      /\ esquema (base (guardar_gasto cat con ban monto dia w).2) = esquema (base w)
      /\ mensajes (traza (guardar_gasto cat con ban monto dia w).2)
         = mensajes (traza w) ++ [(Pagina, NivelSuccess, GastoGuardado monto con cat)])
  \/ (exists e : Excepcion,
        base (guardar_gasto cat con ban monto dia w).2 = base w
        /\ mensajes (traza (guardar_gasto cat con ban monto dia w).2)
           = mensajes (traza w) ++ [(Pagina, NivelError, ErrorAlGuardar e)]).
Proof.
  unfold guardar_gasto, con_conexion, sqlite3_connect.
  destruct (medio_actual w) eqn:Em.
  - monada. rewrite execute_sano. simpl.
    destruct (motor_insert_casos cat con ban monto dia (base w))
      as [[e He]|(t & Hb & ->)]; simpl.
    + rewrite He. destruct (motor_error _ _ _ He) as [m ->]. simpl.
      right. eexists. split; [done|].
      rewrite !mensajes_app. simpl. by rewrite ?app_nil_r, <- ?app_assoc.
    + left. exists (proximo_id t). rewrite Hb. simpl. repeat split.
      rewrite !mensajes_app. simpl. by rewrite ?app_nil_r, <- ?app_assoc.
  - right. eexists. simpl. split; [done|]. by rewrite mensajes_app.
  - right. eexists. monada. simpl. split; [done|].
    rewrite !mensajes_app. simpl. by rewrite ?app_nil_r, <- ?app_assoc.
Qed.

Lemma motor_delete_casos (gid : Z) (b : Base) :
  (exists e, motor (DeleteGasto gid) b = inl e)
  \/ (exists t, b = Some t
        /\ motor (DeleteGasto gid) b
           = inr (Some (mkTabla (columnas t)
                          (List.filter (fun r => negb (id r =? gid)%Z) (filas t))
                          (secuencia t)),
                  mkRespuesta []
                    (length (filas t)
                     - length (List.filter (fun r => negb (id r =? gid)%Z) (filas t))))).
Proof.
  unfold motor. destruct b as [t|]; [|eauto]. cbv beta iota.
  destruct (negb _); eauto.
Qed.

Lemma filter_length_eq {A} (p : A -> bool) (l : list A) :
  length (List.filter p l) = length l -> List.filter p l = l.
Proof.
  induction l as [|x l IH]; simpl; [done|].
  destruct (p x) eqn:E; simpl.
  - intros [= H]. f_equal. by apply IH.
  - intros H. pose proof (filter_length_le p l). lia.
Qed.

Lemma filter_length_menor {A} (p : A -> bool) (l : list A) :
  (length (List.filter p l) < length l)%nat -> exists x, In x l /\ p x = false.
Proof.
  induction l as [|x l IH]; simpl; [lia|].
  destruct (p x) eqn:E; simpl; [|eauto].
  intros H. destruct IH as (y & Hy & Hp); [lia|]. eauto.
Qed.

(** X13: the message [eliminar_gasto] shows tells what happened, on any
    file and whatever the storage does.  "Deleted": the rows with that id,
    and there was one, are gone and the others are kept in order.  "Not
    found": no row had that id and the file is as it was.  An error: the
    file is as it was.  Nothing else is ever shown. *)
Theorem eliminar_gasto_informa (gasto_id : Z) (w : Mundo) :
  (mensajes (traza (eliminar_gasto gasto_id w).2)
   = mensajes (traza w) ++ [(Sidebar, NivelSuccess, GastoEliminado gasto_id)]
   /\ filas_de (base (eliminar_gasto gasto_id w).2)
      = List.filter (fun r => negb (id r =? gasto_id)%Z) (filas_de (base w))
   /\ esquema (base (eliminar_gasto gasto_id w).2) = esquema (base w)
   /\ exists r, In r (filas_de (base w)) /\ id r = gasto_id)
  \/ (mensajes (traza (eliminar_gasto gasto_id w).2)
      = mensajes (traza w) ++ [(Sidebar, NivelWarning, GastoNoEncontrado gasto_id)]
      /\ base (eliminar_gasto gasto_id w).2 = base w
      /\ forall r, In r (filas_de (base w)) -> id r <> gasto_id)
  \/ (exists e : Excepcion,
        mensajes (traza (eliminar_gasto gasto_id w).2)
        = mensajes (traza w) ++ [(Sidebar, NivelError, ErrorAlEliminar e)]
        /\ base (eliminar_gasto gasto_id w).2 = base w).
Proof.
  set (res := eliminar_gasto gasto_id w).
  assert (Hres : res = eliminar_gasto gasto_id w) by done. clearbody res.
  unfold eliminar_gasto, con_conexion, sqlite3_connect, try_except in Hres.
  unfold mbind, M_bind, bind in Hres.
  destruct (medio_actual w) eqn:Em.
  - rewrite execute_sano in Hres. simpl in Hres.
    destruct (motor_delete_casos gasto_id (base w)) as [[e He]|(t & Hb & Hmot)].
    + rewrite He in Hres. destruct (motor_error _ _ _ He) as [m ->]. simpl in Hres.
      subst res. simpl. right. right. eexists. split; [|done].
      rewrite !mensajes_app. simpl. by rewrite ?app_nil_r, <- ?app_assoc.
    + rewrite Hmot in Hres. simpl in Hres. rewrite Hb.
      set (queda := fun r : Gasto => negb (id r =? gasto_id)%Z) in *.
      pose proof (filter_length_le queda (filas t)) as Hle.
      destruct (Nat.eqb _ 0) eqn:E; simpl in Hres; subst res; simpl.
      * apply Nat.eqb_eq in E. right. left.
        assert (Hf : List.filter queda (filas t) = filas t)
          by (apply filter_length_eq; lia).
        rewrite Hf. split; [|split].
        -- rewrite !mensajes_app. simpl. by rewrite ?app_nil_r, <- ?app_assoc.
        -- by destruct t.
        -- intros r Hr. rewrite <- Hf in Hr. apply filter_In in Hr as [_ Hr].
           unfold queda in Hr. apply negb_true_iff, Z.eqb_neq in Hr. done.
      * apply Nat.eqb_neq in E. left. split; [|split; [done|split; [done|]]].
        -- rewrite !mensajes_app. simpl. by rewrite ?app_nil_r, <- ?app_assoc.
        -- destruct (filter_length_menor queda (filas t)) as (r & Hr & Hq); [lia|].
           exists r. split; [done|]. unfold queda in Hq.
           by apply negb_false_iff, Z.eqb_eq in Hq.
  - simpl in Hres. subst res. simpl. right. right. eexists. split; [|done].
    by rewrite mensajes_app.
  - unfold execute, mbind, M_bind, bind in Hres. simpl in Hres. subst res. simpl.
    right. right. eexists. split; [|done].
    rewrite !mensajes_app. simpl. by rewrite ?app_nil_r, <- ?app_assoc.
Qed.

Lemma motor_update_casos (nuevo viejo : str) (b : Base) :
  (exists e, motor (UpdateCategoria nuevo viejo) b = inl e)
  \/ (exists t r, b = Some t
        /\ motor (UpdateCategoria nuevo viejo) b
           = inr (Some (mkTabla (columnas t)
                          (List.map (fun r => if PyStr.eqb (categoria r) viejo
                                              then poner_categoria nuevo r else r)
                                    (filas t))
                          (secuencia t)), r)).
Proof.
  unfold motor. destruct b as [t|]; [|eauto]. cbv beta iota.
  destruct (negb _); eauto.
Qed.

(** X14: the message [actualizar_nombre_categoria] shows tells what
    happened, on any file and whatever the storage does.  "Renamed": every
    row of the old category now has the trimmed new name and nothing else
    changed (this is also what is shown when no row had the old category).
    The empty-name error or a storage error: the file is as it was. *)
Theorem actualizar_nombre_categoria_informa (old_name new_name : str) (w : Mundo) :
  (mensajes (traza (actualizar_nombre_categoria old_name new_name w).2)
   = mensajes (traza w) ++ [(Sidebar, NivelSuccess, CategoriaRenombrada old_name new_name)]
   /\ PyStr.strip new_name <> []
   /\ filas_de (base (actualizar_nombre_categoria old_name new_name w).2)
      = List.map (fun r => if PyStr.eqb (categoria r) old_name
                           then poner_categoria (PyStr.strip new_name) r else r)
                 (filas_de (base w))
   /\ esquema (base (actualizar_nombre_categoria old_name new_name w).2) = esquema (base w))
  \/ (exists texto : Texto,
        mensajes (traza (actualizar_nombre_categoria old_name new_name w).2)
        = mensajes (traza w) ++ [(Sidebar, NivelError, texto)]
        /\ base (actualizar_nombre_categoria old_name new_name w).2 = base w
        /\ (texto = NombreVacio <-> PyStr.strip new_name = [])).
Proof.
  set (res := actualizar_nombre_categoria old_name new_name w).
  assert (Hres : res = actualizar_nombre_categoria old_name new_name w) by done.
  clearbody res. unfold actualizar_nombre_categoria in Hres.
  destruct (PyStr.falsy (PyStr.strip new_name)) eqn:Ef.
  { apply falsy_nil in Ef. subst res. right. exists NombreVacio. simpl.
    split; [by rewrite mensajes_app|done]. }
  assert (Hne : PyStr.strip new_name <> []).
  { intros H. apply falsy_nil in H. congruence. }
  unfold con_conexion, sqlite3_connect, try_except in Hres.
  unfold mbind, M_bind, bind in Hres.
  destruct (medio_actual w) eqn:Em.
  - rewrite execute_sano in Hres. simpl in Hres.
    destruct (motor_update_casos (PyStr.strip new_name) old_name (base w))
      as [[e He]|(t & r & Hb & Hmot)].
    + rewrite He in Hres. destruct (motor_error _ _ _ He) as [m ->]. simpl in Hres.
      subst res. simpl. right. eexists.
      split; [rewrite !mensajes_app; simpl; by rewrite ?app_nil_r, <- ?app_assoc|].
      split; [done|]. split; [done|by intros H; destruct Hne].
    + rewrite Hmot in Hres. simpl in Hres. subst res. simpl. rewrite Hb. simpl.
      left. split; [|done].
      rewrite !mensajes_app. simpl. by rewrite ?app_nil_r, <- ?app_assoc.
  - simpl in Hres. subst res. simpl. right. eexists.
    split; [by rewrite mensajes_app|]. split; [done|]. split; [done|by intros H; destruct Hne].
  - unfold execute, mbind, M_bind, bind in Hres. simpl in Hres. subst res. simpl.
    right. eexists.
    split; [rewrite !mensajes_app; simpl; by rewrite ?app_nil_r, <- ?app_assoc|].
    split; [done|]. split; [done|by intros H; destruct Hne].
Qed.

(** ** Reading *)

Lemma find_ninguna_faltante (cs : list string) (t : Tabla) :
  List.find (fun c => negb (tiene_columna c t)) cs = None ->
  tiene_columnas cs t = true.
Proof.
  unfold tiene_columnas. induction cs as [|c cs IH]; simpl; [done|].
  destruct (tiene_columna c t); simpl; [exact IH|done].
Qed.

Lemma motor_select_casos (b : Base) :
  (exists e, motor SelectGastos b = inl e)
  \/ (exists t, b = Some t /\ tiene_columnas columnas_nuevas t = true
        /\ motor SelectGastos b
           = inr (b, mkRespuesta (ordenar_desc fecha_menor (filas t)) 0)).
Proof.
  unfold motor. destruct b as [t|]; [|eauto]. cbv beta iota.
  destruct (List.find _ _) eqn:E; [eauto|].
  right. exists t. split; [done|]. split; [|done]. by apply find_ninguna_faltante.
Qed.

(** X15: [cargar_datos] never changes the file, on any file and whatever
    the storage does.  Either it returns a frame with the six columns and
    all the rows of the table without showing anything, which only happens
    when the table has its six columns; or it shows one error message and
    returns the empty frame, or raises [UnboundLocalError] when the file
    could not be opened. *)
Theorem cargar_datos_solo_lee (w : Mundo) :
  base (cargar_datos w).2 = base w
  /\ ((exists df : DataFrame,
          (cargar_datos w).1 = Ret df
          /\ mensajes (traza (cargar_datos w).2) = mensajes (traza w)
          /\ df_columns df = columnas_nuevas
          /\ Permutation (df_filas df) (filas_de (base w))
          /\ esquema_listo (base w))
      \/ (exists e : Excepcion,
            mensajes (traza (cargar_datos w).2)
            = mensajes (traza w) ++ [(Pagina, NivelError, ErrorAlCargar e)]
            /\ ((cargar_datos w).1 = Ret df_vacio
                \/ ((cargar_datos w).1 = Raise UnboundLocalError
                    /\ medio_actual w = NoAbre)))).
Proof.
  unfold cargar_datos, con_conexion, sqlite3_connect, try_except.
  unfold mbind, M_bind, bind.
  destruct (medio_actual w) eqn:Em.
  - rewrite execute_sano. simpl.
    destruct (motor_select_casos (base w)) as [[e He]|(t & Hb & Hc & ->)].
    + rewrite He. destruct (motor_error _ _ _ He) as [m ->]. simpl.
      split; [done|]. right. eexists. split; [|by left].
      rewrite !mensajes_app. simpl. by rewrite ?app_nil_r, <- ?app_assoc.
    + simpl. split; [done|]. left. eexists. split; [done|].
      split; [by rewrite mensajes_app, app_nil_r|]. split; [done|]. simpl.
      rewrite Hb. simpl. split; [apply ordenar_desc_perm|by exists t].
  - simpl. split; [done|]. right. eexists. split; [by rewrite mensajes_app|].
    by right.
  - unfold execute, mbind, M_bind, bind. simpl. split; [done|]. right. eexists.
    split; [|by left].
    rewrite !mensajes_app. simpl. by rewrite ?app_nil_r, <- ?app_assoc.
Qed.

(** ** When the file cannot be opened *)

(** X16: [cargar_datos] is not alone.  When [sqlite3.connect] raises, each
    of the other data functions reports the error where it reports its
    errors, leaves the file as it was, hands no statement to the engine
    and then raises [UnboundLocalError] from its [finally] clause; rename
    and delete do not reach their cache clear; and a run of the page stops
    in [init_db], before anything is loaded or any button is handled. *)
Theorem sin_conexion (w : Mundo) :
  medio_actual w = NoAbre ->
  let e := SqliteError OperationalError UnableToOpen in
  let tras_aviso l t :=
    (@Raise unit UnboundLocalError,
     mkMundo (base w) (List.tail (medios w)) (traza w ++ [Mostrar l NivelError t])) in
  init_db w = tras_aviso Pagina (ErrorAlInicializar e)
  /\ (forall cat con ban monto dia,
        guardar_gasto cat con ban monto dia w = tras_aviso Pagina (ErrorAlGuardar e))
  /\ (forall old_name new_name,
        PyStr.strip new_name <> [] ->
        actualizar_nombre_categoria old_name new_name w
        = tras_aviso Sidebar (ErrorAlActualizar e))
  /\ (forall gasto_id, eliminar_gasto gasto_id w = tras_aviso Sidebar (ErrorAlEliminar e))
  /\ (forall p,
        script p w
        = (Raise UnboundLocalError,
           mkMundo (base w) (List.tail (medios w))
                   (traza w ++ [Mostrar Pagina NivelError (ErrorAlInicializar e)]))).
Proof.
  intros Hm e tras_aviso.
  assert (Hi : init_db w = tras_aviso Pagina (ErrorAlInicializar e)).
  { unfold init_db, con_conexion, sqlite3_connect. by rewrite Hm. }
  split; [exact Hi|]. split; [|split; [|split]].
  - intros. unfold guardar_gasto, con_conexion, sqlite3_connect. by rewrite Hm.
  - intros old_name new_name Hne. unfold actualizar_nombre_categoria.
    rewrite (falsy_false _ Hne). erewrite mbind_raise; [reflexivity|].
    unfold con_conexion, sqlite3_connect. by rewrite Hm.
  - intros. unfold eliminar_gasto. erewrite mbind_raise; [reflexivity|].
    unfold con_conexion, sqlite3_connect. by rewrite Hm.
  - intros p. unfold script. erewrite mbind_raise; [reflexivity|]. exact Hi.
Qed.

Lemma sin_conexion_witness :
  init_db mundo_cerrado
  = (Raise UnboundLocalError,
     mkMundo (base mundo_cerrado) (List.tail (medios mundo_cerrado))
       (traza mundo_cerrado
        ++ [Mostrar Pagina NivelError
              (ErrorAlInicializar (SqliteError OperationalError UnableToOpen))]))
  /\ (forall p,
        script p mundo_cerrado
        = (Raise UnboundLocalError,
           mkMundo (base mundo_cerrado) (List.tail (medios mundo_cerrado))
             (traza mundo_cerrado
              ++ [Mostrar Pagina NivelError
                    (ErrorAlInicializar (SqliteError OperationalError UnableToOpen))]))).
Proof.
  pose proof (sin_conexion mundo_cerrado eq_refl) as (H1 & _ & _ & _ & H5).
  split; [exact H1|exact H5].
Defined.

(** ** Migration *)

Lemma renombrar_otras (c : string) (cs : list string) :
  c <> "monto"%string -> c <> "monto_usd"%string ->
  existsb (String.eqb c) (renombrar_columna "monto" "monto_usd" cs)
  = existsb (String.eqb c) cs.
Proof.
  intros H1 H2. unfold renombrar_columna.
  induction cs as [|x cs IH]; [done|]. cbn [List.map existsb]. rewrite IH. f_equal.
  destruct (String.eqb x "monto") eqn:E.
  - apply String.eqb_eq in E. subst x.
    by rewrite (proj2 (String.eqb_neq _ _) H1), (proj2 (String.eqb_neq _ _) H2).
  - done.
Qed.

Lemma renombrar_pone_monto_usd (cs : list string) :
  existsb (String.eqb "monto") cs = true ->
  existsb (String.eqb "monto_usd") (renombrar_columna "monto" "monto_usd" cs) = true.
Proof.
  unfold renombrar_columna. induction cs as [|x cs IH]; [done|].
  cbn [List.map existsb]. intros [H|H]%orb_prop.
  - apply String.eqb_eq in H. subst x. done.
  - rewrite (IH H). apply orb_true_r.
Qed.

Lemma tras_rename_columnas (t : Tabla) :
  exists t1, tras AlterRenameMonto (Some t) = Some t1
    /\ filas t1 = filas t /\ secuencia t1 = secuencia t
    /\ (forall c, c <> "monto"%string -> c <> "monto_usd"%string ->
                  tiene_columna c t1 = tiene_columna c t)
    /\ (tiene_columna "monto" t = true \/ tiene_columna "monto_usd" t = true ->
        tiene_columna "monto_usd" t1 = true).
Proof.
  unfold tras, motor.
  destruct (tiene_columna "monto" t) eqn:E1; cbv beta iota;
    [destruct (tiene_columna "monto_usd" t) eqn:E2|]; cbv beta iota.
  - exists t. intuition congruence.
  - eexists. split; [reflexivity|]. simpl. split; [done|]. split; [done|]. split.
    + intros c H1 H2. unfold tiene_columna. simpl. by apply renombrar_otras.
    + intros _. unfold tiene_columna. simpl. by apply renombrar_pone_monto_usd.
  - exists t. intuition congruence.
Qed.

Lemma tras_add_columnas (t : Tabla) :
  exists t2, tras AlterAddCategoria (Some t) = Some t2
    /\ filas t2 = List.map (fila_migrada t) (filas t)
    /\ secuencia t2 = secuencia t
    /\ tiene_columna "categoria" t2 = true
    /\ (forall c, c <> "categoria"%string -> tiene_columna c t2 = tiene_columna c t).
Proof.
  unfold tras, motor, fila_migrada.
  destruct (tiene_columna "categoria" t) eqn:E; cbv beta iota.
  - exists t. split; [done|]. split; [by rewrite List.map_id|]. done.
  - eexists. split; [reflexivity|]. simpl. split; [done|]. split; [done|].
    unfold tiene_columna. simpl. split.
    + rewrite existsb_app. apply orb_true_r.
    + intros c Hc. rewrite existsb_app. cbn [existsb].
      rewrite (proj2 (String.eqb_neq _ _) Hc). by rewrite !orb_false_r.
Qed.

(** What the three statements of [init_db] make of an existing table. *)
Lemma migrar_tabla (t : Tabla) :
  exists t' : Tabla,
    migrar (Some t) = Some t'
    /\ secuencia t' = secuencia t
    /\ filas t' = List.map (fila_migrada t) (filas t)
    /\ tiene_columna "categoria" t' = true
    /\ (tiene_columna "monto" t = true \/ tiene_columna "monto_usd" t = true ->
        tiene_columna "monto_usd" t' = true)
    /\ (forall c, c <> "monto"%string -> c <> "monto_usd"%string ->
                  c <> "categoria"%string -> tiene_columna c t' = tiene_columna c t)
    /\ (columnas_de_siempre t -> tiene_columnas columnas_nuevas t' = true).
Proof.
  unfold migrar.
  assert (Hcr : tras CreateTableIfNotExists (Some t) = Some t) by done.
  rewrite Hcr.
  destruct (tras_rename_columnas t) as (t1 & -> & Hf1 & Hs1 & Ho1 & Hu1).
  destruct (tras_add_columnas t1) as (t2 & -> & Hf2 & Hs2 & Hk2 & Ho2).
  assert (Hk1 : tiene_columna "categoria" t1 = tiene_columna "categoria" t)
    by (by apply Ho1).
  assert (Hfm : forall r, fila_migrada t1 r = fila_migrada t r)
    by (intros r; unfold fila_migrada; by rewrite Hk1).
  exists t2. split; [reflexivity|].
  split; [congruence|].
  split; [rewrite Hf2, Hf1; apply List.map_ext, Hfm|].
  split; [done|].
  assert (Hu2 : tiene_columna "monto" t = true \/ tiene_columna "monto_usd" t = true ->
                tiene_columna "monto_usd" t2 = true).
  { intros H. rewrite Ho2 by done. by apply Hu1. }
  split; [exact Hu2|].
  assert (Ho : forall c, c <> "monto"%string -> c <> "monto_usd"%string ->
                         c <> "categoria"%string -> tiene_columna c t2 = tiene_columna c t).
  { intros c H1 H2 H3. rewrite Ho2 by done. by apply Ho1. }
  split; [exact Ho|].
  intros [Hcore Hmonto]. unfold tiene_columnas in *. cbn [forallb columnas_nuevas] in *.
  rewrite Hk2, (Hu2 Hmonto), !Ho by done.
  repeat (apply andb_prop in Hcore as [-> Hcore]). done.
Qed.

(** X17: on a healthy storage [init_db] upgrades an existing table in place
    without losing data.  It reports nothing; the table keeps its rows in
    order, each with its id, description, payment method, amount and date,
    and its counter; a row keeps its category if the column existed and
    gets 'Otros' otherwise; afterwards the table has [categoria], has
    [monto_usd] if it had the amount under either name, and has every
    other column exactly if it had it.  A table that had the columns of
    every version ends with the six columns the script needs. *)
Theorem init_db_migra_sin_perder (w : Mundo) (t : Tabla) :
  medio_actual w = Sano ->
  base w = Some t ->
  exists (w' : Mundo) (t' : Tabla),
    init_db w = (Ret tt, w')
    /\ base w' = Some t'
    /\ mensajes (traza w') = mensajes (traza w)
    /\ secuencia t' = secuencia t
    /\ filas t' = List.map (fila_migrada t) (filas t)
    /\ (forall r, id (fila_migrada t r) = id r
                  /\ concepto (fila_migrada t r) = concepto r
                  /\ banco (fila_migrada t r) = banco r
                  /\ monto_usd (fila_migrada t r) = monto_usd r
                  /\ fecha (fila_migrada t r) = fecha r)
    /\ tiene_columna "categoria" t' = true
    /\ (tiene_columna "monto" t = true \/ tiene_columna "monto_usd" t = true ->
        tiene_columna "monto_usd" t' = true)
    /\ (forall c, c <> "monto"%string -> c <> "monto_usd"%string ->
                  c <> "categoria"%string -> tiene_columna c t' = tiene_columna c t)
    /\ (columnas_de_siempre t -> tiene_columnas columnas_nuevas t' = true).
Proof.
  intros Hm Hb. rewrite init_db_sano by done. rewrite Hb.
  destruct (migrar_tabla t) as (t' & -> & Hs & Hf & Hk & Hu & Ho & Hc).
  eexists _, t'. split; [reflexivity|]. simpl. split; [done|].
  split; [by rewrite mensajes_app, app_nil_r|].
  split; [done|]. split; [done|].
  split; [intros r; unfold fila_migrada;
          destruct (tiene_columna "categoria" t); repeat split|].
  done.
Qed.

Lemma init_db_migra_sin_perder_witness :
  exists (w' : Mundo) (t' : Tabla),
    init_db mundo_legado = (Ret tt, w')
    /\ base w' = Some t'
    /\ mensajes (traza w') = mensajes (traza mundo_legado)
    /\ secuencia t' = secuencia tabla_legada
    /\ filas t' = List.map (fila_migrada tabla_legada) (filas tabla_legada)
    /\ (forall r, id (fila_migrada tabla_legada r) = id r
                  /\ concepto (fila_migrada tabla_legada r) = concepto r
                  /\ banco (fila_migrada tabla_legada r) = banco r
                  /\ monto_usd (fila_migrada tabla_legada r) = monto_usd r
                  /\ fecha (fila_migrada tabla_legada r) = fecha r)
    /\ tiene_columna "categoria" t' = true
    /\ (tiene_columna "monto" tabla_legada = true
        \/ tiene_columna "monto_usd" tabla_legada = true ->
        tiene_columna "monto_usd" t' = true)
    /\ (forall c, c <> "monto"%string -> c <> "monto_usd"%string ->
                  c <> "categoria"%string ->
                  tiene_columna c t' = tiene_columna c tabla_legada)
    /\ (columnas_de_siempre tabla_legada -> tiene_columnas columnas_nuevas t' = true).
Proof. apply (init_db_migra_sin_perder mundo_legado tabla_legada); reflexivity. Defined.



(** ** The select boxes *)

Lemma unique_In (l : list str) (x : str) : In x (unique l) <-> In x l.
Proof.
  induction l as [|y l IH]; simpl; [done|].
  rewrite filter_In, IH, negb_true_iff. split.
  - intros [H|[H _]]; auto.
  - intros [H|H]; [by left|].
    destruct (PyStr.eqb x y) eqn:E; [left; symmetry; by apply pystr_eqb_eq|by right].
Qed.

Lemma NoDup_filter_bool {A} (p : A -> bool) (l : list A) :
  NoDup l -> NoDup (List.filter p l).
Proof.
  induction 1 as [|x l Hx Hl IH]; simpl; [constructor|].
  destruct (p x); [|done]. constructor; [|done].
  rewrite list_elem_of_In, filter_In. rewrite list_elem_of_In in Hx. tauto.
Qed.

Lemma unique_NoDup (l : list str) : NoDup (unique l).
Proof.
  induction l as [|y l IH]; simpl; constructor.
  - rewrite list_elem_of_In, filter_In, negb_true_iff. intros [_ H].
    by rewrite pystr_eqb_refl in H.
  - by apply NoDup_filter_bool.
Qed.

Lemma str_mayor_asim (x y : str) : str_mayor x y = true -> str_mayor y x = false.
Proof.
  unfold str_mayor. rewrite (compare_antisym x y). by destruct (PyStr.compare x y).
Qed.

Lemma str_mayor_trans (x y z : str) :
  str_mayor x y = false -> str_mayor y z = false -> str_mayor x z = false.
Proof.
  unfold str_mayor.
  destruct (PyStr.compare x y) eqn:E1; [|destruct (PyStr.compare y z) eqn:E2|]; try done.
  - apply compare_eq in E1. by subst.
  - apply compare_eq in E2. subst. by rewrite E1.
  - by rewrite (compare_lt_trans _ _ _ E1 E2).
Qed.

(** Sorting a list without repetitions gives a strictly ascending list
    with the same elements. *)
Lemma sorted_estricta (l : list str) :
  NoDup l ->
  StronglySorted (fun a b => PyStr.compare a b = Lt) (sorted l)
  /\ (forall x, In x (sorted l) <-> In x l).
Proof.
  intros Hnd. unfold sorted.
  pose proof (ordenar_desc_perm str_mayor l) as Hp.
  pose proof (ordenar_desc_ordenada str_mayor str_mayor_asim str_mayor_trans l) as Hs.
  assert (Hnd' : NoDup (ordenar_desc str_mayor l)) by (by rewrite Hp).
  split; [|intros x; split; apply Permutation_in; [done|by symmetry]].
  clear Hp. induction Hs as [|x s Hs IH Hx]; constructor.
  - apply IH. by apply NoDup_cons in Hnd' as [_ ?].
  - apply NoDup_cons in Hnd' as [Hnx _]. rewrite list_elem_of_In in Hnx.
    rewrite List.Forall_forall in *. intros y Hy. specialize (Hx y Hy).
    unfold str_mayor in Hx. destruct (PyStr.compare x y) eqn:E; try done.
    apply compare_eq in E. by subst.
Qed.

(** Two strictly ascending lists with the same elements are equal. *)
Lemma estricta_unica (l1 l2 : list str) :
  StronglySorted (fun a b => PyStr.compare a b = Lt) l1 ->
  StronglySorted (fun a b => PyStr.compare a b = Lt) l2 ->
  (forall x, In x l1 <-> In x l2) -> l1 = l2.
Proof.
  intros H1. revert l2. induction H1 as [|x l1 Hl1 IH Hx]; intros l2 H2 Hin.
  - destruct l2 as [|y l2]; [done|]. exfalso. apply (Hin y). by left.
  - destruct H2 as [|y l2 Hl2 Hy].
    { exfalso. apply (Hin x). by left. }
    rewrite List.Forall_forall in Hx, Hy.
    assert (x = y) as <-.
    { destruct (proj1 (Hin x) (or_introl eq_refl)) as [->|Hx2]; [done|].
      destruct (proj2 (Hin y) (or_introl eq_refl)) as [->|Hy1]; [done|].
      specialize (Hx _ Hy1). specialize (Hy _ Hx2).
      rewrite compare_antisym, Hx in Hy. done. }
    f_equal. apply IH; [done|]. intros z. split; intros Hz.
    + destruct (proj1 (Hin z) (or_intror Hz)) as [<-|?]; [|done].
      specialize (Hx _ Hz). assert (PyStr.compare x x = Eq) by (by apply compare_eq).
      congruence.
    + destruct (proj2 (Hin z) (or_intror Hz)) as [<-|?]; [|done].
      specialize (Hy _ Hz). assert (PyStr.compare x x = Eq) by (by apply compare_eq).
      congruence.
Qed.

Lemma ordenada_map_fst (g : list (str * Q)) :
  StronglySorted (fun a b => PyStr.compare a.1 b.1 = Lt) g ->
  StronglySorted (fun a b => PyStr.compare a b = Lt) (List.map fst g).
Proof.
  induction 1 as [|x g Hg IH Hx]; simpl; constructor; [done|].
  apply List.Forall_map. exact Hx.
Qed.

(** X19: the "Categoría a renombrar" select box offers exactly the
    categories that some row of the frame has, each once, in ascending
    order; they are the groups of the category chart, in the same order. *)
Theorem categorias_unicas_opciones (df : DataFrame) :
  (forall c, In c (categorias_unicas df) <-> exists r, In r (df_filas df) /\ categoria r = c)
  /\ NoDup (categorias_unicas df)
  /\ StronglySorted (fun a b => PyStr.compare a b = Lt) (categorias_unicas df)
  /\ categorias_unicas df = List.map fst (groupby_sum categoria (df_filas df)).
Proof.
  unfold categorias_unicas.
  destruct (sorted_estricta _ (unique_NoDup (List.map categoria (df_filas df))))
    as [Hs Hin].
  assert (Hin' : forall c, In c (sorted (unique (List.map categoria (df_filas df))))
                           <-> exists r, In r (df_filas df) /\ categoria r = c).
  { intros c. rewrite Hin, unique_In, in_map_iff. split; intros (r & ? & ?); eauto. }
  destruct (groupby_sum_grupos categoria (df_filas df)) as (G1 & _ & G3 & _).
  assert (Heq : sorted (unique (List.map categoria (df_filas df)))
                = List.map fst (groupby_sum categoria (df_filas df))).
  { apply estricta_unica; [done|by apply ordenada_map_fst|].
    intros c. by rewrite Hin', G3. }
  split; [done|]. split; [|done].
  rewrite Heq. by destruct (groupby_sum_grupos categoria (df_filas df)) as (_ & ? & _).
Qed.

Lemma otra_no_es_default : ~ In otra_crear_nueva default_categorias.
Proof.
  intros H. vm_compute in H. repeat destruct H as [H|H]; try discriminate H. done.
Qed.

(** X20: the "Categoría" select box of the entry form offers the seven
    default categories and every category of the frame, each once and in
    ascending order, followed by "Otra (Crear Nueva)" as the last option;
    that label appears among the sorted options only if a row has it as
    its category. *)
Theorem opciones_finales_oferta (df : DataFrame) :
  opciones_finales df = opciones_categoria df ++ [otra_crear_nueva]
  /\ (forall c, In c (opciones_categoria df)
                <-> In c default_categorias
                    \/ exists r, In r (df_filas df) /\ categoria r = c)
  /\ StronglySorted (fun a b => PyStr.compare a b = Lt) (opciones_categoria df)
  /\ NoDup (opciones_categoria df)
  /\ (In otra_crear_nueva (opciones_categoria df)
      <-> exists r, In r (df_filas df) /\ categoria r = otra_crear_nueva).
Proof.
  split; [done|].
  unfold opciones_categoria.
  set (conj := list_to_set (default_categorias ++ categorias_existentes df) : gset str).
  destruct (sorted_estricta (elements conj) (NoDup_elements conj)) as [Hs Hin].
  assert (Hex : forall c, In c (categorias_existentes df)
                          <-> exists r, In r (df_filas df) /\ categoria r = c).
  { intros c. unfold categorias_existentes, df_empty.
    destruct (df_filas df) as [|r0 rs] eqn:E; cbn [negb].
    - split; [done|]. by intros (r & [] & _).
    - rewrite unique_In, in_map_iff. split; intros (r & ? & ?); eauto. }
  assert (Hin' : forall c, In c (sorted (elements conj))
                           <-> In c default_categorias
                               \/ exists r, In r (df_filas df) /\ categoria r = c).
  { intros c. rewrite Hin, <- list_elem_of_In, elem_of_elements. unfold conj.
    rewrite elem_of_list_to_set, list_elem_of_In, in_app_iff, Hex. done. }
  split; [done|]. split; [done|]. split.
  - pose proof (ordenar_desc_perm str_mayor (elements conj)) as Hp.
    unfold sorted. rewrite Hp. apply NoDup_elements.
  - rewrite Hin'. split; [|by right].
    intros [H|H]; [|done]. by destruct otra_no_es_default.
Qed.

(** ** The entry form behind its widgets *)

Lemma usd_no_es_bolivares : usd <> bolivares.
Proof. intros H. vm_compute in H. discriminate H. Qed.

Lemma categorias_unicas_In (df : DataFrame) (c : str) :
  In c (categorias_unicas df) <-> exists r, In r (df_filas df) /\ categoria r = c.
Proof.
  unfold categorias_unicas.
  destruct (sorted_estricta _ (unique_NoDup (List.map categoria (df_filas df))))
    as [_ Hin].
  rewrite Hin, unique_In, in_map_iff. split; intros (r & ? & ?); eauto.
Qed.

Lemma opciones_finales_default (df : DataFrame) (c : str) :
  In c default_categorias -> In c (opciones_finales df).
Proof.
  intros Hc. unfold opciones_finales, opciones_categoria.
  apply in_or_app. left.
  set (conj := list_to_set (default_categorias ++ categorias_existentes df) : gset str).
  destruct (sorted_estricta (elements conj) (NoDup_elements conj)) as [_ Hin].
  rewrite Hin, <- list_elem_of_In, elem_of_elements. unfold conj.
  rewrite elem_of_list_to_set, list_elem_of_In, in_app_iff. by left.
Qed.

(** X21: with the select boxes and number inputs of the page (amount and
    rate not below 0.01, currency one of the two options) the handler of
    "Guardar Gasto" has two ways out only: a text is empty and the
    "completa todos los campos" warning is shown, or the form is accepted
    with a positive amount, the entered one for USD and the entered one
    divided by the rate for Bolívares.  The rate warning cannot appear. *)
Theorem widgets_acotan_conversion (df : DataFrame) (p : Pantalla) (w : Mundo) :
  pantalla_valida df p ->
  (exists q,
      conversion (formulario_de p) w = (Ret (true, q), w)
      /\ (0 < q)%Q
      /\ categoria_final (formulario_de p) <> [] /\ w_concepto p <> [] /\ w_banco p <> []
      /\ (w_moneda p = usd -> q = w_monto p)
      /\ (w_moneda p = bolivares -> q = (w_monto p / w_tasa p)%Q))
  \/ ((categoria_final (formulario_de p) = [] \/ w_concepto p = [] \/ w_banco p = [])
      /\ conversion (formulario_de p) w
         = (Ret (false, 0%Q),
            mkMundo (base w) (medios w)
                    (traza w ++ [Mostrar Pagina NivelWarning CompletaLosCampos]))).
Proof.
  intros (_ & _ & _ & Hmonto & Hmoneda & Htasa).
  assert (Hm : (0 < w_monto p)%Q) by (eapply Qlt_le_trans; [|exact Hmonto]; done).
  assert (Ht : (0 < w_tasa p)%Q) by (eapply Qlt_le_trans; [|exact Htasa]; done).
  unfold conversion, tasa_cambio.
  set (f := formulario_de p).
  change (f_concepto f) with (w_concepto p). change (f_banco f) with (w_banco p).
  change (monto_ingresado f) with (w_monto p). change (moneda f) with (w_moneda p).
  change (tasa_widget f) with (w_tasa p).
  destruct (PyStr.falsy (categoria_final f)) eqn:E1;
    [apply falsy_nil in E1; right; split; auto|].
  destruct (PyStr.falsy (w_concepto p)) eqn:E2;
    [apply falsy_nil in E2; right; split; auto|].
  destruct (PyStr.falsy (w_banco p)) eqn:E3;
    [apply falsy_nil in E3; right; split; auto|].
  assert (H1 : categoria_final f <> []) by (intros H; apply falsy_nil in H; congruence).
  assert (H2 : w_concepto p <> []) by (intros H; apply falsy_nil in H; congruence).
  assert (H3 : w_banco p <> []) by (intros H; apply falsy_nil in H; congruence).
  assert (E4 : Qle_bool (w_monto p) 0 = false).
  { apply not_true_iff_false. intros H%Qle_bool_iff. by apply Qlt_not_le in Hm. }
  assert (E5 : Qle_bool (w_tasa p) 0 = false).
  { apply not_true_iff_false. intros H%Qle_bool_iff. by apply Qlt_not_le in Ht. }
  rewrite E4. simpl. left.
  destruct Hmoneda as [Hu|[Hb|[]]].
  - rewrite <- Hu.
    assert (PyStr.eqb usd bolivares = false) as ->.
    { apply not_true_iff_false. intros H%pystr_eqb_eq. by apply usd_no_es_bolivares. }
    rewrite pystr_eqb_refl. eexists. split; [reflexivity|].
    repeat split; try done. all: intros H; by destruct usd_no_es_bolivares.
  - rewrite <- Hb, pystr_eqb_refl, E5. eexists. split; [reflexivity|].
    repeat split; try done; try (by apply Qdiv_pos).
    all: intros H; by destruct usd_no_es_bolivares.
Qed.

Lemma widgets_acotan_conversion_witness :
  pantalla_valida (mkDataFrame columnas_nuevas (filas tabla_ejemplo)) pantalla_ejemplo
  /\ exists q, conversion (formulario_de pantalla_ejemplo) mundo_ejemplo
               = (Ret (true, q), mundo_ejemplo).
Proof.
  assert (Hv : pantalla_valida (mkDataFrame columnas_nuevas (filas tabla_ejemplo))
                               pantalla_ejemplo).
  { unfold pantalla_valida. split; [|split; [|split; [|split; [|split]]]].
    - intros _. rewrite categorias_unicas_In. exists gasto_1. split; [by left|reflexivity].
    - done.
    - apply opciones_finales_default. vm_compute. tauto.
    - done.
    - by left.
    - done. }
  split; [exact Hv|].
  destruct (widgets_acotan_conversion _ _ mundo_ejemplo Hv) as [(q & Hq & _)|[Hvac _]].
  - by exists q.
  - exfalso. vm_compute in Hvac. destruct Hvac as [H|[H|H]]; discriminate H.
Defined.

(** ** The dashboard *)

Lemma suma_perm (l l' : list Q) : Permutation l l' -> (suma l == suma l')%Q.
Proof.
  induction 1 as [|x l l' _ IH|x y l|l l' l'' _ IH1 _ IH2]; simpl.
  - reflexivity.
  - by rewrite IH.
  - ring.
  - by rewrite IH1.
Qed.

Lemma suma_map_ext {A} (f g : A -> Q) (l : list A) :
  (forall a, In a l -> (f a == g a)%Q) ->
  (suma (List.map f l) == suma (List.map g l))%Q.
Proof.
  induction l as [|a l IH]; intros H; simpl; [reflexivity|].
  rewrite (H a) by (by left). rewrite IH; [reflexivity|].
  intros b Hb. apply H. by right.
Qed.

Lemma suma_map_mas {A} (f g : A -> Q) (l : list A) :
  (suma (List.map (fun a => f a + g a) l) == suma (List.map f l) + suma (List.map g l))%Q.
Proof. induction l as [|a l IH]; simpl; [ring|]. rewrite IH. ring. Qed.

Lemma suma_ceros {A} (l : list A) : (suma (List.map (fun _ => 0) l) == 0)%Q.
Proof. induction l as [|a l IH]; simpl; [reflexivity|]. rewrite IH. ring. Qed.

(** The amount of one row, spread over a list of days that has its day
    once, adds up to that amount. *)
Lemma suma_indicador (dias : list Z) (x : Z) (m : Q) :
  NoDup dias -> In x dias ->
  (suma (List.map (fun d => if (x =? d)%Z then m else 0) dias) == m)%Q.
Proof.
  induction 1 as [|d dias Hd Hnd IH]; intros Hx; [done|]. simpl.
  rewrite list_elem_of_In in Hd.
  destruct Hx as [->|Hx].
  - rewrite Z.eqb_refl.
    rewrite (suma_map_ext _ (fun _ => 0%Q)); [rewrite suma_ceros; ring|].
    intros a Ha. destruct (Z.eqb_spec x a) as [->|]; [done|reflexivity].
  - destruct (Z.eqb_spec x d) as [->|]; [done|]. rewrite IH by done. ring.
Qed.

Lemma suma_por_dias (dias : list Z) (df : list Gasto) :
  NoDup dias -> (forall a, In a df -> In (fecha a) dias) ->
  (suma (List.map (fun d => suma_del_dia d df) dias) == suma (List.map monto_usd df))%Q.
Proof.
  intros Hnd. induction df as [|r df IH]; intros Hin.
  - unfold suma_del_dia. simpl. apply suma_ceros.
  - rewrite (suma_map_ext _ (fun d => (if (fecha r =? d)%Z then monto_usd r else 0)
                                      + suma_del_dia d df)%Q).
    + rewrite suma_map_mas, suma_indicador, IH; [simpl; ring| |done|].
      * intros a Ha. apply Hin. by right.
      * apply Hin. by left.
    + intros d _. unfold suma_del_dia, en_fecha. simpl.
      destruct (fecha r =? d)%Z; simpl; ring.
Qed.

Lemma acumular_suma (k : str) (v : Q) (g : list (str * Q)) :
  (suma (List.map snd (acumular k v g)) == suma (List.map snd g) + v)%Q.
Proof.
  induction g as [|[k' s] g IH]; simpl; [ring|].
  destruct (PyStr.compare k k'); simpl; [ring|ring|]. rewrite IH. ring.
Qed.

Lemma groupby_sum_suma (clave : Gasto -> str) (df : list Gasto) :
  (suma (List.map snd (groupby_sum clave df)) == suma (List.map monto_usd df))%Q.
Proof.
  unfold groupby_sum.
  assert (H : forall g,
             (suma (List.map snd (fold_left (fun g r => acumular (clave r) (monto_usd r) g) df g))
              == suma (List.map snd g) + suma (List.map monto_usd df))%Q).
  { induction df as [|r df IH]; intros g; simpl; [ring|].
    rewrite IH, acumular_suma. ring. }
  rewrite H. simpl. ring.
Qed.

Lemma by_category_firstn (top_n : nat) (df : list Gasto) :
  by_category top_n df = firstn top_n (ordenar_desc suma_menor (groupby_sum categoria df)).
Proof.
  unfold by_category, sort_values_desc, nlargest.
  apply ordenar_desc_fijo. apply StronglySorted_firstn.
  apply ordenar_desc_ordenada; [apply suma_menor_asim|apply suma_menor_trans].
Qed.

Lemma groupby_sum_no_vacio (clave : Gasto -> str) (r : Gasto) (rs : list Gasto) :
  groupby_sum clave (r :: rs) <> [].
Proof.
  destruct (groupby_sum_grupos clave (r :: rs)) as (_ & _ & H & _).
  intros E. rewrite E in H.
  apply (proj2 (H (clave r))). exists r. split; [by left|done].
Qed.

Lemma ordenar_desc_no_vacio {A} (menor : A -> A -> bool) (l : list A) :
  l <> [] -> ordenar_desc menor l <> [].
Proof.
  intros Hl E. pose proof (ordenar_desc_perm menor l) as Hp. rewrite E in Hp.
  apply Permutation_nil in Hp. done.
Qed.

Lemma categorias_unicas_grupos (df : DataFrame) :
  categorias_unicas df = List.map fst (groupby_sum categoria (df_filas df)).
Proof.
  unfold categorias_unicas.
  destruct (sorted_estricta _ (unique_NoDup (List.map categoria (df_filas df))))
    as [Hs Hin].
  destruct (groupby_sum_grupos categoria (df_filas df)) as (G1 & _ & G3 & _).
  apply estricta_unica; [done|by apply ordenada_map_fst|].
  intros c. rewrite Hin, unique_In, G3, in_map_iff.
  split; intros (r & ? & ?); eauto.
Qed.

(** X22: the dashboard never fails.  With no rows it shows the "aún no
    has registrado" note; with rows it shows the total, the mean, the
    number of rows and the rows themselves, and each of the three charts
    is drawn: the "no hay suficientes datos" notes of the script cannot
    appear. *)
Theorem reportes_tablero (df : DataFrame) :
  (df_filas df = [] /\ reportes df = inr AunSinGastos)
  \/ (df_filas df <> []
      /\ exists serie,
           gastos_tiempo (df_filas df) = inr serie
           /\ gastos_categoria (df_filas df) <> []
           /\ gastos_banco (df_filas df) <> []
           /\ serie <> []
           /\ reportes df
              = inr (Tablero (total_gastado (df_filas df)) (gasto_promedio (df_filas df))
                             (length (df_filas df))
                             (Figura (gastos_categoria (df_filas df)))
                             (Figura (gastos_banco (df_filas df)))
                             (Figura serie)
                             (df_filas df))).
Proof.
  unfold reportes, df_empty.
  destruct (df_filas df) as [|r rs] eqn:E; [by left|]. right. split; [done|].
  assert (Hc : gastos_categoria (r :: rs) <> []).
  { unfold gastos_categoria. rewrite by_category_firstn.
    pose proof (ordenar_desc_no_vacio suma_menor _ (groupby_sum_no_vacio categoria r rs)) as H.
    destruct (ordenar_desc suma_menor (groupby_sum categoria (r :: rs))); done. }
  assert (Hb : gastos_banco (r :: rs) <> []).
  { unfold gastos_banco, sort_values_desc.
    apply ordenar_desc_no_vacio, groupby_sum_no_vacio. }
  destruct (primer_dia_min r rs) as [(a & Ha & Ea) _].
  destruct (ultimo_dia_max r rs) as [_ Hhi]. specialize (Hhi a Ha).
  assert (Hs : List.map (fun d => (d, default 0%Q (cubetas (r :: rs) !! d)))
                 (seqZ (primer_dia r rs) (ultimo_dia r rs - primer_dia r rs + 1)) <> []).
  { rewrite seqZ_cons by lia. done. }
  eexists. split; [reflexivity|]. repeat (split; [done|]).
  cbv zeta. unfold gastos_tiempo. unfold graficar.
  destruct (gastos_categoria (r :: rs)); [done|].
  destruct (gastos_banco (r :: rs)); [done|].
  destruct (List.map _ (seqZ _ _)); done.
Qed.

(** X23: the figures of the dashboard add up.  On a frame with rows the
    mean times the number of rows, the sums of the payment-method chart
    and the values of the daily series each add up to the total; so do
    the sums of the category chart when the frame has at most ten
    categories. *)
Theorem reportes_cuadran (df : DataFrame) :
  df_filas df <> [] ->
  (gasto_promedio (df_filas df) * inject_Z (Z.of_nat (length (df_filas df)))
   == total_gastado (df_filas df))%Q
  /\ (suma (List.map snd (gastos_banco (df_filas df))) == total_gastado (df_filas df))%Q
  /\ (exists serie, gastos_tiempo (df_filas df) = inr serie
                    /\ (suma (List.map snd serie) == total_gastado (df_filas df))%Q)
  /\ ((length (categorias_unicas df) <= 10)%nat ->
      (suma (List.map snd (gastos_categoria (df_filas df))) == total_gastado (df_filas df))%Q).
Proof.
  intros Hne.
  assert (Ht : (total_gastado (df_filas df) == suma (List.map monto_usd (df_filas df)))%Q).
  { unfold total_gastado. rewrite fold_left_suma. ring. }
  split; [|split; [|split]].
  - unfold gasto_promedio. field.
    destruct (df_filas df) as [|r rs]; [done|].
    intros H. unfold Qeq in H. simpl in H. lia.
  - unfold gastos_banco, sort_values_desc.
    rewrite (suma_perm _ (List.map snd (groupby_sum banco (df_filas df)))).
    + by rewrite groupby_sum_suma.
    + apply Permutation_map, ordenar_desc_perm.
  - destruct (df_filas df) as [|r rs] eqn:E; [done|].
    eexists. split; [reflexivity|].
    rewrite List.map_map. simpl.
    rewrite (suma_map_ext _ (fun d => suma_del_dia d (r :: rs))).
    + rewrite suma_por_dias; [by rewrite Ht|apply NoDup_seqZ|].
      intros a Ha. rewrite <- list_elem_of_In, elem_of_seqZ.
      destruct (primer_dia_min r rs) as [_ Hlo].
      destruct (ultimo_dia_max r rs) as [_ Hhi].
      specialize (Hlo a Ha). specialize (Hhi a Ha). lia.
    + intros d _. apply cubetas_suma.
  - intros Hdiez. unfold gastos_categoria. rewrite by_category_firstn.
    rewrite categorias_unicas_grupos, length_map in Hdiez.
    rewrite firstn_all2.
    + rewrite (suma_perm _ (List.map snd (groupby_sum categoria (df_filas df)))).
      * by rewrite groupby_sum_suma.
      * apply Permutation_map, ordenar_desc_perm.
    + by rewrite (Permutation_length (ordenar_desc_perm suma_menor _)).
Qed.

Lemma reportes_cuadran_witness :
  df_filas (mkDataFrame columnas_nuevas df_ejemplo) <> []
  /\ (suma (List.map snd (gastos_banco df_ejemplo)) == total_gastado df_ejemplo)%Q.
Proof.
  assert (Hne : df_filas (mkDataFrame columnas_nuevas df_ejemplo) <> []) by done.
  split; [exact Hne|].
  exact (proj1 (proj2 (reportes_cuadran (mkDataFrame columnas_nuevas df_ejemplo) Hne))).
Defined.

(** ** Renaming, seen through the reports *)

Lemma pystr_eqb_neq (s t : str) : s <> t -> PyStr.eqb s t = false.
Proof. intros H. apply not_true_iff_false. by intros E%pystr_eqb_eq. Qed.

Lemma suma_de_clave_indicador (clave : Gasto -> str) (c : str) (l : list Gasto) :
  (suma_de_clave clave c l
   == suma (List.map (fun r => if PyStr.eqb (clave r) c then monto_usd r else 0) l))%Q.
Proof.
  unfold suma_de_clave, suma. induction l as [|r l IH]; simpl; [reflexivity|].
  destruct (PyStr.eqb (clave r) c); simpl; rewrite IH; ring.
Qed.

Lemma renombrar_sumas (viejo nuevo : str) (l : list Gasto) :
  nuevo <> viejo ->
  let f := fun r => if PyStr.eqb (categoria r) viejo then poner_categoria nuevo r else r in
  (suma_de_clave categoria nuevo (List.map f l)
   == suma_de_clave categoria nuevo l + suma_de_clave categoria viejo l)%Q
  /\ (forall c, c <> viejo -> c <> nuevo ->
        (suma_de_clave categoria c (List.map f l) == suma_de_clave categoria c l)%Q)
  /\ (forall r, In r (List.map f l) -> categoria r <> viejo)
  /\ List.map monto_usd (List.map f l) = List.map monto_usd l.
Proof.
  intros Hne f. split; [|split; [|split]].
  - rewrite !suma_de_clave_indicador, List.map_map, <- suma_map_mas.
    apply suma_map_ext. intros r _. unfold f.
    destruct (PyStr.eqb (categoria r) viejo) eqn:E; simpl.
    + apply pystr_eqb_eq in E.
      rewrite pystr_eqb_refl, E, (pystr_eqb_neq viejo nuevo) by done. ring.
    + destruct (PyStr.eqb (categoria r) nuevo); ring.
  - intros c Hc1 Hc2. rewrite !suma_de_clave_indicador, List.map_map.
    apply suma_map_ext. intros r _. unfold f.
    destruct (PyStr.eqb (categoria r) viejo) eqn:E; simpl; [|reflexivity].
    apply pystr_eqb_eq in E.
    rewrite E, (pystr_eqb_neq nuevo c), (pystr_eqb_neq viejo c) by done. reflexivity.
  - intros r' (r & <- & _)%in_map_iff. unfold f.
    destruct (PyStr.eqb (categoria r) viejo) eqn:E; simpl; [done|].
    intros H%pystr_eqb_eq. congruence.
  - rewrite List.map_map. apply List.map_ext. intros r. unfold f.
    by destruct (PyStr.eqb (categoria r) viejo).
Qed.

(** X24: a successful rename to a different name merges two groups of the
    category chart.  No row keeps the old category, the sum of the new
    category becomes what it was plus the sum of the old one, the sum of
    every other category, the number of rows and the total stay as they
    were. *)
Theorem actualizar_nombre_categoria_fusiona (old_name new_name : str)
    (w : Mundo) (t : Tabla) :
  medio_actual w = Sano ->
  base w = Some t ->
  tiene_columnas columnas_nuevas t = true ->
  PyStr.strip new_name <> [] ->
  PyStr.strip new_name <> old_name ->
  exists (w' : Mundo) (t' : Tabla),
    actualizar_nombre_categoria old_name new_name w = (Raise RerunException, w')
    /\ base w' = Some t'
    /\ length (filas t') = length (filas t)
    /\ (total_gastado (filas t') == total_gastado (filas t))%Q
    /\ (forall r, In r (filas t') -> categoria r <> old_name)
    /\ (suma_de_clave categoria (PyStr.strip new_name) (filas t')
        == suma_de_clave categoria (PyStr.strip new_name) (filas t)
           + suma_de_clave categoria old_name (filas t))%Q
    /\ (forall c, c <> old_name -> c <> PyStr.strip new_name ->
          (suma_de_clave categoria c (filas t') == suma_de_clave categoria c (filas t))%Q).
Proof.
  intros Hm Hb Hc Hne Hdif.
  rewrite (actualizar_sano old_name new_name w t) by done.
  do 2 eexists. split; [reflexivity|]. split; [reflexivity|]. simpl.
  destruct (renombrar_sumas old_name (PyStr.strip new_name) (filas t) Hdif)
    as (H1 & H2 & H3 & H4).
  split; [by rewrite length_map|].
  split; [|done].
  unfold total_gastado. rewrite !fold_left_suma, H4. reflexivity.
Qed.

Lemma actualizar_nombre_categoria_fusiona_witness :
  exists (w' : Mundo) (t' : Tabla),
    actualizar_nombre_categoria (py "Hogar") (py " Salud ") mundo_ejemplo
    = (Raise RerunException, w')
    /\ base w' = Some t'
    /\ (suma_de_clave categoria (py "Salud") (filas t') == 35)%Q.
Proof.
  destruct (actualizar_nombre_categoria_fusiona (py "Hogar") (py " Salud ")
              mundo_ejemplo tabla_ejemplo)
    as (w' & t' & Hrun & Hb & _ & _ & _ & Hs & _);
    [reflexivity|reflexivity|reflexivity|by vm_compute|by vm_compute|].
  exists w', t'. split; [exact Hrun|]. split; [exact Hb|].
  change (PyStr.strip (py " Salud ")) with (py "Salud") in Hs.
  rewrite Hs. by vm_compute.
Defined.

(** ** The buttons of the sidebar *)

Lemma renombrar_a_si_misma (c : str) (l : list Gasto) :
  List.map (fun r => if PyStr.eqb (categoria r) c then poner_categoria c r else r) l = l.
Proof.
  induction l as [|r l IH]; simpl; [done|]. rewrite IH. f_equal.
  destruct (PyStr.eqb (categoria r) c) eqn:E; [|done].
  apply pystr_eqb_eq in E. subst c. by destruct r.
Qed.

(** X25: the guard of the "Actualizar Categoría" button compares the two
    names as typed.  A new name equal to the old one gets the "igual al
    anterior" warning and nothing else happens; a new name that differs
    from the old one only by surrounding whitespace passes the guard: an
    UPDATE is issued that leaves the file as it was, and the rename is
    reported as a success. *)
Theorem boton_actualizar_mismo_nombre (old_name nuevo : str) (w : Mundo) (t : Tabla) :
  medio_actual w = Sano ->
  base w = Some t ->
  tiene_columnas columnas_nuevas t = true ->
  old_name <> [] ->
  PyStr.strip nuevo = old_name ->
  (nuevo = old_name ->
     boton_actualizar old_name nuevo w
     = (Ret tt, mkMundo (base w) (medios w)
                        (traza w ++ [Mostrar Sidebar NivelWarning NombreIgual])))
  /\ (nuevo <> old_name ->
        boton_actualizar old_name nuevo w
        = (Raise RerunException,
           mkMundo (base w) (List.tail (medios w))
                   (traza w ++ [Ejecutar (UpdateCategoria old_name old_name);
                                Mostrar Sidebar NivelSuccess
                                        (CategoriaRenombrada old_name nuevo);
                                CacheClear]))).
Proof.
  intros Hm Hb Hc Hne Hs. unfold boton_actualizar. split; intros Hn.
  - subst nuevo. by rewrite pystr_eqb_refl.
  - rewrite pystr_eqb_neq by congruence. cbn [negb].
    rewrite (actualizar_sano old_name nuevo w t) by (done || congruence).
    rewrite Hs, renombrar_a_si_misma, Hb. by destruct t.
Qed.

Lemma boton_actualizar_mismo_nombre_witness :
  boton_actualizar (py "Hogar") (py " Hogar") mundo_ejemplo
  = (Raise RerunException,
     mkMundo (Some tabla_ejemplo) []
             [Ejecutar (UpdateCategoria (py "Hogar") (py "Hogar"));
              Mostrar Sidebar NivelSuccess (CategoriaRenombrada (py "Hogar") (py " Hogar"));
              CacheClear]).
Proof.
  refine (proj2 (boton_actualizar_mismo_nombre (py "Hogar") (py " Hogar")
                   mundo_ejemplo tabla_ejemplo _ _ _ _ _) _);
    solve [reflexivity | discriminate].
Defined.

(** ** One run of the script *)

Lemma termina_en_rerun {A} (m : M A) (w : Mundo) :
  exists (e : Excepcion) (w' : Mundo),
    (m ;; st_cache_data_clear ;; st_rerun) w = (@Raise unit e, w').
Proof.
  unfold mbind, M_bind, bind. destruct (m w) as [[a|e] w1]; simpl; eauto.
Qed.

Lemma eliminar_gasto_no_vuelve (gasto_id : Z) (w : Mundo) :
  exists (e : Excepcion) (w' : Mundo), eliminar_gasto gasto_id w = (Raise e, w').
Proof. unfold eliminar_gasto. apply termina_en_rerun. Qed.

Lemma actualizar_vuelve (old_name new_name : str) (w w' : Mundo) :
  actualizar_nombre_categoria old_name new_name w = (Ret tt, w') ->
  base w' = base w /\ sentencias (traza w') = sentencias (traza w).
Proof.
  unfold actualizar_nombre_categoria. destruct (PyStr.falsy _).
  - intros [= <-]. simpl. by rewrite sentencias_app, app_nil_r.
  - intros H. destruct (termina_en_rerun (con_conexion
      (fun conn =>
         execute conn (UpdateCategoria (PyStr.strip new_name) old_name) ;;
         commit conn ;;
         st_sidebar_success (CategoriaRenombrada old_name new_name))
      es_sqlite3_Error
      (fun e => st_sidebar_error (ErrorAlActualizar e))) w) as (e & w1 & He).
    rewrite He in H. discriminate H.
Qed.

Lemma boton_actualizar_vuelve (old_name nuevo : str) (w w' : Mundo) :
  boton_actualizar old_name nuevo w = (Ret tt, w') ->
  base w' = base w /\ sentencias (traza w') = sentencias (traza w).
Proof.
  unfold boton_actualizar. destruct (negb _).
  - apply actualizar_vuelve.
  - intros [= <-]. simpl. by rewrite sentencias_app, app_nil_r.
Qed.

Lemma boton_guardar_vuelve (f : Formulario) (w w' : Mundo) :
  boton_guardar f w = (Ret tt, w') ->
  base w' = base w /\ sentencias (traza w') = sentencias (traza w).
Proof.
  unfold boton_guardar. unfold mbind at 1. unfold M_bind at 1. unfold bind at 1.
  destruct (conversion_casos f w) as [[_ [t ->]]|[_ (q & -> & _)]].
  - intros [= <-]. simpl. by rewrite sentencias_app, app_nil_r.
  - intros H.
    destruct (termina_en_rerun
                (guardar_gasto (PyStr.strip (categoria_final f)) (f_concepto f)
                               (f_banco f) q (f_fecha f)) w) as (e & w1 & He).
    cbv beta iota in H. rewrite He in H. discriminate H.
Qed.

Lemma cargar_datos_no_escribe (w : Mundo) : base (cargar_datos w).2 = base w.
Proof.
  unfold cargar_datos, con_conexion, sqlite3_connect, try_except.
  unfold mbind, M_bind, bind.
  destruct (medio_actual w) eqn:Em; [|done|].
  - rewrite execute_sano. simpl.
    destruct (motor_select_casos (base w)) as [[e He]|(t & Hb & Hc & ->)]; [|done].
    rewrite He. by destruct (motor_error _ _ _ He) as [m ->].
  - unfold execute, mbind, M_bind, bind. by simpl.
Qed.

(** X26: a run of the script that gets to draw the dashboard has written
    nothing after loading the frame: [init_db] finished, [cargar_datos]
    handed over the frame the dashboard is computed from, the "Eliminar
    Gasto" button was not pressed, and whatever the other two buttons did
    left the file and the statements handed to the engine as they were
    after the load.  Every write ends the run before the dashboard. *)
Theorem script_muestra (p : Pantalla) (w w' : Mundo) (v : Vista) :
  script p w = (Ret v, w') ->
  exists (w1 w2 : Mundo) (df : DataFrame),
    init_db w = (Ret tt, w1)
    /\ cargar_datos w1 = (Ret df, w2)
    /\ reportes df = inr v
    /\ pulsa_eliminar p = false
    /\ base w' = base w1
    /\ sentencias (traza w') = sentencias (traza w2).
Proof.
  unfold script. unfold mbind, M_bind, bind.
  destruct (init_db w) as [[[]|e] w1] eqn:E1; [|done].
  destruct (cargar_datos w1) as [[df|e] w2] eqn:E2; [|done].
  assert (Hb2 : base w2 = base w1).
  { pose proof (cargar_datos_no_escribe w1) as H. by rewrite E2 in H. }
  destruct ((if negb (df_empty df)
             then if pulsa_actualizar p
                  then boton_actualizar (categoria_a_editar p) (nuevo_nombre p)
                  else mret tt
             else mret tt) w2) as [[[]|e] w3] eqn:E3; [|done].
  assert (H3 : base w3 = base w2 /\ sentencias (traza w3) = sentencias (traza w2)).
  { destruct (negb (df_empty df)); [destruct (pulsa_actualizar p)|].
    - by apply boton_actualizar_vuelve in E3.
    - by injection E3 as <-.
    - by injection E3 as <-. }
  destruct (pulsa_eliminar p) eqn:Ep.
  { destruct (eliminar_gasto_no_vuelve (id_a_eliminar p) w3) as (e & w4 & ->). done. }
  cbn [mret M_ret ret].
  destruct ((if pulsa_guardar p then boton_guardar (formulario_de p) else mret tt) w3)
    as [[[]|e] w5] eqn:E5; [|done].
  assert (H5 : base w5 = base w3 /\ sentencias (traza w5) = sentencias (traza w3)).
  { destruct (pulsa_guardar p).
    - by apply boton_guardar_vuelve in E5.
    - by injection E5 as <-. }
  destruct (reportes df) as [e|v'] eqn:Er; [done|].
  intros [= <- <-]. exists w1, w2, df.
  destruct H3 as [-> ->] in H5. destruct H5 as [H5 H5']. rewrite Hb2 in H5.
  done.
Qed.

Lemma script_muestra_witness :
  exists (v : Vista) (w' : Mundo),
    script (mkPantalla false [] [] false 1 (py "Salud") [] [] [] 40 usd (1 # 100)
                       (ymd 2024 1 5) true) mundo_ejemplo = (Ret v, w')
    /\ base w' = Some tabla_ejemplo.
Proof.
  set (p := mkPantalla false [] [] false 1 (py "Salud") [] [] [] 40 usd (1 # 100)
                       (ymd 2024 1 5) true).
  destruct (script p mundo_ejemplo) as [[v|e] w'] eqn:E.
  - exists v, w'. split; [reflexivity|].
    destruct (script_muestra p mundo_ejemplo w' v E) as (w1 & w2 & df & E1 & _ & _ & _ & Hb & _).
    rewrite Hb. vm_compute in E1. by injection E1 as <-.
  - exfalso. vm_compute in E. discriminate E.
Defined.

(** ** Writes and the cache *)

Lemma solo_avisa_anotar (l : Lugar) (n : Nivel) (t : Texto) :
  solo_avisa (anotar (Mostrar l n t)).
Proof.
  intros w. eexists _, _. split; [reflexivity|]. simpl.
  by rewrite sentencias_app, app_nil_r.
Qed.

Lemma seguido_de_rerun {A} (m : M A) (w : Mundo) :
  (m ;; st_cache_data_clear ;; st_rerun) w
  = match m w with
    | (Ret _, w1) =>
        (@Raise unit RerunException,
         mkMundo (base w1) (medios w1) (traza w1 ++ [CacheClear]))
    | (Raise e, w1) => (Raise e, w1)
    end.
Proof. unfold mbind, M_bind, bind. by destruct (m w) as [[a|e] w1]. Qed.

Section UnaSentencia.

Context {A : Type}.
Variable s : Sentencia.
Variable k : Conexion -> Respuesta -> M A.
Variable manejador : Excepcion -> M A.
Hypothesis k_avisa : forall r, solo_avisa (k Sano r).
Hypothesis manejador_avisa : forall e, solo_avisa (manejador e).

(** The shape shared by the three writing functions: one statement, then
    messages.  Either the file could not be opened, nothing was handed to
    the engine and [UnboundLocalError] comes out, or the function returns
    after handing over its statement. *)
Lemma con_conexion_una_sentencia (w : Mundo) :
  (exists w', con_conexion (fun conn => r ← execute conn s; k conn r)
                           es_sqlite3_Error manejador w
              = (Raise UnboundLocalError, w')
              /\ sentencias (traza w') = sentencias (traza w))
  \/ (exists a w', con_conexion (fun conn => r ← execute conn s; k conn r)
                                es_sqlite3_Error manejador w
                   = (Ret a, w')
                   /\ sentencias (traza w') = sentencias (traza w) ++ [s]).
Proof.
  unfold con_conexion, sqlite3_connect, try_except.
  destruct (medio_actual w) eqn:Em.
  - right. unfold mbind, M_bind, bind. rewrite execute_sano.
    change (base (avanzar w)) with (base w).
    change (medios (avanzar w)) with (List.tail (medios w)).
    change (traza (avanzar w)) with (traza w).
    destruct (motor s (base w)) as [e|[b r]] eqn:Emot.
    + destruct (motor_error _ _ _ Emot) as [m ->]. simpl.
      destruct (manejador_avisa (SqliteError OperationalError m)
                  (mkMundo (base w) (List.tail (medios w)) (traza w ++ [Ejecutar s])))
        as (a & w' & -> & Hs).
      exists a, w'. split; [done|]. rewrite Hs. simpl. by rewrite sentencias_app.
    + simpl.
      destruct (k_avisa r (mkMundo b (List.tail (medios w)) (traza w ++ [Ejecutar s])))
        as (a & w' & -> & Hs).
      exists a, w'. split; [done|]. rewrite Hs. simpl. by rewrite sentencias_app.
  - left. simpl.
    destruct (manejador_avisa (SqliteError OperationalError UnableToOpen) (avanzar w))
      as (a & w' & -> & Hs).
    exists w'. by split.
  - right. unfold execute, mbind, M_bind, bind, anotar, raise. simpl.
    destruct (manejador_avisa (SqliteError c StorageFault)
                (mkMundo (base w) (List.tail (medios w)) (traza w ++ [Ejecutar s])))
      as (a & w' & -> & Hs).
    exists a, w'. split; [done|]. rewrite Hs. simpl. by rewrite sentencias_app.
Qed.

(** Followed by [st.cache_data.clear()] and [st.rerun()]. *)
Lemma una_sentencia_y_rerun (w : Mundo) :
  let res := (con_conexion (fun conn => r ← execute conn s; k conn r)
                           es_sqlite3_Error manejador ;;
              st_cache_data_clear ;; st_rerun) w in
  (res.1 = @Raise unit UnboundLocalError
   /\ sentencias (traza res.2) = sentencias (traza w))
  \/ (res.1 = Raise RerunException
      /\ sentencias (traza res.2) = sentencias (traza w) ++ [s]
      /\ exists tr, traza res.2 = tr ++ [CacheClear]).
Proof.
  intros res. subst res. rewrite seguido_de_rerun.
  destruct (con_conexion_una_sentencia w) as [(w' & -> & Hs)|(a & w' & -> & Hs)].
  - by left.
  - right. simpl. split; [done|]. split; [|by eexists].
    by rewrite sentencias_app, app_nil_r.
Qed.

End UnaSentencia.

Lemma boton_guardar_pasos (f : Formulario) (w : Mundo) :
  boton_guardar f w
  = match conversion f w with
    | (Ret (true, monto_final_usd), w1) =>
        (guardar_gasto (PyStr.strip (categoria_final f)) (f_concepto f) (f_banco f)
                       monto_final_usd (f_fecha f) ;;
         st_cache_data_clear ;;
         st_rerun) w1
    | (Ret (false, _), w1) => (Ret tt, w1)
    | (Raise e, w1) => (Raise e, w1)
    end.
Proof.
  unfold boton_guardar, mbind, M_bind, bind.
  by destruct (conversion f w) as [[[[] q]|e] w1].
Qed.

(** X27: no button writes without clearing the cache of [cargar_datos].
    Whatever the file and the storage do, each of the three buttons either
    hands nothing to the engine, or hands it exactly one statement, then
    clears the cache as its last act and ends the run with the rerun
    request; so the frame of the next run is never a replay from before
    the write. *)
Theorem escrituras_limpian_cache (w : Mundo) :
  let limpia (m : M unit) (s : Sentencia) :=
    sentencias (traza (m w).2) = sentencias (traza w)
    \/ ((m w).1 = Raise RerunException
        /\ sentencias (traza (m w).2) = sentencias (traza w) ++ [s]
        /\ exists tr, traza (m w).2 = tr ++ [CacheClear]) in
  (forall gasto_id, limpia (eliminar_gasto gasto_id) (DeleteGasto gasto_id))
  /\ (forall viejo nuevo,
         limpia (boton_actualizar viejo nuevo) (UpdateCategoria (PyStr.strip nuevo) viejo))
  /\ (forall f, exists monto,
         limpia (boton_guardar f)
                (InsertGasto (PyStr.strip (categoria_final f)) (f_concepto f) (f_banco f)
                             monto (f_fecha f))).
Proof.
  intros limpia. subst limpia. cbv beta. split; [|split].
  - intros gasto_id.
    destruct (@una_sentencia_y_rerun unit (DeleteGasto gasto_id)
                (fun conn r =>
                   commit conn ;;
                   if Nat.eqb (cambios r) 0
                   then st_sidebar_warning (GastoNoEncontrado gasto_id)
                   else st_sidebar_success (GastoEliminado gasto_id))
                (fun e => st_sidebar_error (ErrorAlEliminar e))
                ltac:(intros r; unfold commit, mbind, M_bind, bind, ret;
                      destruct (Nat.eqb _ 0); apply solo_avisa_anotar)
                ltac:(intros e; apply solo_avisa_anotar) w) as [[_ H]|H].
    + by left.
    + by right.
  - intros viejo nuevo. unfold boton_actualizar.
    destruct (negb _).
    + unfold actualizar_nombre_categoria. destruct (PyStr.falsy _).
      * left. simpl. by rewrite sentencias_app, app_nil_r.
      * pose (k := fun (conn : Conexion) (_ : Respuesta) =>
                     (commit conn ;;
                      st_sidebar_success (CategoriaRenombrada viejo nuevo)) : M unit).
        assert (Hk : forall r, solo_avisa (k Sano r)).
        { intros r. unfold k, commit, mbind, M_bind, bind, ret.
          apply solo_avisa_anotar. }
        destruct (una_sentencia_y_rerun (UpdateCategoria (PyStr.strip nuevo) viejo) k
                    (fun e => st_sidebar_error (ErrorAlActualizar e)) Hk
                    (fun e => solo_avisa_anotar _ _ _) w) as [[_ H]|H].
        -- by left.
        -- by right.
    + left. simpl. by rewrite sentencias_app, app_nil_r.
  - intros f. rewrite boton_guardar_pasos.
    destruct (conversion_casos f w) as [[_ [t ->]]|[_ (q & -> & _)]].
    + exists 0%Q. left. simpl. by rewrite sentencias_app, app_nil_r.
    + exists q. cbv beta iota.
      pose (k := fun (conn : Conexion) (_ : Respuesta) =>
                   (commit conn ;;
                    st_success (GastoGuardado q (f_concepto f)
                                              (PyStr.strip (categoria_final f)))) : M unit).
      assert (Hk : forall r, solo_avisa (k Sano r)).
      { intros r. unfold k, commit, mbind, M_bind, bind, ret.
        apply solo_avisa_anotar. }
      destruct (una_sentencia_y_rerun
                  (InsertGasto (PyStr.strip (categoria_final f)) (f_concepto f)
                               (f_banco f) q (f_fecha f)) k
                  (fun e => st_error (ErrorAlGuardar e)) Hk
                  (fun e => solo_avisa_anotar _ _ _) w) as [[_ H]|H].
      * by left.
      * by right.
Qed.

(** ** From one run to the next *)

Lemma nuevas_migrada (t : Tabla) :
  tiene_columnas columnas_nuevas t = true -> migrada (Some t).
Proof.
  unfold tiene_columnas, columnas_nuevas. cbn [forallb]. intros H.
  repeat (apply andb_prop in H as [? H]).
  exists t. split; [done|]. split; [done|by right].
Qed.

Lemma arranque_listo (w : Mundo) (t : Tabla) :
  medios w = [] -> base w = Some t -> tiene_columnas columnas_nuevas t = true ->
  arranque w
  = (Ret (mkDataFrame columnas_nuevas (ordenar_desc fecha_menor (filas t))),
     mkMundo (Some t) []
             (traza w ++ [Ejecutar CreateTableIfNotExists; Ejecutar AlterRenameMonto;
                          Ejecutar AlterAddCategoria; Ejecutar SelectGastos])).
Proof.
  intros Hm Hb Hc. unfold arranque.
  assert (Hs : medio_actual w = Sano) by (unfold medio_actual; by rewrite Hm).
  erewrite mbind_ret; [|by apply init_db_sano].
  rewrite Hb, (proj1 (migrada_fija _ (nuevas_migrada t Hc))), Hm.
  erewrite cargar_datos_sano; [|reflexivity|reflexivity|done].
  simpl. by rewrite <- app_assoc.
Qed.

Lemma script_pasos (p : Pantalla) (w : Mundo) :
  script p w
  = (df_gastos ← arranque;
     (if negb (df_empty df_gastos) then
        if pulsa_actualizar p
        then boton_actualizar (categoria_a_editar p) (nuevo_nombre p)
        else mret tt
      else mret tt) ;;
     (if pulsa_eliminar p then eliminar_gasto (id_a_eliminar p) else mret tt) ;;
     (if pulsa_guardar p then boton_guardar (formulario_de p) else mret tt) ;;
     match reportes df_gastos with
     | inl e => raise e
     | inr v => mret v
     end) w.
Proof.
  unfold script, arranque, mbind, M_bind, bind.
  by destruct (init_db w) as [[[]|e] w1].
Qed.

Lemma total_gastado_perm (l l' : list Gasto) :
  Permutation l l' -> (total_gastado l == total_gastado l')%Q.
Proof.
  intros Hp. unfold total_gastado. rewrite !fold_left_suma.
  rewrite (suma_perm _ (List.map monto_usd l')); [reflexivity|].
  by apply Permutation_map.
Qed.

(** X28: saving shows on the next run.  On an initialised file and a
    healthy storage, a run in which only "Guardar Gasto" is pressed on a
    form that is accepted ends with the rerun request; the run that
    follows, with no button pressed, draws the dashboard over the old rows
    and the new one: one more row is counted and the total has grown by
    the amount in dollars of the new row. *)
Theorem guardar_y_ver (p p' : Pantalla) (w : Mundo) (t : Tabla) :
  medios w = [] ->
  base w = Some t ->
  tiene_columnas columnas_nuevas t = true ->
  pulsa_actualizar p = false -> pulsa_eliminar p = false -> pulsa_guardar p = true ->
  ~ formulario_rechazado (formulario_de p) ->
  In (w_moneda p) monedas ->
  pulsa_actualizar p' = false -> pulsa_eliminar p' = false -> pulsa_guardar p' = false ->
  exists (w1 w2 : Mundo) (nuevo : Gasto) (promedio : Q) figc figb figt historial,
    script p w = (Raise RerunException, w1)
    /\ script p' w1
       = (Ret (Tablero (total_gastado historial) promedio (S (length (filas t)))
                       figc figb figt historial), w2)
    /\ Permutation historial (filas t ++ [nuevo])
    /\ (total_gastado historial == total_gastado (filas t) + monto_usd nuevo)%Q
    /\ (0 < monto_usd nuevo)%Q
    /\ categoria nuevo = PyStr.strip (categoria_final (formulario_de p))
    /\ concepto nuevo = w_concepto p /\ banco nuevo = w_banco p /\ fecha nuevo = w_fecha p
    /\ (forall r, In r (filas t) -> (id r < id nuevo)%Z).
Proof.
  intros Hm Hb Hc Hpa Hpe Hpg Hok Hmon Hpa' Hpe' Hpg'.
  destruct (conversion_casos (formulario_de p)
              (mkMundo (Some t) []
                 (traza w ++ [Ejecutar CreateTableIfNotExists; Ejecutar AlterRenameMonto;
                              Ejecutar AlterAddCategoria; Ejecutar SelectGastos])))
    as [[Hrej _]|[_ (q & Hq & Hpos)]]; [done|].
  specialize (Hpos Hmon).
  set (nuevo := mkGasto (proximo_id t) (PyStr.strip (categoria_final (formulario_de p)))
                        (w_concepto p) (w_banco p) q (w_fecha p)).
  set (t1 := mkTabla (columnas t) (filas t ++ [nuevo]) (proximo_id t)).
  assert (E1 : exists tr1, script p w = (Raise RerunException, mkMundo (Some t1) [] tr1)).
  { rewrite script_pasos. erewrite mbind_ret; [|by apply arranque_listo].
    rewrite Hpa, Hpe, Hpg.
    erewrite mbind_ret; [|by destruct (negb _)].
    erewrite mbind_ret; [|reflexivity].
    erewrite mbind_raise; [by eexists|].
    rewrite boton_guardar_pasos, Hq.
    erewrite mbind_ret; [|by apply guardar_gasto_sano]. reflexivity. }
  destruct E1 as [tr1 E1].
  set (hist := ordenar_desc fecha_menor (filas t1)).
  assert (Hperm : Permutation hist (filas t ++ [nuevo])) by apply ordenar_desc_perm.
  assert (Hlen : length hist = S (length (filas t))).
  { rewrite (Permutation_length Hperm), length_app. simpl. lia. }
  assert (E2 : exists tr2 promedio figc figb figt,
             script p' (mkMundo (Some t1) [] tr1)
             = (Ret (Tablero (total_gastado hist) promedio (S (length (filas t)))
                             figc figb figt hist), mkMundo (Some t1) [] tr2)).
  { rewrite script_pasos.
    erewrite mbind_ret; [|by apply (arranque_listo _ t1)].
    rewrite Hpa', Hpe', Hpg'.
    erewrite mbind_ret; [|by destruct (negb _)].
    erewrite mbind_ret; [|reflexivity].
    erewrite mbind_ret; [|reflexivity].
    unfold reportes, df_empty. cbn [df_filas]. fold hist.
    destruct hist as [|r rs] eqn:Eh; [done|].
    cbn [gastos_tiempo]. rewrite Hlen. by eexists _, _, _, _, _. }
  destruct E2 as (tr2 & promedio & figc & figb & figt & E2).
  exists (mkMundo (Some t1) [] tr1), (mkMundo (Some t1) [] tr2), nuevo,
         promedio, figc, figb, figt, hist.
  split; [exact E1|]. split; [exact E2|]. split; [exact Hperm|].
  split.
  { rewrite (total_gastado_perm _ _ Hperm). unfold total_gastado.
    rewrite !fold_left_suma, List.map_app. simpl.
    assert (Hs : forall l1 l2, (suma (l1 ++ l2) == suma l1 + suma l2)%Q).
    { induction l1 as [|x l1 IH]; intros l2; simpl; [ring|]. rewrite IH. ring. }
    rewrite Hs. simpl. ring. }
  repeat (split; [done|]).
  intros r Hr. apply max_id_cota in Hr. simpl. unfold proximo_id. lia.
Qed.

Lemma guardar_y_ver_witness :
  exists (w1 w2 : Mundo) (v : Vista),
    script pantalla_guardar mundo_ejemplo = (Raise RerunException, w1)
    /\ script pantalla_quieta w1 = (Ret v, w2).
Proof.
  destruct (guardar_y_ver pantalla_guardar pantalla_quieta mundo_ejemplo tabla_ejemplo)
    as (w1 & w2 & nuevo & promedio & figc & figb & figt & historial & E1 & E2 & _);
    try reflexivity.
  - intros [H|[H|[H|[H|[H _]]]]]; try discriminate H.
    unfold Qle in H. simpl in H. lia.
  - by left.
  - exists w1, w2. eexists. split; [exact E1|exact E2].
Defined.
